(** * test_preview.py: the fixture generator for the preview tests

    A shallow embedding of [create_test_directory] (src/test_preview.py)
    and of the library calls it makes: [os.path.abspath], [os.path.dirname],
    [os.path.join], [os.makedirs], the text-mode [open]/[write] pair and
    [print].

    Conventions of the embedding.
    - The interpreter runs on a POSIX system: [os.path] is [posixpath], the
      separator is the slash and [os.linesep] is the line feed.
    - A Python [str] is held as the [string] of its UTF-8 code units, which
      is what a string literal of this file denotes; every [str] operation
      the script performs (concatenation, search for the slash, replacement
      of the line feed) acts on code units exactly as it acts on code
      points.  Encoding with [encoding="utf-8"] is then the passage from
      [string] to [list byte].
    - The file system is a finite map from absolute normalised paths to
      nodes; a node carries the write permission of the running process.
    - A text stream keeps what is written to it and hands it to the file
      when 8192 bytes are pending or when it is closed; the world holds
      the pending bytes of the open streams.
    - An exception is an outcome of a computation, returned together with
      the world as the failing call left it. *)

From Stdlib Require Import ZArith Ascii String Permutation DecimalString.
From Stdlib.Strings Require Import Byte.
From stdpp Require Import gmap strings list fin_maps.

Local Open Scope Z_scope.

(** ** Python [str] primitives *)

Module Str.

(** The two characters the literals below cannot spell inline. *)
Definition q : string := String (ascii_of_nat 34) EmptyString.
Definition nl : string := String (ascii_of_nat 10) EmptyString.
Definition cr : string := String (ascii_of_nat 13) EmptyString.

Definition sep : ascii := ascii_of_nat 47.

(** [bool(s)]: a string is true when it is not empty. *)
Definition nonempty (s : string) : bool :=
  match s with EmptyString => false | String _ _ => true end.

(** [s.startswith(c)] and [s.endswith(c)] for a single character. *)
Definition startswith (s : string) (c : ascii) : bool :=
  match s with EmptyString => false | String x _ => Ascii.eqb x c end.

Fixpoint endswith (s : string) (c : ascii) : bool :=
  match s with
  | EmptyString => false
  | String x EmptyString => Ascii.eqb x c
  | String _ r => endswith r c
  end.

(** [s.rfind(c)]: the highest index holding [c], or [-1]. *)
Fixpoint rfind (s : string) (c : ascii) : Z :=
  match s with
  | EmptyString => -1
  | String x r =>
      let i := rfind r c in
      if 0 <=? i then i + 1 else if Ascii.eqb x c then 0 else -1
  end.

(** [s[:i]] and [s[i:]] for an index [0 <= i]. *)
Fixpoint upto (n : nat) (s : string) : string :=
  match n, s with
  | S n', String x r => String x (upto n' r)
  | _, _ => EmptyString
  end.

Fixpoint from (n : nat) (s : string) : string :=
  match n, s with
  | S n', String _ r => from n' r
  | _, _ => s
  end.

Definition slice_to (s : string) (i : Z) : string := upto (Z.to_nat i) s.
Definition slice_from (s : string) (i : Z) : string := from (Z.to_nat i) s.

(** [s.rstrip(c)]: drop the trailing run of [c]. *)
Fixpoint rstrip (s : string) (c : ascii) : string :=
  match s with
  | EmptyString => EmptyString
  | String x r =>
      match rstrip r c with
      | EmptyString => if Ascii.eqb x c then EmptyString else String x EmptyString
      | r' => String x r'
      end
  end.

(** [c * n]: the character repeated. *)
Fixpoint mul (c : string) (n : nat) : string :=
  match n with O => EmptyString | S n' => c +:+ mul c n' end.

(** [c in s]. *)
Fixpoint contains (s : string) (c : ascii) : bool :=
  match s with
  | EmptyString => false
  | String x r => Ascii.eqb x c || contains r c
  end.

(** [s.replace(a, b)] for a single character [a]. *)
Fixpoint replace (s : string) (a : ascii) (b : string) : string :=
  match s with
  | EmptyString => EmptyString
  | String x r =>
      (if Ascii.eqb x a then b else String x EmptyString) +:+ replace r a b
  end.

End Str.

(** ** [posixpath] *)

Module posixpath.
Import Str.

Definition isabs (s : string) : bool := startswith s sep.

(** One step of the loop of [join], for the single component the script
    passes. *)
Definition join (a b : string) : string :=
  if startswith b sep then b
  else if negb (nonempty a) || endswith a sep then a +:+ b
  else a +:+ String sep EmptyString +:+ b.

Definition split (p : string) : string * string :=
  let i := rfind p sep + 1 in
  let head := slice_to p i in
  let tail := slice_from p i in
  let head :=
    if nonempty head
       && negb (String.eqb head (mul (String sep EmptyString) (String.length head)))
    then rstrip head sep else head in
  (head, tail).

Definition dirname (p : string) : string :=
  let i := rfind p sep + 1 in
  let head := slice_to p i in
  if nonempty head
     && negb (String.eqb head (mul (String sep EmptyString) (String.length head)))
  then rstrip head sep else head.

Definition basename (p : string) : string :=
  let i := rfind p sep + 1 in
  slice_from p i.

(** A bare file name: not empty and free of the separator. *)
Definition bare (n : string) : bool := nonempty n && negb (contains n sep).

(** A directory path that [join] extends with a separator: not empty and
    not ending in one. *)
Definition clean (d : string) : bool := nonempty d && negb (endswith d sep).

End posixpath.

(** ** The world: file system, console, process environment *)

(** A node of the file system with the write permission of the process:
    on a directory, the right to create entries in it; on a regular file,
    the right to open it for writing.  [Refused] is a regular file the
    process may open and truncate but whose [write] calls the system
    turns down with EACCES, as a server can that checks the right again
    on each request.  It is the one way a write can fail here: the space
    left on the device is not part of the world. *)
Inductive node : Type :=
| Dir (writable : bool)
| File (writable : bool) (data : list byte)
| Refused (data : list byte).

(** What a process can read besides the file system.  The script reads none
    of it. *)
Record Env : Type := mkEnv {
  argv : list string;
  environ : gmap string string;
  clock : Z;
  entropy : list byte
}.

(** [stdout] holds the argument of every [print] call so far, oldest first;
    each call writes its argument and a line feed to the stream.
    [pending] holds, for each text stream open for writing, under the name
    of its file, the bytes written to the stream that have not reached the
    file yet. *)
Record World : Type := mkWorld {
  fs : gmap string node;
  stdout : list string;
  env : Env;
  pending : gmap string (list byte)
}.

Definition set_fs (f : gmap string node → gmap string node) (w : World) : World :=
  mkWorld (f (fs w)) (stdout w) (env w) (pending w).

Definition set_pending (f : gmap string (list byte) → gmap string (list byte))
    (w : World) : World :=
  mkWorld (fs w) (stdout w) (env w) (f (pending w)).

Definition stdout_text (w : World) : string :=
  String.concat EmptyString (map (λ s, s +:+ Str.nl) (stdout w)).

(** ** Computations that may raise *)

Inductive exn : Type :=
| FileExistsError
| FileNotFoundError
| NotADirectoryError
| IsADirectoryError
| PermissionError
| BadFileDescriptor   (* OSError, errno EBADF *)
| RecursionError
| ValueError.          (* I/O operation on closed file *)

(** [isinstance(e, OSError)]. *)
Definition is_OSError (e : exn) : bool :=
  match e with RecursionError | ValueError => false | _ => true end.

Inductive outcome (A : Type) : Type :=
| Return (a : A)
| Raise (e : exn).
Arguments Return {A} a.
Arguments Raise {A} e.

Definition IO (A : Type) : Type := World → World * outcome A.

Definition ret {A} (a : A) : IO A := λ w, (w, Return a).
Definition raise {A} (e : exn) : IO A := λ w, (w, Raise e).

Definition bind {A B} (c : IO A) (k : A → IO B) : IO B := λ w,
  match c w with
  | (w', Return a) => k a w'
  | (w', Raise e) => (w', Raise e)
  end.

(** [try: c  finally: fin]: [fin] runs on both exits of [c]; an exception
    of [fin] goes on in place of the outcome of [c]. *)
Definition finally_ {A} (c : IO A) (fin : IO unit) : IO A := λ w,
  match c w with
  | (w1, o) =>
      match fin w1 with
      | (w2, Return _) => (w2, o)
      | (w2, Raise e) => (w2, Raise e)
      end
  end.

(** [try: c  except <handled>: h e]; an exception the clause does not name
    passes through. *)
Definition try_except {A} (c : IO A) (handled : exn → bool) (h : exn → IO A) : IO A :=
  λ w,
  match c w with
  | (w', Return a) => (w', Return a)
  | (w', Raise e) => if handled e then h e w' else (w', Raise e)
  end.

Declare Scope io_scope.
Delimit Scope io_scope with io.
Bind Scope io_scope with IO.
Notation "x <- c1 ;; c2" := (bind c1 (λ x, c2))
  (at level 100, c1 at next level, c2 at level 200, right associativity) : io_scope.
Notation "c1 ;; c2" := (bind c1 (λ _, c2))
  (at level 100, c2 at level 200, right associativity) : io_scope.
Local Open Scope io_scope.

(** ** [os] and [os.path] calls that touch the file system *)

Module os.
Import Str.

(** [os.path.exists] and [os.path.isdir]: a [stat] that fails is [False]. *)
Definition exists_ (p : string) : IO bool := λ w,
  (w, Return (bool_decide (is_Some (fs w !! p)))).

Definition isdir (p : string) : IO bool := λ w,
  (w, Return (match fs w !! p with Some (Dir _) => true | _ => false end)).

(** [os.mkdir(p)]: the parent is resolved first, then the name is looked
    up in it, then the permission to add an entry is checked.  The new
    directory is writable by its creator. *)
Definition mkdir (p : string) : IO unit := λ w,
  match fs w !! posixpath.dirname p with
  | None => (w, Raise FileNotFoundError)
  | Some (File _ _) | Some (Refused _) => (w, Raise NotADirectoryError)
  | Some (Dir wr) =>
      match fs w !! p with
      | Some _ => (w, Raise FileExistsError)
      | None =>
          if wr then (set_fs <[p := Dir true]> w, Return tt)
          else (w, Raise PermissionError)
      end
  end.

(** The last statement of [makedirs] with [exist_ok=True]:
    [try: mkdir(name)  except OSError: if not path.isdir(name): raise]. *)
Definition mkdir_exist_ok (name : string) : IO unit :=
  try_except (mkdir name) is_OSError (λ e,
    d <- isdir name ;;
    if d then ret tt else raise e).

(** [os.makedirs(name, exist_ok=True)].  The recursion is on a strictly
    shorter path; [fuel] bounds its depth.  [path.exists] has no effect, so
    it is evaluated ahead of the test it belongs to. *)
Fixpoint makedirs_rec (fuel : nat) (name : string) : IO unit :=
  match fuel with
  | O => raise RecursionError
  | S fuel' =>
      let '(head, tail) := posixpath.split name in
      let '(head, tail) :=
        if nonempty tail then (head, tail) else posixpath.split head in
      present <- exists_ head ;;
      if nonempty head && nonempty tail && negb present then
        try_except (makedirs_rec fuel' head)
          (λ e, match e with FileExistsError => true | _ => false end)
          (λ _, ret tt) ;;
        if String.eqb tail "." then ret tt else mkdir_exist_ok name
      else mkdir_exist_ok name
  end.

(** The head and tail [makedirs] works with. *)
Definition makedirs_parts (name : string) : string * string :=
  if nonempty (posixpath.basename name)
  then (posixpath.dirname name, posixpath.basename name)
  else posixpath.split (posixpath.dirname name).

Definition makedirs (name : string) : IO unit :=
  makedirs_rec (S (String.length name)) name.

End os.

(** ** Text files and the console *)

Module io.
Import Str.

(** [os.linesep] of the POSIX platform. *)
Definition linesep : string := nl.

(** What a text stream opened with [encoding="utf-8"] and the default
    [newline=None] hands to the file for [write(s)]: every line feed
    becomes the platform's line separator, and the result is encoded. *)
Definition encode_text (sepline : string) (s : string) : list byte :=
  String.list_byte_of_string (replace s (ascii_of_nat 10) sepline).

(** Reading back in text mode: decode, then fold the line endings
    CR LF and CR into the line feed (universal newlines). *)
Fixpoint universal_newlines (s : string) : string :=
  match s with
  | EmptyString => EmptyString
  | String c r =>
      if Ascii.eqb c (ascii_of_nat 13) then
        match r with
        | String c' r' =>
            if Ascii.eqb c' (ascii_of_nat 10) then nl +:+ universal_newlines r'
            else nl +:+ universal_newlines r
        | EmptyString => nl
        end
      else String c (universal_newlines r)
  end.

Definition decode_text (d : list byte) : string :=
  universal_newlines (String.string_of_list_byte d).

(** The file object: the script only ever writes through it.  Its buffer
    is the entry of [pending] under its name. *)
Record file : Type := mkfile { name : string }.

(** The bytes a stream keeps before it hands them to the file
    ([io.DEFAULT_BUFFER_SIZE]). *)
Definition chunk_size : N := 8192.

(** The world with the node [nd] at [p] and the bytes [b] pending in the
    stream of that name. *)
Definition streaming (p : string) (nd : node) (b : list byte) (w : World) : World :=
  mkWorld (<[p := nd]> (fs w)) (stdout w) (env w) (<[p := b]> (pending w)).

(** A stream starts on the node [nd] at [p], with nothing pending. *)
Definition start (p : string) (nd : node) (w : World) : World * outcome file :=
  (streaming p nd [] w, Return (mkfile p)).

(** [open(p, "w", encoding="utf-8")]: the parent directory is resolved,
    then an existing regular file is truncated if the process may write
    it, and a missing one is created if the process may add an entry to
    the directory.  A file the process creates is writable by it. *)
Definition open_w (p : string) : IO file := λ w,
  match fs w !! posixpath.dirname p with
  | None => (w, Raise FileNotFoundError)
  | Some (File _ _) | Some (Refused _) => (w, Raise NotADirectoryError)
  | Some (Dir dw) =>
      match fs w !! p with
      | Some (Dir _) => (w, Raise IsADirectoryError)
      | Some (File fw _) =>
          if fw then start p (File true []) w else (w, Raise PermissionError)
      | Some (Refused _) => start p (Refused []) w
      | None =>
          if dw then start p (File true []) w else (w, Raise PermissionError)
      end
  end.

(** [f.flush()]: the pending bytes go to the end of the file with one
    [write] call of the system, which a [Refused] file turns down; with
    nothing pending the system is not called. *)
Definition flush (f : file) : IO unit := λ w,
  match pending w !! name f with
  | None => (w, Raise ValueError)
  | Some [] => (w, Return tt)
  | Some b =>
      match fs w !! name f with
      | Some (File fw d) => (streaming (name f) (File fw (d ++ b)) [] w, Return tt)
      | Some (Refused _) => (w, Raise PermissionError)
      | _ => (w, Raise BadFileDescriptor)
      end
  end.

(** [f.write(s)]: the encoded text joins the pending bytes; the stream is
    flushed once [chunk_size] bytes are pending. *)
Definition write (f : file) (s : string) : IO unit := λ w,
  match pending w !! name f with
  | None => (w, Raise ValueError)
  | Some b =>
      let b' := b ++ encode_text linesep s in
      let w' := set_pending <[name f := b']> w in
      if (chunk_size <=? N.of_nat (length b'))%N then flush f w' else (w', Return tt)
  end.

(** [f.close()]: flush, then give the stream up whether the flush raised
    or not; the exception of the flush goes on.  Closing twice is
    allowed. *)
Definition close (f : file) : IO unit := λ w,
  match pending w !! name f with
  | None => (w, Return tt)
  | Some _ =>
      let '(w1, o) := flush f w in
      (set_pending (delete (name f)) w1, o)
  end.

(** [with open(p, "w", encoding="utf-8") as f: body].  Leaving the block,
    normally or by an exception, closes the file; an exception of the
    [close] goes on, otherwise the one of the body, if any. *)
Definition with_open (p : string) (body : file → IO unit) : IO unit :=
  f <- open_w p ;; finally_ (body f) (close f).

(** [print(s)]. *)
Definition print (s : string) : IO unit := λ w,
  (mkWorld (fs w) (stdout w ++ [s]) (env w) (pending w), Return tt).

End io.

(** ** The literals of the script

    Each constant is the argument of one [f.write] call, line by line as
    the source has it between the triple quotes; [q] stands for the double
    quote. *)

Section Literals.
Import Str.

Definition txt_text_1 : string := "This is a sample text file for preview testing." +:+ nl.
Definition txt_text_2 : string := "It contains multiple lines of text." +:+ nl.
Definition txt_text_3 : string := "Line 3: Testing preview functionality." +:+ nl.
Definition txt_text_4 : string := "Line 4: Hello World!" +:+ nl.

Definition json_text : string := String.concat nl [
  "{";
  "    " +:+ q +:+ "name" +:+ q +:+ ": " +:+ q +:+ "Preview Test" +:+ q +:+ ",";
  "    " +:+ q +:+ "version" +:+ q +:+ ": " +:+ q +:+ "1.0.0" +:+ q +:+ ",";
  "    " +:+ q +:+ "description" +:+ q +:+ ": " +:+ q +:+ "Sample JSON file for preview testing" +:+ q +:+ ",";
  "    " +:+ q +:+ "features" +:+ q +:+ ": [";
  "        " +:+ q +:+ "Syntax highlighting" +:+ q +:+ ",";
  "        " +:+ q +:+ "Dark/Light theme support" +:+ q +:+ ",";
  "        " +:+ q +:+ "Line numbers" +:+ q;
  "    ],";
  "    " +:+ q +:+ "settings" +:+ q +:+ ": {";
  "        " +:+ q +:+ "enabled" +:+ q +:+ ": true,";
  "        " +:+ q +:+ "maxSize" +:+ q +:+ ": 5000000";
  "    }";
  "}"
].

Definition py_text : string := String.concat nl [
  "#!/usr/bin/env python3";
  q +:+ q +:+ q +:+ "Sample Python file for preview testing." +:+ q +:+ q +:+ q;
  EmptyString;
  "def hello_world():";
  "    " +:+ q +:+ q +:+ q +:+ "Print hello world message." +:+ q +:+ q +:+ q;
  "    print(" +:+ q +:+ "Hello, World!" +:+ q +:+ ")";
  "    return True";
  EmptyString;
  "class Calculator:";
  "    " +:+ q +:+ q +:+ q +:+ "A simple calculator class." +:+ q +:+ q +:+ q;
  "    ";
  "    def __init__(self):";
  "        self.result = 0";
  "    ";
  "    def add(self, a, b):";
  "        " +:+ q +:+ q +:+ q +:+ "Add two numbers." +:+ q +:+ q +:+ q;
  "        self.result = a + b";
  "        return self.result";
  "    ";
  "    def subtract(self, a, b):";
  "        " +:+ q +:+ q +:+ q +:+ "Subtract two numbers." +:+ q +:+ q +:+ q;
  "        self.result = a - b";
  "        return self.result";
  EmptyString;
  "if __name__ == " +:+ q +:+ "__main__" +:+ q +:+ ":";
  "    hello_world()";
  "    calc = Calculator()";
  "    print(f" +:+ q +:+ "5 + 3 = {calc.add(5, 3)}" +:+ q +:+ ")";
  EmptyString
].

Definition cs_text : string := String.concat nl [
  "using System;";
  EmptyString;
  "namespace PreviewTest";
  "{";
  "    /// <summary>";
  "    /// Sample C# class for preview testing.";
  "    /// </summary>";
  "    public class Sample";
  "    {";
  "        public string Name { get; set; }";
  "        public int Value { get; set; }";
  "        ";
  "        public Sample(string name, int value)";
  "        {";
  "            Name = name;";
  "            Value = value;";
  "        }";
  "        ";
  "        public void PrintInfo()";
  "        {";
  "            Console.WriteLine($" +:+ q +:+ "Name: {Name}, Value: {Value}" +:+ q +:+ ");";
  "        }";
  "    }";
  "    ";
  "    class Program";
  "    {";
  "        static void Main(string[] args)";
  "        {";
  "            var sample = new Sample(" +:+ q +:+ "Test" +:+ q +:+ ", 42);";
  "            sample.PrintInfo();";
  "        }";
  "    }";
  "}";
  EmptyString
].

Definition html_text : string := String.concat nl [
  "<!DOCTYPE html>";
  "<html lang=" +:+ q +:+ "en" +:+ q +:+ ">";
  "<head>";
  "    <meta charset=" +:+ q +:+ "UTF-8" +:+ q +:+ ">";
  "    <meta name=" +:+ q +:+ "viewport" +:+ q +:+ " content=" +:+ q +:+ "width=device-width, initial-scale=1.0" +:+ q +:+ ">";
  "    <title>Preview Test</title>";
  "    <style>";
  "        body {";
  "            font-family: 'Segoe UI', sans-serif;";
  "            background: linear-gradient(135deg, #667eea 0%, #764ba2 100%);";
  "            color: white;";
  "            padding: 40px;";
  "        }";
  "        h1 { color: #fff; }";
  "        .card {";
  "            background: white;";
  "            color: #333;";
  "            padding: 20px;";
  "            border-radius: 8px;";
  "            box-shadow: 0 4px 12px rgba(0,0,0,0.2);";
  "        }";
  "    </style>";
  "</head>";
  "<body>";
  "    <h1>Preview Test Page</h1>";
  "    <div class=" +:+ q +:+ "card" +:+ q +:+ ">";
  "        <h2>Welcome</h2>";
  "        <p>This is a sample HTML file for testing the preview functionality.</p>";
  "    </div>";
  "</body>";
  "</html>";
  EmptyString
].

Definition css_text : string := String.concat nl [
  "/* Sample CSS file for preview testing */";
  EmptyString;
  ":root {";
  "    --primary-color: #007ACC;";
  "    --secondary-color: #3E3E42;";
  "    --text-color: #CCCCCC;";
  "    --background-color: #1E1E1E;";
  "}";
  EmptyString;
  "body {";
  "    font-family: 'Segoe UI', Tahoma, Geneva, Verdana, sans-serif;";
  "    background-color: var(--background-color);";
  "    color: var(--text-color);";
  "    margin: 0;";
  "    padding: 20px;";
  "    line-height: 1.6;";
  "}";
  EmptyString;
  ".container {";
  "    max-width: 1200px;";
  "    margin: 0 auto;";
  "    padding: 20px;";
  "}";
  EmptyString;
  ".button {";
  "    background-color: var(--primary-color);";
  "    color: white;";
  "    border: none;";
  "    padding: 10px 20px;";
  "    border-radius: 4px;";
  "    cursor: pointer;";
  "    transition: background-color 0.3s ease;";
  "}";
  EmptyString;
  ".button:hover {";
  "    background-color: #005a9e;";
  "}";
  EmptyString;
  "/* Responsive design */";
  "@media (max-width: 768px) {";
  "    .container {";
  "        padding: 10px;";
  "    }";
  "}";
  EmptyString
].

Definition md_text : string := String.concat nl [
  "# Preview Test";
  EmptyString;
  "This is a sample **Markdown** file for testing.";
  EmptyString;
  "## Features";
  EmptyString;
  "- Syntax highlighting";
  "- Dark/Light theme support";
  "- Line numbers";
  EmptyString;
  "## Code Example";
  EmptyString;
  "```python";
  "def hello():";
  "    print(" +:+ q +:+ "Hello, World!" +:+ q +:+ ")";
  "```";
  EmptyString;
  "## Table";
  EmptyString;
  "| Feature | Status |";
  "|---------|--------|";
  "| Images | ✅ |";
  "| Text | ✅ |";
  "| PDF | ✅ |";
  EmptyString;
  "---";
  EmptyString;
  "*Created for preview testing*";
  EmptyString
].

Definition xml_text : string := String.concat nl [
  "<?xml version=" +:+ q +:+ "1.0" +:+ q +:+ " encoding=" +:+ q +:+ "UTF-8" +:+ q +:+ "?>";
  "<project>";
  "    <name>Preview Test</name>";
  "    <version>1.0.0</version>";
  "    <description>Sample XML file for preview testing</description>";
  "    <features>";
  "        <feature name=" +:+ q +:+ "Syntax highlighting" +:+ q +:+ " enabled=" +:+ q +:+ "true" +:+ q +:+ "/>";
  "        <feature name=" +:+ q +:+ "Dark theme" +:+ q +:+ " enabled=" +:+ q +:+ "true" +:+ q +:+ "/>";
  "        <feature name=" +:+ q +:+ "Line numbers" +:+ q +:+ " enabled=" +:+ q +:+ "true" +:+ q +:+ "/>";
  "    </features>";
  "    <settings>";
  "        <setting key=" +:+ q +:+ "maxSize" +:+ q +:+ " value=" +:+ q +:+ "5000000" +:+ q +:+ "/>";
  "        <setting key=" +:+ q +:+ "timeout" +:+ q +:+ " value=" +:+ q +:+ "10" +:+ q +:+ "/>";
  "    </settings>";
  "</project>";
  EmptyString
].

Definition csv_text : string := String.concat nl [
  "id,name,value,status";
  "1,Item A,100,active";
  "2,Item B,200,inactive";
  "3,Item C,300,active";
  "4,Item D,400,pending";
  "5,Item E,500,active";
  EmptyString
].

Definition sql_text : string := String.concat nl [
  "-- Sample SQL file for preview testing";
  "-- Create a sample table";
  EmptyString;
  "CREATE TABLE users (";
  "    id INT PRIMARY KEY AUTO_INCREMENT,";
  "    username VARCHAR(50) NOT NULL,";
  "    email VARCHAR(100) UNIQUE,";
  "    created_at TIMESTAMP DEFAULT CURRENT_TIMESTAMP";
  ");";
  EmptyString;
  "-- Insert sample data";
  "INSERT INTO users (username, email) VALUES";
  "('john_doe', 'john@example.com'),";
  "('jane_smith', 'jane@example.com'),";
  "('bob_wilson', 'bob@example.com');";
  EmptyString;
  "-- Select all users";
  "SELECT * FROM users WHERE id > 0 ORDER BY created_at DESC;";
  EmptyString;
  "-- Update a user";
  "UPDATE users SET email = 'new_email@example.com' WHERE username = 'john_doe';";
  EmptyString
].

End Literals.

(** ** The script *)

Section Script.
Import Str io.

(** [create_test_directory()].  [abspath_file] is the value of
    [os.path.abspath(__file__)], the absolute normalised path of the script:
    the only thing the function reads. *)
Definition create_test_directory (abspath_file : string) : IO string :=
  let test_dir := posixpath.join (posixpath.dirname abspath_file) "test_preview_files" in
  os.makedirs test_dir ;;

  print ("Creating test files in: " +:+ test_dir) ;;
  print (mul "-" 50) ;;

  (* 1. Text file *)
  let txt_file := posixpath.join test_dir "sample.txt" in
  with_open txt_file (λ f,
    write f txt_text_1 ;;
    write f txt_text_2 ;;
    write f txt_text_3 ;;
    write f txt_text_4) ;;
  print ("✅ Created: " +:+ txt_file) ;;

  (* 2. JSON file *)
  let json_file := posixpath.join test_dir "sample.json" in
  with_open json_file (λ f, write f json_text) ;;
  print ("✅ Created: " +:+ json_file) ;;

  (* 3. Python file *)
  let py_file := posixpath.join test_dir "sample.py" in
  with_open py_file (λ f, write f py_text) ;;
  print ("✅ Created: " +:+ py_file) ;;

  (* 4. C# file *)
  let cs_file := posixpath.join test_dir "Sample.cs" in
  with_open cs_file (λ f, write f cs_text) ;;
  print ("✅ Created: " +:+ cs_file) ;;

  (* 5. HTML file *)
  let html_file := posixpath.join test_dir "sample.html" in
  with_open html_file (λ f, write f html_text) ;;
  print ("✅ Created: " +:+ html_file) ;;

  (* 6. CSS file *)
  let css_file := posixpath.join test_dir "sample.css" in
  with_open css_file (λ f, write f css_text) ;;
  print ("✅ Created: " +:+ css_file) ;;

  (* 7. Markdown file *)
  let md_file := posixpath.join test_dir "README.md" in
  with_open md_file (λ f, write f md_text) ;;
  print ("✅ Created: " +:+ md_file) ;;

  (* 8. XML file *)
  let xml_file := posixpath.join test_dir "sample.xml" in
  with_open xml_file (λ f, write f xml_text) ;;
  print ("✅ Created: " +:+ xml_file) ;;

  (* 9. CSV file *)
  let csv_file := posixpath.join test_dir "sample.csv" in
  with_open csv_file (λ f, write f csv_text) ;;
  print ("✅ Created: " +:+ csv_file) ;;

  (* 10. SQL file *)
  let sql_file := posixpath.join test_dir "sample.sql" in
  with_open sql_file (λ f, write f sql_text) ;;
  print ("✅ Created: " +:+ sql_file) ;;

  print (mul "-" 50) ;;
  print (nl +:+ "🎉 Test files created successfully!") ;;
  print (nl +:+ "To test preview functionality:") ;;
  print "1. Open OfflineProjectManager" ;;
  print "2. Create or open a project" ;;
  print ("3. Add folder: " +:+ test_dir) ;;
  print "4. Click on each file to test preview" ;;

  ret test_dir.

(** [if __name__ == "__main__": create_test_directory()].  The value is
    dropped; an exception that reaches this point ends the process. *)
Definition main (abspath_file : string) : IO unit :=
  create_test_directory abspath_file ;; ret tt.

(** The exit status of the process: 0 on a normal end, 1 when an exception
    was not caught. *)
Definition exit_status {A} (o : outcome A) : Z :=
  match o with Return _ => 0 | Raise _ => 1 end.

End Script.

(** ** The script as a table of fixtures

    The ten blocks of the script differ only in the file name and in the
    strings written.  The table lists them in source order; the function
    below runs a table the way the script runs its blocks. *)

Section Table.
Import Str io.

Definition fixture : Type := string * list string.

Definition fixtures : list fixture :=
  [ ("sample.txt", [txt_text_1; txt_text_2; txt_text_3; txt_text_4]);
    ("sample.json", [json_text]);
    ("sample.py", [py_text]);
    ("Sample.cs", [cs_text]);
    ("sample.html", [html_text]);
    ("sample.css", [css_text]);
    ("README.md", [md_text]);
    ("sample.xml", [xml_text]);
    ("sample.csv", [csv_text]);
    ("sample.sql", [sql_text]) ].

(** The text a block writes: its strings one after the other. *)
Definition content (x : fixture) : string := String.concat EmptyString x.2.

Definition target (test_dir : string) (x : fixture) : string :=
  posixpath.join test_dir x.1.

Definition created_line (test_dir : string) (x : fixture) : string :=
  "✅ Created: " +:+ target test_dir x.

Fixpoint write_chunks (f : file) (cs : list string) : IO unit :=
  match cs with
  | [] => ret tt
  | [c] => write f c
  | c :: cs' => write f c ;; write_chunks f cs'
  end.

(** One block: open, write, close, confirm. *)
Definition write_fixture (test_dir : string) (x : fixture) : IO unit :=
  with_open (target test_dir x) (λ f, write_chunks f x.2) ;;
  print (created_line test_dir x).

Fixpoint write_all (test_dir : string) (l : list fixture) : IO unit :=
  match l with
  | [] => ret tt
  | x :: l' => write_fixture test_dir x ;; write_all test_dir l'
  end.

(** The blocks followed by the rest of the function. *)
Fixpoint write_all_then {A} (test_dir : string) (l : list fixture) (k : IO A) : IO A :=
  match l with
  | [] => k
  | x :: l' =>
      with_open (target test_dir x) (λ f, write_chunks f x.2) ;;
      print (created_line test_dir x) ;;
      write_all_then test_dir l' k
  end.

Definition output_dir (abspath_file : string) : string :=
  posixpath.join (posixpath.dirname abspath_file) "test_preview_files".

Definition rule : string := mul "-" 50.

Definition prologue (test_dir : string) : list string :=
  [ "Creating test files in: " +:+ test_dir; rule ].

Definition epilogue (test_dir : string) : list string :=
  [ rule;
    nl +:+ "🎉 Test files created successfully!";
    nl +:+ "To test preview functionality:";
    "1. Open OfflineProjectManager";
    "2. Create or open a project";
    "3. Add folder: " +:+ test_dir;
    "4. Click on each file to test preview" ].

Fixpoint print_all (ls : list string) : IO unit :=
  match ls with
  | [] => ret tt
  | s :: ls' => print s ;; print_all ls'
  end.

Fixpoint print_all_then {A} (ls : list string) (k : IO A) : IO A :=
  match ls with
  | [] => k
  | s :: ls' => print s ;; print_all_then ls' k
  end.

Definition run_table (l : list fixture) (abspath_file : string) : IO string :=
  let test_dir := output_dir abspath_file in
  os.makedirs test_dir ;;
  print_all_then (prologue test_dir)
    (write_all_then test_dir l
       (print_all_then (epilogue test_dir) (ret test_dir))).

(** What the console gains in a complete run. *)
Definition printed (l : list fixture) (test_dir : string) : list string :=
  prologue test_dir ++ map (created_line test_dir) l ++ epilogue test_dir.

(** The bytes a block leaves in its file. *)
Definition file_bytes (x : fixture) : list byte := encode_text linesep (content x).

(** The file system after the blocks of [l] have run on [m], in order. *)
Definition written (test_dir : string) (l : list fixture) (m : gmap string node)
  : gmap string node :=
  foldl (λ m x, <[target test_dir x := File true (file_bytes x)]> m) m l.

Definition emit (ls : list string) (w : World) : World :=
  mkWorld (fs w) (stdout w ++ ls) (env w) (pending w).

(** The world after the [with] block of [p] has left the node [nd] there:
    the stream is closed. *)
Definition stored (p : string) (nd : node) (w : World) : World :=
  mkWorld (<[p := nd]> (fs w)) (stdout w) (env w) (delete p (pending w)).

(** The world after the blocks of [l] have run on [w], in order, without
    their console lines. *)
Definition written_world (test_dir : string) (l : list fixture) (w : World) : World :=
  foldl (λ w x, stored (target test_dir x) (File true (file_bytes x)) w) w l.

End Table.

(** ** Vocabulary of the statements *)

Definition is_dir (m : gmap string node) (p : string) : bool :=
  match m !! p with Some (Dir _) => true | _ => false end.

Definition is_file (m : gmap string node) (p : string) : bool :=
  match m !! p with Some (File _ _) | Some (Refused _) => true | _ => false end.

(** May the process open [p] for writing and have its bytes stored, in a
    directory whose write permission is [dw]? *)
Definition writable_at (dw : bool) (m : gmap string node) (p : string) : bool :=
  match m !! p with
  | Some (Dir _) => false
  | Some (File fw _) => fw
  | Some (Refused _) => false
  | None => dw
  end.

(** Every node lies in a directory of the file system. *)
Definition parent_closed (m : gmap string node) : Prop :=
  ∀ p nd, m !! p = Some nd → is_dir m (posixpath.dirname p) = true.

(** [w'] is [w] with some directories added, writable ones, where nothing
    was: the only change [makedirs] can make. *)
Definition dirs_added (w w' : World) : Prop :=
  stdout w' = stdout w ∧ env w' = env w ∧
  ∀ p, fs w' !! p = fs w !! p ∨ (fs w !! p = None ∧ fs w' !! p = Some (Dir true)).

(** The text a reader gets from the file at [p] in text mode. *)
Definition read_text (m : gmap string node) (p : string) : option string :=
  match m !! p with
  | Some (File _ d) | Some (Refused d) => Some (io.decode_text d)
  | _ => None
  end.

(** A confirmation line of the console. *)
Definition is_confirmation (s : string) : bool := String.prefix "✅ Created: " s.

(** ** Small worlds for the examples

    The script lies in [/proj], which exists and is writable. *)
Definition demo_world : World :=
  mkWorld (list_to_map [("/", Dir true); ("/proj", Dir true);
                        ("/proj/test_preview.py", File true [])])
          [] (mkEnv [] ∅ 0 []) ∅.

(** The directory of the script is read-only: nothing can be created. *)
Definition readonly_world : World :=
  mkWorld (list_to_map [("/", Dir true); ("/proj", Dir false);
                        ("/proj/test_preview.py", File true [])])
          [] (mkEnv [] ∅ 0 []) ∅.

(** A directory sits where the third file should go. *)
Definition blocked_world : World :=
  mkWorld (list_to_map [("/", Dir true); ("/proj", Dir true);
                        ("/proj/test_preview.py", File true []);
                        ("/proj/test_preview_files", Dir true);
                        ("/proj/test_preview_files/sample.py", Dir true)])
          [] (mkEnv [] ∅ 0 []) ∅.

(** An older, different sample.csv is already there. *)
Definition stale_world : World :=
  mkWorld (list_to_map [("/", Dir true); ("/proj", Dir true);
                        ("/proj/test_preview.py", File true []);
                        ("/proj/test_preview_files", Dir true);
                        ("/proj/test_preview_files/sample.csv",
                         File true (String.list_byte_of_string "old,data"))])
          ["earlier output"] (mkEnv ["test_preview.py"; "--verbose"] ∅ 1700000000 []) ∅.

(** ** Running the script several times, and the console as a stream *)

(** The script started [n] times in a row, each start in the world the one
    before left; an uncaught exception ends the row. *)
Fixpoint main_times (n : nat) (abspath_file : string) : IO unit :=
  match n with
  | O => ret tt
  | S n' => main abspath_file ;; main_times n' abspath_file
  end.

(** [s.split("\n")]: the pieces of [s] between line feeds. *)
Fixpoint split_nl (s : string) : list string :=
  match s with
  | EmptyString => [EmptyString]
  | String c r =>
      if Ascii.eqb c (ascii_of_nat 10) then EmptyString :: split_nl r
      else match split_nl r with
           | h :: t => String c h :: t
           | [] => [String c EmptyString]
           end
  end.

(** A world a complete run has left: the output directory stands, the
    directory of the script is there, and each target holds its bytes. *)
Definition settled (abspath_file : string) (w : World) : Prop :=
  is_dir (fs w) (output_dir abspath_file) = true
  ∧ is_Some (fs w !! posixpath.dirname abspath_file)
  ∧ ∀ x, x ∈ fixtures →
      fs w !! target (output_dir abspath_file) x = Some (File true (file_bytes x)).

(** ** More small worlds *)

(** A regular file has the name of the output directory. *)
Definition file_in_the_way : World :=
  mkWorld (list_to_map [("/", Dir true); ("/proj", Dir true);
                        ("/proj/test_preview.py", File true []);
                        ("/proj/test_preview_files", File true [])])
          [] (mkEnv [] ∅ 0 []) ∅.

(** The output directory is there, empty, and takes no new entry. *)
Definition readonly_empty_dir : World :=
  mkWorld (list_to_map [("/", Dir true); ("/proj", Dir true);
                        ("/proj/test_preview.py", File true []);
                        ("/proj/test_preview_files", Dir false)])
          [] (mkEnv [] ∅ 0 []) ∅.

(** The system will not store what is written to sample.json. *)
Definition refused_world : World :=
  mkWorld (list_to_map [("/", Dir true); ("/proj", Dir true);
                        ("/proj/test_preview.py", File true []);
                        ("/proj/test_preview_files", Dir true);
                        ("/proj/test_preview_files/sample.json",
                         Refused (String.list_byte_of_string "{}"))])
          [] (mkEnv [] ∅ 0 []) ∅.

(** Only the root is there: the directory of the script has gone. *)
Definition bare_root : World :=
  mkWorld (list_to_map [("/", Dir true)]) [] (mkEnv [] ∅ 0 []) ∅.

(** A directory whose name holds a line feed and the text of a
    confirmation. *)
Definition odd_name : string := "/x" +:+ Str.nl +:+ "✅ Created: y".

Definition odd_world : World :=
  mkWorld (list_to_map [("/", Dir true); (odd_name, Dir true)]) [] (mkEnv [] ∅ 0 []) ∅.

(** ** test_preview_files/sample.py

    The sample the third block writes is itself a program of the
    repository.  Its numbers are Python integers, which have no bound. *)

Module sample.

(** [class Calculator]: the one attribute, [result]. *)
Record Calculator : Type := mkCalculator { result : Z }.

(** [Calculator()]: [__init__] sets [result] to 0. *)
Definition init : Calculator := mkCalculator 0.

(** [self.add(a, b)] and [self.subtract(a, b)]: the object after the call
    and the value returned. *)
Definition add (a b : Z) (self : Calculator) : Calculator * Z :=
  let self := mkCalculator (a + b) in
  (self, result self).

Definition subtract (a b : Z) (self : Calculator) : Calculator * Z :=
  let self := mkCalculator (a - b) in
  (self, result self).

(** [hello_world()]. *)
Definition hello_world : IO bool :=
  io.print "Hello, World!" ;; ret true.

(** [str(n)] for an integer: decimal digits, a minus sign when negative. *)
Definition str (n : Z) : string := DecimalString.NilZero.string_of_int (Z.to_int n).

(** The [__main__] block. *)
Definition main : IO unit :=
  hello_world ;;
  let calc := init in
  let '(calc, v) := add 5 3 calc in
  io.print ("5 + 3 = " +:+ str v).

(** A call on a calculator, and a row of calls on the same object. *)
Inductive call : Type :=
| Add (a b : Z)
| Subtract (a b : Z).

Definition do_call (c : call) (self : Calculator) : Calculator * Z :=
  match c with
  | Add a b => add a b self
  | Subtract a b => subtract a b self
  end.

Fixpoint do_calls (cs : list call) (self : Calculator) : Calculator * list Z :=
  match cs with
  | [] => (self, [])
  | c :: cs' =>
      let '(self, v) := do_call c self in
      let '(self, vs) := do_calls cs' self in
      (self, v :: vs)
  end.

End sample.

(** * Facts about the [str] primitives *)

Lemma app_cons (a : ascii) (s t : string) : String a s +:+ t = String a (s +:+ t).
Proof. reflexivity. Qed.

Lemma app_empty_l (s : string) : EmptyString +:+ s = s.
Proof. reflexivity. Qed.

Ltac sapp := repeat first [rewrite app_cons | rewrite app_empty_l].

Section StrFacts.
Import Str.

Lemma app_empty_r (s : string) : s +:+ EmptyString = s.
Proof. induction s as [|a s IH]; [done|]. by rewrite app_cons, IH. Qed.

Lemma app_assoc_str (a b c : string) : (a +:+ b) +:+ c = a +:+ b +:+ c.
Proof. induction a as [|x a IH]; [done|]. by rewrite !app_cons, IH. Qed.

Lemma length_app_str (a b : string) :
  String.length (a +:+ b) = (String.length a + String.length b)%nat.
Proof. induction a as [|x a IH]; [done|]. rewrite app_cons. simpl. by rewrite IH. Qed.

Lemma nonempty_length (s : string) : nonempty s = true ↔ (0 < String.length s)%nat.
Proof. destruct s; simpl; split; intros; try done; lia. Qed.

Lemma rfind_lower (s : string) (c : ascii) : -1 ≤ rfind s c.
Proof.
  induction s as [|x s IH]; simpl; [lia|].
  destruct (0 <=? rfind s c) eqn:E; [lia|]. destruct (Ascii.eqb x c); lia.
Qed.

Lemma rfind_absent (s : string) (c : ascii) : contains s c = false → rfind s c = -1.
Proof.
  induction s as [|x s IH]; simpl; [done|].
  intros [Hx Hs]%orb_false_iff. rewrite (IH Hs). simpl. by rewrite Hx.
Qed.

Lemma rfind_last (h n : string) (c : ascii) :
  contains n c = false →
  rfind (h +:+ String c n) c = Z.of_nat (String.length h).
Proof.
  intros Hn. induction h as [|x h IH].
  - rewrite app_empty_l. simpl. rewrite (rfind_absent _ _ Hn). simpl.
    by rewrite Ascii.eqb_refl.
  - rewrite app_cons. simpl rfind. rewrite IH.
    destruct (0 <=? Z.of_nat (String.length h)) eqn:E.
    + simpl String.length. lia.
    + apply Z.leb_gt in E. lia.
Qed.

Lemma upto_app (h t : string) : upto (String.length h) (h +:+ t) = h.
Proof.
  induction h as [|x h IH].
  - rewrite app_empty_l. by destruct t.
  - rewrite app_cons. simpl. by rewrite IH.
Qed.

Lemma from_app (h t : string) : from (String.length h) (h +:+ t) = t.
Proof.
  induction h as [|x h IH].
  - rewrite app_empty_l. by destruct t.
  - rewrite app_cons. simpl. by rewrite IH.
Qed.

Lemma length_upto (n : nat) (s : string) :
  (String.length (upto n s) ≤ String.length s)%nat.
Proof.
  revert s. induction n as [|n IH]; intros [|x s]; simpl; try lia.
  specialize (IH s). lia.
Qed.

Lemma length_from (n : nat) (s : string) :
  (String.length (upto n s) + String.length (from n s))%nat = String.length s.
Proof.
  revert s. induction n as [|n IH]; intros [|x s]; simpl; try lia.
  specialize (IH s). lia.
Qed.

Lemma endswith_app (a b : string) (c : ascii) :
  nonempty b = true → endswith (a +:+ b) c = endswith b c.
Proof.
  intros Hb. induction a as [|x a IH]; [done|].
  rewrite app_cons. simpl. rewrite IH.
  destruct (a +:+ b) eqn:E; [|done].
  destruct a, b; simpl in *; try done.
Qed.

Lemma endswith_inv (a : string) (c : ascii) :
  endswith a c = true → ∃ h, a = h +:+ String c EmptyString.
Proof.
  induction a as [|x a IH]; simpl; [done|].
  destruct a as [|y a].
  - intros ->%Ascii.eqb_eq. by exists EmptyString.
  - intros [h Hh]%IH. exists (String x h). by rewrite app_cons, <- Hh.
Qed.

Lemma rstrip_app_sep (h : string) (c : ascii) :
  rstrip (h +:+ String c EmptyString) c = rstrip h c.
Proof.
  induction h as [|x h IH].
  - rewrite app_empty_l. simpl. by rewrite Ascii.eqb_refl.
  - rewrite app_cons. simpl. by rewrite IH.
Qed.

Lemma rstrip_clean (s : string) (c : ascii) :
  endswith s c = false → rstrip s c = s.
Proof.
  induction s as [|x s IH]; simpl; [done|].
  destruct s as [|y s].
  - simpl. by intros ->.
  - intros H. rewrite (IH H). done.
Qed.

Lemma endswith_rstrip (s : string) (c : ascii) : endswith (rstrip s c) c = false.
Proof.
  induction s as [|x s IH]; simpl; [done|].
  destruct (rstrip s c) as [|y r] eqn:E.
  - destruct (Ascii.eqb x c) eqn:Ex; simpl; [done|]. by rewrite Ex.
  - simpl in *. done.
Qed.

Lemma length_rstrip (s : string) (c : ascii) :
  (String.length (rstrip s c) ≤ String.length s)%nat.
Proof.
  induction s as [|x s IH]; simpl; [lia|].
  destruct (rstrip s c); [destruct (Ascii.eqb x c)|]; simpl in *; lia.
Qed.

Lemma length_mul1 (c : ascii) (n : nat) :
  String.length (mul (String c EmptyString) n) = n.
Proof. induction n as [|n IH]; simpl; [done|]. sapp. by rewrite IH. Qed.

Lemma endswith_mul (c : ascii) (n : nat) :
  (0 < n)%nat → endswith (mul (String c EmptyString) n) c = true.
Proof.
  induction n as [|n IH]; [lia|]. intros _. simpl mul. sapp.
  destruct n as [|n]; simpl.
  - apply Ascii.eqb_refl.
  - sapp. simpl in IH. revert IH. sapp. intros IH. apply IH. lia.
Qed.

Lemma clean_not_mul (t : string) (c : ascii) (n : nat) :
  nonempty t = true → endswith t c = false →
  t +:+ String c EmptyString ≠ mul (String c EmptyString) n.
Proof.
  revert n. induction t as [|x t IH]; intros n Ht He; [done|].
  destruct n as [|n]; [done|].
  simpl mul. sapp. intros [= -> Heq].
  destruct t as [|y t].
  - simpl in He. by rewrite Ascii.eqb_refl in He.
  - by apply (IH n).
Qed.

End StrFacts.

(** * Examples *)

Example split_ex :
  posixpath.split "/home/u/proj/test_preview.py" = ("/home/u/proj", "test_preview.py")
  /\ posixpath.split "/test_preview.py" = ("/", "test_preview.py")
  /\ posixpath.split "/home/u/" = ("/home/u", EmptyString)
  /\ posixpath.split "name" = (EmptyString, "name").
Proof. repeat split. Qed.

Example join_ex :
  posixpath.join "/home/u/proj" "test_preview_files" = "/home/u/proj/test_preview_files"
  /\ posixpath.join "/" "test_preview_files" = "/test_preview_files"
  /\ posixpath.join EmptyString "test_preview_files" = "test_preview_files"
  /\ posixpath.join "/a" "/b" = "/b".
Proof. repeat split. Qed.

(** A first run on a small world. *)
Example demo_run :
  let '(w, r) := create_test_directory "/proj/test_preview.py" demo_world in
  r = Return "/proj/test_preview_files"
  /\ fs w !! "/proj/test_preview_files" = Some (Dir true)
  /\ fs w !! "/proj/test_preview_files/sample.csv"
     = Some (File true (String.list_byte_of_string csv_text))
  /\ length (stdout w) = 19%nat.
Proof. vm_compute. repeat split. Qed.

(** The script is the table run in source order. *)
Lemma create_test_directory_table (abspath_file : string) (w : World) :
  create_test_directory abspath_file w = run_table fixtures abspath_file w.
Proof. reflexivity. Qed.

(** * Facts about [posixpath] *)

Section PathFacts.
Import Str posixpath.

Lemma bare_inv (n : string) :
  bare n = true → nonempty n = true ∧ contains n sep = false.
Proof. unfold bare. intros [? ?%negb_true_iff]%andb_true_iff. done. Qed.

Lemma clean_inv (d : string) :
  clean d = true → nonempty d = true ∧ endswith d sep = false.
Proof. unfold clean. intros [? ?%negb_true_iff]%andb_true_iff. done. Qed.

Lemma endswith_contains (s : string) (c : ascii) :
  endswith s c = true → contains s c = true.
Proof.
  induction s as [|x s IH]; simpl; [done|].
  destruct s as [|y s].
  - intros ->. done.
  - intros H. rewrite (IH H). apply orb_true_r.
Qed.

Lemma bare_startswith (n : string) : bare n = true → startswith n sep = false.
Proof.
  intros [Hn Hc]%bare_inv. destruct n as [|x n]; [done|].
  simpl in *. by apply orb_false_iff in Hc as [? _].
Qed.

Lemma bare_endswith (n : string) : bare n = true → endswith n sep = false.
Proof.
  intros [Hn Hc]%bare_inv. destruct (endswith n sep) eqn:E; [|done].
  apply endswith_contains in E. congruence.
Qed.

(** The three shapes of a join with a bare name. *)
Lemma join_bare (a n : string) :
  bare n = true →
  (a = EmptyString ∧ join a n = n)
  ∨ (∃ h, a = h +:+ String sep EmptyString ∧ join a n = h +:+ String sep n)
  ∨ (clean a = true ∧ join a n = a +:+ String sep n).
Proof.
  intros Hn. unfold join. rewrite (bare_startswith _ Hn).
  destruct a as [|x a]; [by left|]. right.
  destruct (endswith (String x a) sep) eqn:E; simpl negb; simpl orb.
  - left. destruct (endswith_inv _ _ E) as [h Hh]. exists h. split; [done|].
    rewrite Hh, app_assoc_str. by sapp.
  - right. unfold clean. rewrite E. by sapp.
Qed.

Lemma join_app (a n : string) :
  bare n = true → ∃ pre, join a n = pre +:+ n ∧ ∀ n', bare n' = true → join a n' = pre +:+ n'.
Proof.
  intros Hn. unfold join.
  destruct (negb (nonempty a) || endswith a sep) eqn:E.
  - exists a. rewrite (bare_startswith _ Hn). split; [done|].
    intros n' Hn'. by rewrite (bare_startswith _ Hn').
  - exists (a +:+ String sep EmptyString). rewrite (bare_startswith _ Hn).
    rewrite app_assoc_str. sapp. split; [done|].
    intros n' Hn'. rewrite (bare_startswith _ Hn'). rewrite app_assoc_str. by sapp.
Qed.

Lemma join_inj (a n1 n2 : string) :
  bare n1 = true → bare n2 = true → join a n1 = join a n2 → n1 = n2.
Proof.
  intros H1 H2. destruct (join_app a n1 H1) as (pre & -> & Hpre).
  rewrite (Hpre n2 H2). apply String.app_inj.
Qed.

Lemma join_longer (a n : string) :
  bare n = true → (String.length a < String.length (join a n))%nat.
Proof.
  intros Hn. pose proof (bare_inv _ Hn) as [Hne%nonempty_length _].
  destruct (join_bare a n Hn) as [[-> ->]|[(h & -> & ->)|[_ ->]]];
    rewrite ?length_app_str; simpl; lia.
Qed.

Lemma join_ne (a n : string) : bare n = true → join a n ≠ a.
Proof. intros Hn E. pose proof (join_longer a n Hn). rewrite E in H. lia. Qed.

Lemma clean_join (a n : string) : bare n = true → clean (join a n) = true.
Proof.
  intros Hn. destruct (join_app a n Hn) as (pre & -> & _).
  pose proof (bare_inv _ Hn) as [Hne _].
  unfold clean. rewrite (endswith_app _ _ _ Hne), (bare_endswith _ Hn).
  destruct pre, n; done.
Qed.

(** Cutting at the last separator. *)
Lemma cut_last (h n : string) :
  contains n sep = false →
  let p := h +:+ String sep n in
  slice_to p (rfind p sep + 1) = h +:+ String sep EmptyString
  ∧ slice_from p (rfind p sep + 1) = n.
Proof.
  intros Hn p. unfold p, slice_to, slice_from. rewrite (rfind_last _ _ _ Hn).
  replace (Z.to_nat (Z.of_nat (String.length h) + 1))
    with (String.length (h +:+ String sep EmptyString))
    by (rewrite length_app_str; simpl; lia).
  replace (h +:+ String sep n) with ((h +:+ String sep EmptyString) +:+ n)
    by (rewrite app_assoc_str; by sapp).
  by rewrite upto_app, from_app.
Qed.

Lemma cut_none (n : string) :
  contains n sep = false →
  slice_to n (rfind n sep + 1) = EmptyString ∧ slice_from n (rfind n sep + 1) = n.
Proof.
  intros Hn. unfold slice_to, slice_from. rewrite (rfind_absent _ _ Hn). simpl.
  by destruct n.
Qed.

Lemma split_parts (p : string) :
  split p = (dirname p, basename p).
Proof. reflexivity. Qed.

Lemma basename_join (a n : string) : bare n = true → basename (join a n) = n.
Proof.
  intros Hn. pose proof (bare_inv _ Hn) as [_ Hc]. unfold basename.
  destruct (join_bare a n Hn) as [[-> ->]|[(h & -> & ->)|[_ ->]]].
  - by apply cut_none.
  - by apply cut_last.
  - by apply cut_last.
Qed.

Lemma dirname_join_clean (d n : string) :
  clean d = true → bare n = true → dirname (join d n) = d.
Proof.
  intros Hd Hn. pose proof (bare_inv _ Hn) as [_ Hc].
  pose proof (clean_inv _ Hd) as [Hne He].
  destruct (join_bare d n Hn) as [[-> _]|[(h & -> & _)|[_ ->]]]; [done| |].
  - rewrite endswith_app in He by done. by vm_compute in He.
  - unfold dirname. destruct (cut_last d n Hc) as [-> _].
    assert (nonempty (d +:+ String sep EmptyString) = true) as -> by by destruct d.
    destruct (String.eqb_spec (d +:+ String sep EmptyString)
      (mul (String sep EmptyString) (String.length (d +:+ String sep EmptyString)))) as [E|_].
    + by apply clean_not_mul in E.
    + simpl. rewrite rstrip_app_sep. by apply rstrip_clean.
Qed.

Lemma split_join_clean (d n : string) :
  clean d = true → bare n = true → split (join d n) = (d, n).
Proof.
  intros Hd Hn. by rewrite split_parts, dirname_join_clean, basename_join.
Qed.

Lemma rstrip_empty_inv (s : string) (c : ascii) :
  rstrip s c = EmptyString → s = mul (String c EmptyString) (String.length s).
Proof.
  induction s as [|x s IH]; simpl; [done|].
  destruct (rstrip s c) eqn:E; [|done].
  destruct (Ascii.eqb_spec x c) as [->|]; [|done].
  intros _. sapp. by rewrite <- IH.
Qed.

(** The three shapes of a directory name. *)
Lemma dirname_shape (p : string) :
  let d := dirname p in
  d = EmptyString
  ∨ (nonempty d = true ∧ d = mul (String sep EmptyString) (String.length d))
  ∨ clean d = true.
Proof.
  unfold dirname. set (h := slice_to p (rfind p sep + 1)).
  destruct (nonempty h) eqn:Hne; simpl; [|destruct h; [by left|done]].
  destruct (String.eqb_spec h (mul (String sep EmptyString) (String.length h))) as [E|E];
    simpl.
  - right; left. by rewrite Hne.
  - right; right. unfold clean. rewrite endswith_rstrip.
    destruct (rstrip h sep) eqn:Er; [|done].
    by apply rstrip_empty_inv in Er.
Qed.

Lemma dirname_all_sep (k : nat) (n : string) :
  bare n = true → (0 < k)%nat →
  dirname (mul (String sep EmptyString) k +:+ n) = mul (String sep EmptyString) k.
Proof.
  intros Hn Hk. pose proof (bare_inv _ Hn) as [_ Hc].
  destruct (endswith_inv _ _ (endswith_mul sep k Hk)) as [h Hh].
  unfold dirname. rewrite Hh, app_assoc_str. sapp.
  destruct (cut_last h n Hc) as [-> _]. rewrite <- Hh.
  assert (nonempty (mul (String sep EmptyString) k) = true) as ->
    by (rewrite Hh; by destruct h).
  by rewrite length_mul1, String.eqb_refl.
Qed.

(** A bare name joined to a directory name lies in that directory. *)
Lemma dirname_join_dirname (p n : string) :
  bare n = true → dirname (join (dirname p) n) = dirname p.
Proof.
  intros Hn. pose proof (bare_inv _ Hn) as [_ Hc].
  destruct (dirname_shape p) as [E|[[Hne E]|E]].
  - rewrite E. unfold join. rewrite (bare_startswith _ Hn). simpl. sapp.
    unfold dirname. by destruct (cut_none n Hc) as [-> _].
  - unfold join. rewrite (bare_startswith _ Hn).
    assert (0 < String.length (dirname p))%nat as Hk by by apply nonempty_length.
    rewrite E at 2. rewrite (endswith_mul sep _ Hk), orb_true_r.
    rewrite E at 1. rewrite dirname_all_sep by done. by rewrite <- E.
  - by apply dirname_join_clean.
Qed.

Lemma startswith_rstrip (s : string) (c : ascii) :
  startswith s c = true → rstrip s c ≠ EmptyString → startswith (rstrip s c) c = true.
Proof.
  destruct s as [|x s]; simpl; [done|]. intros Hx.
  destruct (rstrip s c); [|done]. rewrite Hx. done.
Qed.

Lemma isabs_dirname (p : string) : isabs p = true → isabs (dirname p) = true.
Proof.
  unfold isabs. destruct p as [|x p]; [done|]. simpl startswith. intros Hx.
  apply Ascii.eqb_eq in Hx as ->.
  unfold dirname. set (i := rfind (String sep p) sep + 1).
  assert (1 ≤ i) as Hi.
  { unfold i. simpl rfind. pose proof (rfind_lower p sep).
    destruct (0 <=? rfind p sep) eqn:E; [apply Z.leb_le in E; lia|].
    rewrite ?Ascii.eqb_refl. simpl. lia. }
  unfold slice_to. destruct (Z.to_nat i) as [|k] eqn:Ek; [lia|]. simpl upto.
  set (h := String sep (upto k p)).
  destruct (nonempty h && negb (String.eqb h (mul (String sep EmptyString) (String.length h))))
    eqn:E; [|done].
  apply andb_true_iff in E as [_ E%negb_true_iff%String.eqb_neq].
  apply startswith_rstrip; [done|].
  intros Er. by apply rstrip_empty_inv in Er.
Qed.

Lemma isabs_join (a n : string) : isabs a = true → bare n = true → isabs (join a n) = true.
Proof.
  intros Ha Hn. destruct (join_app a n Hn) as (pre & _ & _).
  unfold join. rewrite (bare_startswith _ Hn).
  destruct a as [|x a]; [done|]. unfold isabs in *. simpl in Ha.
  destruct (negb (nonempty (String x a)) || endswith (String x a) sep); sapp; done.
Qed.

(** The head of a split is shorter than the path when the tail is not empty. *)
Lemma split_shorter (p : string) :
  nonempty (basename p) = true → (String.length (dirname p) < String.length p)%nat.
Proof.
  unfold basename, dirname, slice_from, slice_to.
  set (k := Z.to_nat (rfind p sep + 1)). intros Ht%nonempty_length.
  pose proof (length_from k p). pose proof (length_rstrip (upto k p) sep).
  destruct (nonempty (upto k p) && _); lia.
Qed.

Lemma dirname_le (p : string) : (String.length (dirname p) ≤ String.length p)%nat.
Proof.
  unfold dirname, slice_to. set (k := Z.to_nat (rfind p sep + 1)).
  pose proof (length_upto k p). pose proof (length_rstrip (upto k p) sep).
  destruct (nonempty (upto k p) && _); lia.
Qed.

End PathFacts.

(** * Facts about the world and the calls *)

Section WorldFacts.
Import Str io.

Lemma world_eq (w w' : World) :
  fs w = fs w' → stdout w = stdout w' → env w = env w' → pending w = pending w' →
  w = w'.
Proof. destruct w, w'; simpl; by intros -> -> -> ->. Qed.

Lemma emit_nil (w : World) : emit [] w = w.
Proof. apply world_eq; simpl; [done| |done..]. apply app_nil_r. Qed.

Lemma emit_emit (l1 l2 : list string) (w : World) :
  emit l2 (emit l1 w) = emit (l1 ++ l2) w.
Proof. apply world_eq; simpl; [done| |done..]. by rewrite app_assoc. Qed.

Lemma print_all_then_spec {A} (ls : list string) (k : IO A) (w : World) :
  print_all_then ls k w = k (emit ls w).
Proof.
  revert w. induction ls as [|s ls IH]; intros w; simpl.
  - by rewrite emit_nil.
  - unfold bind at 1. simpl. rewrite IH. f_equal. apply emit_emit.
Qed.

(** Encoding. *)
Lemma replace_lf (s : string) : replace s (ascii_of_nat 10) nl = s.
Proof.
  induction s as [|x s IH]; simpl; [done|]. rewrite IH.
  destruct (Ascii.eqb_spec x (ascii_of_nat 10)) as [->|]; by sapp.
Qed.

Lemma encode_text_posix (s : string) :
  encode_text linesep s = String.list_byte_of_string s.
Proof. unfold encode_text, linesep. by rewrite replace_lf. Qed.

Lemma list_byte_of_string_app (a b : string) :
  String.list_byte_of_string (a +:+ b)
  = String.list_byte_of_string a ++ String.list_byte_of_string b.
Proof.
  induction a as [|x a IH]; [done|]. sapp.
  change (String.list_byte_of_string (String x (a +:+ b)))
    with (byte_of_ascii x :: String.list_byte_of_string (a +:+ b)).
  by rewrite IH.
Qed.

Lemma encode_text_app (a b : string) :
  encode_text linesep (a +:+ b) = encode_text linesep a ++ encode_text linesep b.
Proof. rewrite !encode_text_posix. apply list_byte_of_string_app. Qed.

Lemma universal_newlines_id (s : string) :
  contains s (ascii_of_nat 13) = false → universal_newlines s = s.
Proof.
  induction s as [|x s IH]; simpl; [done|].
  intros [Hx Hs]%orb_false_iff. rewrite Hx. by rewrite IH.
Qed.

(** Writing then reading back gives the text, when it holds no carriage
    return. *)
Lemma decode_encode (s : string) :
  contains s (ascii_of_nat 13) = false →
  decode_text (encode_text linesep s) = s.
Proof.
  intros H. unfold decode_text. rewrite encode_text_posix.
  rewrite String.string_of_list_byte_of_string. by apply universal_newlines_id.
Qed.

(** [open]. *)
Lemma open_w_return (p : string) (w w' : World) (f : file) :
  open_w p w = (w', Return f) →
  f = mkfile p
  ∧ ∃ dw, fs w !! posixpath.dirname p = Some (Dir dw)
      ∧ ((w' = streaming p (File true []) [] w ∧ writable_at dw (fs w) p = true)
         ∨ (w' = streaming p (Refused []) [] w ∧ ∃ d, fs w !! p = Some (Refused d))).
Proof.
  unfold open_w, writable_at, start.
  destruct (fs w !! posixpath.dirname p) as [[dw|? ?|?]|]; [|done..].
  destruct (fs w !! p) as [[?|fw ?|d]|]; [done| | |].
  - destruct fw; [|done]. intros [= <- <-]. eauto 6.
  - intros [= <- <-]. eauto 7.
  - destruct dw; [|done]. intros [= <- <-]. eauto 6.
Qed.

Lemma open_w_ok (p : string) (w : World) (dw : bool) :
  fs w !! posixpath.dirname p = Some (Dir dw) →
  writable_at dw (fs w) p = true →
  open_w p w = (streaming p (File true []) [] w, Return (mkfile p)).
Proof.
  unfold open_w, writable_at, start. intros ->.
  destruct (fs w !! p) as [[?|fw ?|?]|]; [done| |done|]; by intros ->.
Qed.

Lemma open_w_refused (p : string) (w : World) (dw : bool) (d : list byte) :
  fs w !! posixpath.dirname p = Some (Dir dw) →
  fs w !! p = Some (Refused d) →
  open_w p w = (streaming p (Refused []) [] w, Return (mkfile p)).
Proof. unfold open_w, start. by intros -> ->. Qed.

Lemma open_w_raise (p : string) (w w' : World) (e : exn) :
  open_w p w = (w', Raise e) → w' = w ∧ is_OSError e = true.
Proof.
  unfold open_w, start.
  destruct (fs w !! posixpath.dirname p) as [[dw|? ?|?]|]; [|by intros [= <- <-]..].
  destruct (fs w !! p) as [[?|fw ?|?]|]; [by intros [= <- <-]| |done|].
  - destruct fw; [done|]. by intros [= <- <-].
  - destruct dw; [done|]. by intros [= <- <-].
Qed.

(** The stream of a file the system lets the process write. *)
Lemma streaming_streaming (p : string) (nd nd' : node) (b b' : list byte) (w : World) :
  streaming p nd' b' (streaming p nd b w) = streaming p nd' b' w.
Proof. apply world_eq; simpl; [|done..|]; apply insert_insert_eq. Qed.

Lemma streaming_pending (p : string) (nd : node) (b b' : list byte) (w : World) :
  set_pending <[p := b']> (streaming p nd b w) = streaming p nd b' w.
Proof. apply world_eq; simpl; [done..|]. apply insert_insert_eq. Qed.

Lemma streaming_closed (p : string) (nd : node) (b : list byte) (w : World) :
  set_pending (delete p) (streaming p nd b w) = stored p nd w.
Proof. apply world_eq; simpl; [done..|]. apply delete_insert_eq. Qed.

Lemma flush_good (p : string) (fw : bool) (d b : list byte) (w : World) :
  flush (mkfile p) (streaming p (File fw d) b w)
  = (streaming p (File fw (d ++ b)) [] w, Return tt).
Proof.
  unfold flush. cbn [name pending fs streaming]. rewrite !lookup_insert_eq.
  destruct b as [|x b].
  - by rewrite app_nil_r.
  - by rewrite streaming_streaming.
Qed.

Lemma write_good (p : string) (fw : bool) (d b : list byte) (s : string) (w : World) :
  ∃ d' b',
    write (mkfile p) s (streaming p (File fw d) b w)
    = (streaming p (File fw d') b' w, Return tt)
    ∧ d' ++ b' = d ++ b ++ encode_text linesep s.
Proof.
  unfold write. cbn [name pending streaming]. rewrite lookup_insert_eq. cbv zeta.
  rewrite streaming_pending.
  destruct (chunk_size <=? _)%N.
  - rewrite flush_good. eexists _, _. split; [done|]. by rewrite app_nil_r.
  - by eexists _, _.
Qed.

Lemma write_chunks_good (p : string) (fw : bool) (cs : list string)
    (d b : list byte) (w : World) :
  ∃ d' b',
    write_chunks (mkfile p) cs (streaming p (File fw d) b w)
    = (streaming p (File fw d') b' w, Return tt)
    ∧ d' ++ b' = d ++ b ++ encode_text linesep (String.concat EmptyString cs).
Proof.
  revert d b. induction cs as [|c cs IH]; intros d b.
  - exists d, b. split; [done|]. by rewrite app_nil_r.
  - destruct cs as [|c' cs]; [apply write_good|].
    change (write_chunks (mkfile p) (c :: c' :: cs))
      with (write (mkfile p) c ;; write_chunks (mkfile p) (c' :: cs)).
    unfold bind. destruct (write_good p fw d b c w) as (d1 & b1 & -> & E1).
    destruct (IH d1 b1) as (d2 & b2 & -> & E2). exists d2, b2. split; [done|].
    change (String.concat EmptyString (c :: c' :: cs))
      with (c +:+ EmptyString +:+ String.concat EmptyString (c' :: cs)).
    sapp. rewrite encode_text_app, E2, (app_assoc d1), E1. by rewrite <- !app_assoc.
Qed.

Lemma close_good (p : string) (fw : bool) (d b : list byte) (w : World) :
  close (mkfile p) (streaming p (File fw d) b w) = (stored p (File fw (d ++ b)) w, Return tt).
Proof.
  unfold close. cbn [name pending streaming]. rewrite lookup_insert_eq.
  change (mkWorld (<[p := File fw d]> (fs w)) (stdout w) (env w) (<[p := b]> (pending w)))
    with (streaming p (File fw d) b w).
  by rewrite flush_good, streaming_closed.
Qed.

Lemma with_open_good (p : string) (cs : list string) (w : World) (dw : bool) :
  fs w !! posixpath.dirname p = Some (Dir dw) →
  writable_at dw (fs w) p = true →
  with_open p (λ f, write_chunks f cs) w
  = (stored p (File true (encode_text linesep (String.concat EmptyString cs))) w, Return tt).
Proof.
  intros Hd Hw. unfold with_open, bind, finally_. rewrite (open_w_ok _ _ _ Hd Hw).
  destruct (write_chunks_good p true cs [] [] w) as (d' & b' & -> & E).
  rewrite close_good. by rewrite E.
Qed.

(** The stream of a file whose writes the system refuses. *)
Lemma flush_refused (p : string) (d b : list byte) (w : World) :
  b ≠ [] →
  flush (mkfile p) (streaming p (Refused d) b w)
  = (streaming p (Refused d) b w, Raise PermissionError).
Proof.
  intros Hb. unfold flush. cbn [name pending fs streaming]. rewrite !lookup_insert_eq.
  by destruct b.
Qed.

Lemma write_chunks_refused (p : string) (cs : list string) (d b : list byte) (w : World) :
  ∃ b' o,
    write_chunks (mkfile p) cs (streaming p (Refused d) b w)
    = (streaming p (Refused d) b' w, o)
    ∧ ((o = Return tt ∧ b' = b ++ encode_text linesep (String.concat EmptyString cs))
       ∨ (o = Raise PermissionError ∧ b' ≠ [])).
Proof.
  assert (∀ b s, ∃ o,
            write (mkfile p) s (streaming p (Refused d) b w)
            = (streaming p (Refused d) (b ++ encode_text linesep s) w, o)
            ∧ (o = Return tt ∨ (o = Raise PermissionError ∧ b ++ encode_text linesep s ≠ [])))
    as Hwrite.
  { intros b0 s. unfold write. cbn [name pending streaming]. rewrite lookup_insert_eq.
    cbv zeta. rewrite streaming_pending.
    destruct (chunk_size <=? _)%N eqn:E; [|eexists; eauto].
    assert (b0 ++ encode_text linesep s ≠ []) as Hne.
    { intros Hnil. rewrite Hnil in E. by vm_compute in E. }
    rewrite flush_refused by done. eexists; eauto. }
  revert b. induction cs as [|c cs IH]; intros b.
  - exists b, (Return tt). split; [done|]. left. by rewrite app_nil_r.
  - destruct cs as [|c' cs].
    + destruct (Hwrite b c) as (o & E & [->|[-> Hne]]); eexists _, _; (split; [exact E|]); eauto.
    + change (write_chunks (mkfile p) (c :: c' :: cs))
        with (write (mkfile p) c ;; write_chunks (mkfile p) (c' :: cs)).
      unfold bind. destruct (Hwrite b c) as (o & -> & [->|[-> Hne]]).
      * destruct (IH (b ++ encode_text linesep c)) as (b2 & o2 & -> & [[-> ->]|[-> Hne]]);
          eexists _, _; (split; [done|]); [left|right; done].
        split; [done|].
        change (String.concat EmptyString (c :: c' :: cs))
          with (c +:+ EmptyString +:+ String.concat EmptyString (c' :: cs)).
        sapp. by rewrite encode_text_app, <- app_assoc.
      * eexists _, _. split; [done|]. by right.
Qed.

Lemma close_refused (p : string) (d b : list byte) (w : World) :
  b ≠ [] →
  close (mkfile p) (streaming p (Refused d) b w) = (stored p (Refused d) w, Raise PermissionError).
Proof.
  intros Hb. unfold close. cbn [name pending streaming]. rewrite lookup_insert_eq.
  change (mkWorld (<[p := Refused d]> (fs w)) (stdout w) (env w) (<[p := b]> (pending w)))
    with (streaming p (Refused d) b w).
  by rewrite flush_refused, streaming_closed.
Qed.

Lemma with_open_refused (p : string) (cs : list string) (w : World) (dw : bool) (d : list byte) :
  fs w !! posixpath.dirname p = Some (Dir dw) →
  fs w !! p = Some (Refused d) →
  encode_text linesep (String.concat EmptyString cs) ≠ [] →
  with_open p (λ f, write_chunks f cs) w = (stored p (Refused []) w, Raise PermissionError).
Proof.
  intros Hd Hp Hne. unfold with_open, bind, finally_. rewrite (open_w_refused _ _ _ _ Hd Hp).
  destruct (write_chunks_refused p cs [] [] w) as (b' & o & -> & [[-> ->]|[-> Hb]]);
    by rewrite close_refused.
Qed.

(** One block: it returns with the file written, or the [open] raises and
    the world is as it was, or the system refuses the bytes and the file is
    left empty. *)
Lemma write_fixture_ok (t : string) (x : fixture) (w : World) (dw : bool) :
  fs w !! posixpath.dirname (target t x) = Some (Dir dw) →
  writable_at dw (fs w) (target t x) = true →
  write_fixture t x w
  = (emit [created_line t x] (stored (target t x) (File true (file_bytes x)) w), Return tt).
Proof.
  intros Hd Hw. unfold write_fixture, bind.
  by rewrite (with_open_good _ _ _ _ Hd Hw).
Qed.

Lemma write_fixture_cases (t : string) (x : fixture) (w w' : World) (o : outcome unit) :
  file_bytes x ≠ [] →
  write_fixture t x w = (w', o) →
  (o = Return tt
   ∧ w' = emit [created_line t x] (stored (target t x) (File true (file_bytes x)) w)
   ∧ ∃ dw, fs w !! posixpath.dirname (target t x) = Some (Dir dw)
           ∧ writable_at dw (fs w) (target t x) = true)
  ∨ (∃ e, o = Raise e ∧ w' = w ∧ open_w (target t x) w = (w, Raise e)
          ∧ is_OSError e = true)
  ∨ (o = Raise PermissionError
     ∧ w' = stored (target t x) (Refused []) w
     ∧ ∃ dw d, fs w !! posixpath.dirname (target t x) = Some (Dir dw)
               ∧ fs w !! target t x = Some (Refused d)).
Proof.
  intros Hne. destruct (open_w (target t x) w) as [w1 [f|e]] eqn:Ho.
  - apply open_w_return in Ho as (-> & dw & Hd & [[-> Hw]|[-> [d Hp]]]).
    + rewrite (write_fixture_ok t x w dw Hd Hw). intros [= <- <-]. left.
      split; [done|]. split; [done|]. by exists dw.
    + unfold write_fixture, bind. rewrite (with_open_refused _ _ _ dw d Hd Hp Hne).
      intros [= <- <-]. right; right. split; [done|]. split; [done|]. by exists dw, d.
  - unfold write_fixture, with_open, bind. rewrite Ho. intros [= <- <-].
    pose proof (open_w_raise _ _ _ _ Ho) as [-> He]. right; left. by exists e.
Qed.

Lemma write_fixture_return (t : string) (x : fixture) (w w' : World) :
  file_bytes x ≠ [] →
  write_fixture t x w = (w', Return tt) →
  w' = emit [created_line t x] (stored (target t x) (File true (file_bytes x)) w)
  ∧ ∃ dw, fs w !! posixpath.dirname (target t x) = Some (Dir dw)
          ∧ writable_at dw (fs w) (target t x) = true.
Proof.
  intros Hne H. apply write_fixture_cases in H; [|done].
  by destruct H as [(_ & ? & ?)|[(e & ? & _)|(? & _)]].
Qed.

(** A block that raises leaves every path but its own as it was, prints
    nothing, and raises an [OSError]. *)
Lemma write_fixture_raise (t : string) (x : fixture) (w w' : World) (e : exn) :
  file_bytes x ≠ [] →
  write_fixture t x w = (w', Raise e) →
  is_OSError e = true
  ∧ stdout w' = stdout w ∧ env w' = env w
  ∧ (∀ p, p ≠ target t x → fs w' !! p = fs w !! p)
  ∧ (fs w' !! target t x = fs w !! target t x
     ∨ (e = PermissionError ∧ fs w' !! target t x = Some (Refused [])
        ∧ ∃ d, fs w !! target t x = Some (Refused d))).
Proof.
  intros Hne H.
  apply write_fixture_cases in H; [|done].
  destruct H as [(? & _)|[(e' & [= <-] & -> & _ & He)|([= ->] & -> & dw & d & _ & Hp)]];
    [done| |].
  - repeat split; eauto.
  - split; [done|]. split; [done|]. split; [done|]. split.
    + intros p Hp'. cbn [fs stored]. by rewrite lookup_insert_ne.
    + right. cbn [fs stored]. rewrite lookup_insert_eq. eauto.
Qed.

(** The blocks in a row. *)
Lemma write_all_then_spec {A} (t : string) (l : list fixture) (k : IO A) (w : World) :
  write_all_then t l k w = (write_all t l ;; k) w.
Proof.
  revert w. induction l as [|x l IH]; intros w; [done|].
  simpl. unfold write_fixture, bind.
  destruct (with_open (target t x) (λ f, write_chunks f x.2) w) as [w1 [[]|e]]; [|done].
  destruct (print (created_line t x) w1) as [w3 [[]|e]]; [|done].
  rewrite IH. done.
Qed.

Lemma write_all_app (t : string) (l1 l2 : list fixture) (w : World) :
  write_all t (l1 ++ l2) w = (write_all t l1 ;; write_all t l2) w.
Proof.
  revert w. induction l1 as [|x l1 IH]; intros w; [done|].
  simpl. unfold bind.
  destruct (write_fixture t x w) as [w1 [[]|e]]; [|done].
  rewrite IH. by unfold bind.
Qed.

End WorldFacts.

(** * The blocks, run in a row *)

Section Blocks.
Import Str io posixpath.

Variable t : string.
Hypothesis t_clean : clean t = true.

Lemma target_dirname (x : fixture) : bare x.1 = true → dirname (target t x) = t.
Proof. intros Hx. by apply dirname_join_clean. Qed.

Lemma target_ne_dir (x : fixture) : bare x.1 = true → target t x ≠ t.
Proof. intros Hx. by apply join_ne. Qed.

Lemma fs_written_world (l : list fixture) (w : World) :
  fs (written_world t l w) = written t l (fs w).
Proof. revert w. induction l as [|x l IH]; intros w; [done|]. apply IH. Qed.

Lemma stdout_written_world (l : list fixture) (w : World) :
  stdout (written_world t l w) = stdout w.
Proof.
  revert w. induction l as [|x l IH]; intros w; [done|].
  unfold written_world in *. cbn [foldl]. by rewrite IH.
Qed.

Lemma env_written_world (l : list fixture) (w : World) :
  env (written_world t l w) = env w.
Proof.
  revert w. induction l as [|x l IH]; intros w; [done|].
  unfold written_world in *. cbn [foldl]. by rewrite IH.
Qed.

Lemma written_world_emit (l : list fixture) (ls : list string) (w : World) :
  written_world t l (emit ls w) = emit ls (written_world t l w).
Proof.
  revert w. induction l as [|x l IH]; intros w; [done|].
  unfold written_world in *. cbn [foldl].
  change (stored (target t x) (File true (file_bytes x)) (emit ls w))
    with (emit ls (stored (target t x) (File true (file_bytes x)) w)).
  by rewrite IH.
Qed.

Lemma written_world_app (l1 l2 : list fixture) (w : World) :
  written_world t (l1 ++ l2) w = written_world t l2 (written_world t l1 w).
Proof. apply foldl_app. Qed.

Lemma write_all_return (l : list fixture) (w w' : World) :
  Forall (λ x, file_bytes x ≠ []) l →
  write_all t l w = (w', Return tt) →
  w' = emit (map (created_line t) l) (written_world t l w).
Proof.
  revert w. induction l as [|x l IH]; intros w Hne.
  - simpl. intros [= <-]. by rewrite emit_nil.
  - apply Forall_cons in Hne as [Hx Hne]. simpl. unfold bind.
    destruct (write_fixture t x w) as [w1 [[]|e]] eqn:Hwx; [|done].
    apply write_fixture_return in Hwx as [-> _]; [|done].
    intros ->%IH; [|done].
    change (written_world t (x :: l) w)
      with (written_world t l (stored (target t x) (File true (file_bytes x)) w)).
    by rewrite written_world_emit, emit_emit.
Qed.

Lemma writable_at_insert (dw : bool) (m : gmap string node) (p p' : string) (d : list byte) :
  writable_at dw m p = true →
  writable_at dw m p' = true ↔ writable_at dw (<[p := File true d]> m) p' = true.
Proof.
  intros Hp. unfold writable_at. destruct (decide (p = p')) as [->|Hne].
  - by rewrite lookup_insert_eq.
  - by rewrite lookup_insert_ne.
Qed.

Lemma write_all_ok (l : list fixture) (w : World) (dw : bool) :
  Forall (λ x, bare x.1 = true) l →
  fs w !! t = Some (Dir dw) →
  Forall (λ x, writable_at dw (fs w) (target t x) = true) l →
  write_all t l w
  = (emit (map (created_line t) l) (written_world t l w), Return tt).
Proof.
  revert w. induction l as [|x l IH]; intros w Hb Ht Hw.
  - simpl. unfold ret. by rewrite emit_nil.
  - apply Forall_cons in Hb as [Hx Hb]. apply Forall_cons in Hw as [Hwx Hw].
    simpl. unfold bind.
    rewrite (write_fixture_ok t x w dw); [|by rewrite target_dirname|done].
    rewrite IH; [| done | | ].
    + change (written_world t (x :: l) w)
        with (written_world t l (stored (target t x) (File true (file_bytes x)) w)).
      by rewrite written_world_emit, emit_emit.
    + cbn [fs emit stored]. rewrite lookup_insert_ne; [done|]. by apply target_ne_dir.
    + cbn [fs emit stored]. eapply Forall_impl; [exact Hw|]. intros y Hy. simpl in Hy.
      by apply writable_at_insert.
Qed.

Lemma write_all_writable (l : list fixture) (w w' : World) (dw : bool) :
  Forall (λ x, bare x.1 = true) l →
  Forall (λ x, file_bytes x ≠ []) l →
  fs w !! t = Some (Dir dw) →
  write_all t l w = (w', Return tt) →
  Forall (λ x, writable_at dw (fs w) (target t x) = true) l.
Proof.
  revert w. induction l as [|x l IH]; intros w Hb Hne Ht; [by constructor|].
  apply Forall_cons in Hb as [Hx Hb]. apply Forall_cons in Hne as [Hnx Hne].
  simpl. unfold bind.
  destruct (write_fixture t x w) as [w1 [[]|e]] eqn:Hwx; [|done].
  apply write_fixture_return in Hwx as [-> (dw' & Hd & Hwr)]; [|done].
  rewrite target_dirname in Hd by done. rewrite Ht in Hd. injection Hd as <-.
  intros Hrest. constructor; [done|].
  apply IH in Hrest; [|done|done|].
  - eapply Forall_impl; [exact Hrest|]. intros y Hy. cbn [fs emit stored] in Hy.
    by apply writable_at_insert in Hy.
  - cbn [fs emit stored]. rewrite lookup_insert_ne; [done|]. by apply target_ne_dir.
Qed.

Lemma write_all_first_failure (l1 l2 : list fixture) (x : fixture) (w w1 w2 : World) (e : exn) :
  write_all t l1 w = (w1, Return tt) →
  write_fixture t x w1 = (w2, Raise e) →
  write_all t (l1 ++ x :: l2) w = (w2, Raise e).
Proof.
  intros H1 Hx. rewrite write_all_app. unfold bind. rewrite H1.
  simpl. unfold bind. by rewrite Hx.
Qed.

Lemma write_all_raise (l : list fixture) (w w' : World) (e : exn) :
  write_all t l w = (w', Raise e) →
  ∃ l1 x l2 w1, l = l1 ++ x :: l2
    ∧ write_all t l1 w = (w1, Return tt)
    ∧ write_fixture t x w1 = (w', Raise e).
Proof.
  revert w. induction l as [|x l IH]; intros w; [done|].
  simpl. unfold bind.
  destruct (write_fixture t x w) as [w1 [[]|e1]] eqn:Hx.
  - intros (l1 & y & l2 & w2 & -> & H1 & Hy)%IH.
    exists (x :: l1), y, l2, w2. split; [done|]. split; [|done].
    simpl. unfold bind. by rewrite Hx.
  - intros [= <- <-]. by exists [], x, l, w.
Qed.

(** What the blocks leave in the file system. *)
Lemma written_lookup_other (l : list fixture) (m : gmap string node) (p : string) :
  p ∉ map (target t) l → written t l m !! p = m !! p.
Proof.
  revert m. induction l as [|x l IH]; intros m Hp; [done|].
  simpl in *. apply not_elem_of_cons in Hp as [Hne Hp].
  unfold written in *. simpl. rewrite IH by done. by rewrite lookup_insert_ne.
Qed.

Lemma written_lookup (l : list fixture) (m : gmap string node) (x : fixture) :
  NoDup (map (target t) l) → x ∈ l →
  written t l m !! target t x = Some (File true (file_bytes x)).
Proof.
  revert m. induction l as [|y l IH]; intros m Hnd Hx; [by apply elem_of_nil in Hx|].
  simpl in Hnd. apply NoDup_cons in Hnd as [Hy Hnd].
  change (written t (y :: l) m)
    with (written t l (<[target t y := File true (file_bytes y)]> m)).
  apply elem_of_cons in Hx as [->|Hx].
  - rewrite written_lookup_other by done. apply lookup_insert_eq.
  - by apply IH.
Qed.


Lemma written_twice (l : list fixture) (m : gmap string node) :
  NoDup (map (target t) l) → written t l (written t l m) = written t l m.
Proof.
  intros Hnd. apply map_eq. intros p.
  destruct (decide (p ∈ map (target t) l)) as [Hin|Hout].
  - apply list_elem_of_fmap in Hin as (x & -> & Hx). by rewrite !written_lookup.
  - by rewrite !written_lookup_other.
Qed.

Lemma targets_NoDup (l : list fixture) :
  Forall (λ x, bare x.1 = true) l → NoDup (map fst l) → NoDup (map (target t) l).
Proof.
  induction l as [|x l IH]; intros Hb Hnd; [constructor|].
  apply Forall_cons in Hb as [Hx Hb]. simpl in Hnd. apply NoDup_cons in Hnd as [Hxl Hnd].
  simpl. constructor; [|by apply IH].
  intros (y & Hy & Hyl)%list_elem_of_fmap. apply Hxl.
  apply list_elem_of_fmap. exists y. split; [|done].
  rewrite Forall_forall in Hb. unfold target in Hy.
  by apply join_inj in Hy; [| |apply Hb].
Qed.

End Blocks.

(** * Directory creation *)

Section Makedirs.
Import Str io posixpath os.

Lemma dirs_added_refl (w : World) : dirs_added w w.
Proof. repeat split. intros p. by left. Qed.

Lemma dirs_added_trans (w1 w2 w3 : World) :
  dirs_added w1 w2 → dirs_added w2 w3 → dirs_added w1 w3.
Proof.
  intros (Ho1 & He1 & H1) (Ho2 & He2 & H2). repeat split; [congruence..|].
  intros p. destruct (H1 p) as [E1|[E1 E1']], (H2 p) as [E2|[E2 E2']].
  - left. congruence.
  - right. split; congruence.
  - right. split; congruence.
  - congruence.
Qed.

Lemma dirs_added_is_dir (w w' : World) (p : string) :
  dirs_added w w' → is_dir (fs w) p = true → is_dir (fs w') p = true.
Proof.
  intros (_ & _ & H). unfold is_dir. destruct (H p) as [->|[-> ->]]; done.
Qed.

Lemma dirs_added_is_Some (w w' : World) (p : string) :
  dirs_added w w' → is_Some (fs w !! p) → is_Some (fs w' !! p).
Proof. intros (_ & _ & H). destruct (H p) as [->|[-> ->]]; [done|]. by intros [? ?]. Qed.

Lemma dirs_added_file (w w' : World) (p : string) (b : bool) (d : list byte) :
  dirs_added w w' → fs w' !! p = Some (File b d) ↔ fs w !! p = Some (File b d).
Proof. intros (_ & _ & H). destruct (H p) as [->|[-> ->]]; [done|]. split; done. Qed.

Lemma dirs_added_refused (w w' : World) (p : string) (d : list byte) :
  dirs_added w w' → fs w' !! p = Some (Refused d) ↔ fs w !! p = Some (Refused d).
Proof. intros (_ & _ & H). destruct (H p) as [->|[-> ->]]; [done|]. split; done. Qed.

Lemma mkdir_spec (p : string) (w w' : World) (r : outcome unit) :
  mkdir p w = (w', r) →
  match r with
  | Return _ => w' = set_fs <[p := Dir true]> w ∧ fs w !! p = None
  | Raise e => w' = w ∧ is_OSError e = true
  end.
Proof.
  unfold mkdir.
  destruct (fs w !! dirname p) as [[dw|? ?|?]|]; [|by intros [= <- <-]..].
  destruct (fs w !! p) eqn:Hp; [by intros [= <- <-]|].
  destruct dw; by intros [= <- <-].
Qed.

Lemma mkdir_exists (p : string) (w : World) :
  is_Some (fs w !! p) → ∃ e, mkdir p w = (w, Raise e) ∧ is_OSError e = true.
Proof.
  intros [nd Hp]. unfold mkdir.
  destruct (fs w !! dirname p) as [[dw|? ?|?]|]; [|by eexists..].
  rewrite Hp. by eexists.
Qed.

Lemma mkdir_exist_ok_spec (p : string) (w w' : World) (r : outcome unit) :
  mkdir_exist_ok p w = (w', r) →
  match r with
  | Return _ => dirs_added w w' ∧ is_dir (fs w') p = true
  | Raise e => w' = w ∧ is_OSError e = true ∧ is_dir (fs w) p = false
  end.
Proof.
  unfold mkdir_exist_ok, try_except.
  destruct (mkdir p w) as [w1 [[]|e]] eqn:Hm; apply mkdir_spec in Hm.
  - destruct Hm as [-> Hnone]. intros [= <- <-]. split.
    + repeat split. intros q. simpl. destruct (decide (p = q)) as [<-|Hne].
      * right. by rewrite lookup_insert_eq.
      * left. by rewrite lookup_insert_ne.
    + unfold is_dir. simpl. by rewrite lookup_insert_eq.
  - destruct Hm as [-> He]. rewrite He. unfold bind, isdir.
    fold (is_dir (fs w) p). destruct (is_dir (fs w) p) eqn:Hd.
    + unfold ret. intros [= <- <-]. split; [apply dirs_added_refl|done].
    + unfold raise. by intros [= <- <-].
Qed.

Lemma mkdir_exist_ok_present (p : string) (w : World) :
  is_dir (fs w) p = true → mkdir_exist_ok p w = (w, Return tt).
Proof.
  intros Hd. unfold mkdir_exist_ok, try_except.
  destruct (mkdir_exists p w) as (e & -> & ->).
  { unfold is_dir in Hd. by destruct (fs w !! p). }
  unfold bind, isdir. fold (is_dir (fs w) p). by rewrite Hd.
Qed.

(** One unfolding of [makedirs]. *)
Lemma makedirs_rec_S (fuel : nat) (name : string) (w : World) :
  makedirs_rec (S fuel) name w =
  let ht := makedirs_parts name in
  if nonempty ht.1 && nonempty ht.2 && negb (bool_decide (is_Some (fs w !! ht.1)))
  then (try_except (makedirs_rec fuel ht.1)
          (λ e, match e with FileExistsError => true | _ => false end)
          (λ _, ret tt) ;;
        if String.eqb ht.2 "." then ret tt else mkdir_exist_ok name) w
  else mkdir_exist_ok name w.
Proof.
  cbn [makedirs_rec]. unfold makedirs_parts. rewrite (split_parts name). cbv iota.
  destruct (if nonempty (basename name) then (dirname name, basename name)
            else split (dirname name)) as [head tail].
  cbv iota beta. unfold bind at 1. unfold exists_ at 1. cbn [fst snd].
  by destruct (nonempty head && nonempty tail && negb _).
Qed.

(** Whatever it returns, [makedirs] only adds directories. *)
Lemma makedirs_rec_frame (fuel : nat) (name : string) (w w' : World) (r : outcome unit) :
  makedirs_rec fuel name w = (w', r) → dirs_added w w'.
Proof.
  revert name w w' r. induction fuel as [|fuel IH]; intros name w w' r.
  - simpl. unfold raise. intros [= <- <-]. apply dirs_added_refl.
  - rewrite makedirs_rec_S. destruct (makedirs_parts name) as [head tail].
    cbn [fst snd]. cbv zeta.
    assert (∀ w0 w1 r1, mkdir_exist_ok name w0 = (w1, r1) → dirs_added w0 w1) as Hleaf.
    { intros w0 w1 r1 H. apply mkdir_exist_ok_spec in H.
      destruct r1; [by destruct H|]. destruct H as [-> _]. apply dirs_added_refl. }
    destruct (nonempty head && nonempty tail && negb _); [|apply Hleaf].
    unfold bind, try_except.
    destruct (makedirs_rec fuel head w) as [w1 [[]|e]] eqn:Hrec; apply IH in Hrec.
    + destruct (String.eqb tail ".").
      * unfold ret. by intros [= <- <-].
      * intros H%Hleaf. by eapply dirs_added_trans.
    + destruct e; try (by intros [= <- <-]).
      unfold ret. destruct (String.eqb tail ".").
      * by intros [= <- <-].
      * intros H%Hleaf. by eapply dirs_added_trans.
Qed.

Lemma makedirs_parts_shorter (name : string) :
  nonempty (makedirs_parts name).2 = true →
  (String.length (makedirs_parts name).1 < String.length name)%nat.
Proof.
  unfold makedirs_parts. destruct (nonempty (basename name)) eqn:Hb.
  - cbn [fst snd]. intros _. by apply split_shorter.
  - rewrite split_parts. cbn [fst snd]. intros Hb'.
    pose proof (split_shorter _ Hb'). pose proof (dirname_le name). lia.
Qed.

(** With fuel beyond the length of the path, an exception of [makedirs] is
    an [OSError]: the bound on the recursion is never met. *)
Lemma makedirs_rec_OSError (fuel : nat) (name : string) (w w' : World) (e : exn) :
  (String.length name < fuel)%nat →
  makedirs_rec fuel name w = (w', Raise e) → is_OSError e = true.
Proof.
  revert name w w' e. induction fuel as [|fuel IH]; intros name w w' e Hlen; [lia|].
  rewrite makedirs_rec_S. pose proof (makedirs_parts_shorter name) as Hshort.
  destruct (makedirs_parts name) as [head tail]. cbn [fst snd] in *. cbv zeta.
  assert (∀ w0 w1, mkdir_exist_ok name w0 = (w1, Raise e) → is_OSError e = true) as Hleaf.
  { intros w0 w1 H. by apply mkdir_exist_ok_spec in H as (_ & ? & _). }
  destruct (nonempty head && nonempty tail && negb _) eqn:Hc; [|apply Hleaf].
  apply andb_true_iff in Hc as [[_ Ht]%andb_true_iff _].
  unfold bind, try_except.
  destruct (makedirs_rec fuel head w) as [w1 [[]|e1]] eqn:Hrec.
  - destruct (String.eqb tail "."); [done|apply Hleaf].
  - apply IH in Hrec; [|specialize (Hshort Ht); lia].
    destruct e1; try (by intros [= <- <-]).
    unfold ret. destruct (String.eqb tail "."); [done|apply Hleaf].
Qed.

Lemma makedirs_frame (name : string) (w w' : World) (r : outcome unit) :
  makedirs name w = (w', r) → dirs_added w w'.
Proof. apply makedirs_rec_frame. Qed.

Lemma makedirs_OSError (name : string) (w w' : World) (e : exn) :
  makedirs name w = (w', Raise e) → is_OSError e = true.
Proof. apply makedirs_rec_OSError. lia. Qed.

(** The output directory. *)
Lemma bare_test_preview_files : bare "test_preview_files" = true.
Proof. reflexivity. Qed.

Lemma output_dir_clean (a : string) : clean (output_dir a) = true.
Proof. apply clean_join, bare_test_preview_files. Qed.

Lemma output_dir_split (a : string) :
  split (output_dir a) = (dirname a, "test_preview_files").
Proof.
  rewrite split_parts. unfold output_dir.
  by rewrite dirname_join_dirname, basename_join.
Qed.

(** [makedirs] on the output directory: at most one recursive call, then
    the [mkdir]. *)
Lemma makedirs_output_dir (a : string) (w : World) :
  makedirs (output_dir a) w
  = if nonempty (dirname a) && negb (bool_decide (is_Some (fs w !! dirname a)))
    then (try_except (makedirs_rec (String.length (output_dir a)) (dirname a))
            (λ e, match e with FileExistsError => true | _ => false end)
            (λ _, ret tt) ;;
          mkdir_exist_ok (output_dir a)) w
    else mkdir_exist_ok (output_dir a) w.
Proof.
  unfold makedirs. rewrite makedirs_rec_S. unfold makedirs_parts.
  pose proof (output_dir_split a) as Hs. rewrite split_parts in Hs.
  injection Hs as -> ->. cbn [nonempty fst snd]. cbv zeta.
  rewrite andb_true_r.
  by destruct (nonempty (dirname a) && negb _).
Qed.

Lemma makedirs_return (a : string) (w w' : World) :
  makedirs (output_dir a) w = (w', Return tt) → is_dir (fs w') (output_dir a) = true.
Proof.
  rewrite makedirs_output_dir.
  assert (∀ w0, mkdir_exist_ok (output_dir a) w0 = (w', Return tt) →
                is_dir (fs w') (output_dir a) = true) as Hleaf.
  { intros w0 H. by apply mkdir_exist_ok_spec in H as [_ ?]. }
  destruct (nonempty (dirname a) && negb _); [|apply Hleaf].
  unfold bind, try_except.
  destruct (makedirs_rec _ _ w) as [w1 [[]|e]]; [apply Hleaf|].
  destruct e; try done; apply Hleaf.
Qed.

(** A second [makedirs] changes nothing, when the directory of the script
    is there. *)
Lemma makedirs_present (a : string) (w : World) :
  is_dir (fs w) (output_dir a) = true →
  is_Some (fs w !! dirname a) →
  makedirs (output_dir a) w = (w, Return tt).
Proof.
  intros Hd Hp. rewrite makedirs_output_dir.
  rewrite (bool_decide_eq_true_2 _ Hp). simpl negb. rewrite andb_false_r.
  by apply mkdir_exist_ok_present.
Qed.

Lemma makedirs_created (a : string) (w w' : World) :
  fs w !! output_dir a = None →
  makedirs (output_dir a) w = (w', Return tt) →
  fs w' !! output_dir a = Some (Dir true).
Proof.
  intros Hnone Hr. pose proof (makedirs_return _ _ _ Hr) as Hd.
  apply makedirs_frame in Hr as (_ & _ & H).
  destruct (H (output_dir a)) as [E|[_ E]]; [|done].
  unfold is_dir in Hd. rewrite E, Hnone in Hd. done.
Qed.

End Makedirs.

(** * The shape of a run *)

Section Run.
Import Str io posixpath os.

Lemma run_table_spec (l : list fixture) (a : string) (w : World) :
  run_table l a w =
  match makedirs (output_dir a) w with
  | (w0, Raise e) => (w0, Raise e)
  | (w0, Return _) =>
      match write_all (output_dir a) l (emit (prologue (output_dir a)) w0) with
      | (w1, Raise e) => (w1, Raise e)
      | (w1, Return _) => (emit (epilogue (output_dir a)) w1, Return (output_dir a))
      end
  end.
Proof.
  unfold run_table, bind.
  destruct (makedirs (output_dir a) w) as [w0 [[]|e]]; [|done].
  rewrite print_all_then_spec, write_all_then_spec. unfold bind.
  destruct (write_all _ l _) as [w1 [[]|e]]; [|done].
  by rewrite print_all_then_spec.
Qed.

Lemma fixtures_bare : Forall (λ x : fixture, bare x.1 = true) fixtures.
Proof. repeat constructor. Qed.

Lemma fixtures_nonempty : Forall (λ x : fixture, file_bytes x ≠ []) fixtures.
Proof.
  repeat constructor; intros H; apply (f_equal length) in H; by vm_compute in H.
Qed.

Lemma fixtures_names_NoDup : NoDup (map fst fixtures).
Proof. apply (bool_decide_unpack (NoDup (map fst fixtures))). by vm_compute. Qed.

Lemma fixtures_targets_NoDup (a : string) : NoDup (map (target (output_dir a)) fixtures).
Proof. apply targets_NoDup; [apply fixtures_bare|apply fixtures_names_NoDup]. Qed.

End Run.

(** * Complete runs *)

Section CompleteRun.
Import Str io posixpath os.

(** A run that returns has made the directory, written every block and
    printed every line. *)
Lemma run_table_return (l : list fixture) (a : string) (w w' : World) (r : string) :
  Forall (λ x : fixture, file_bytes x ≠ []) l →
  run_table l a w = (w', Return r) →
  r = output_dir a
  ∧ ∃ w0, makedirs (output_dir a) w = (w0, Return tt)
      ∧ w' = emit (printed l (output_dir a)) (written_world (output_dir a) l w0)
      ∧ write_all (output_dir a) l (emit (prologue (output_dir a)) w0)
        = (emit (prologue (output_dir a) ++ map (created_line (output_dir a)) l)
             (written_world (output_dir a) l w0), Return tt).
Proof.
  intros Hne. rewrite run_table_spec.
  destruct (makedirs (output_dir a) w) as [w0 [[]|e]] eqn:Hm; [|done].
  destruct (write_all _ l _) as [w1 [[]|e]] eqn:Hw; [|done].
  intros [= <- <-]. split; [done|]. exists w0. split; [done|].
  pose proof (write_all_return _ _ _ _ Hne Hw) as ->.
  rewrite written_world_emit, emit_emit in Hw |- *. rewrite emit_emit.
  split; [|done]. unfold printed. by rewrite app_assoc.
Qed.

Lemma run_fixtures_return (a : string) (w w' : World) (r : string) :
  run_table fixtures a w = (w', Return r) →
  r = output_dir a
  ∧ ∃ w0, makedirs (output_dir a) w = (w0, Return tt)
      ∧ w' = emit (printed fixtures (output_dir a))
               (written_world (output_dir a) fixtures w0)
      ∧ write_all (output_dir a) fixtures (emit (prologue (output_dir a)) w0)
        = (emit (prologue (output_dir a) ++ map (created_line (output_dir a)) fixtures)
             (written_world (output_dir a) fixtures w0), Return tt).
Proof. apply run_table_return, fixtures_nonempty. Qed.

Lemma run_return (a : string) (w w' : World) (r : string) :
  create_test_directory a w = (w', Return r) →
  r = output_dir a
  ∧ ∃ w0, makedirs (output_dir a) w = (w0, Return tt)
      ∧ w' = emit (printed fixtures (output_dir a))
               (written_world (output_dir a) fixtures w0).
Proof.
  rewrite create_test_directory_table. intros H.
  apply run_table_return in H as (-> & w0 & ? & ? & _); [|apply fixtures_nonempty].
  eauto.
Qed.

(** The three observable parts of a world a complete run has left. *)
Lemma fs_run (t : string) (l : list fixture) (ls : list string) (w : World) :
  fs (emit ls (written_world t l w)) = written t l (fs w).
Proof. cbn [fs emit]. apply fs_written_world. Qed.

Lemma stdout_run (t : string) (l : list fixture) (ls : list string) (w : World) :
  stdout (emit ls (written_world t l w)) = stdout w ++ ls.
Proof. cbn [stdout emit]. by rewrite stdout_written_world. Qed.

Lemma env_run (t : string) (l : list fixture) (ls : list string) (w : World) :
  env (emit ls (written_world t l w)) = env w.
Proof. cbn [env emit]. apply env_written_world. Qed.

Lemma output_dir_not_target (a : string) (l : list fixture) :
  Forall (λ x : fixture, bare x.1 = true) l →
  output_dir a ∉ map (target (output_dir a)) l.
Proof.
  intros Hb (x & Hx & Hin)%list_elem_of_fmap.
  rewrite Forall_forall in Hb. symmetry in Hx. by apply join_ne in Hx; [|apply Hb].
Qed.

Lemma written_is_Some (t : string) (l : list fixture) (m : gmap string node) (p : string) :
  is_Some (m !! p) → is_Some (written t l m !! p).
Proof.
  revert m. induction l as [|x l IH]; intros m Hp; [done|].
  apply IH. destruct (decide (target t x = p)) as [->|Hne].
  - rewrite lookup_insert_eq. by eexists.
  - by rewrite lookup_insert_ne.
Qed.

Lemma fixtures_no_cr :
  Forall (λ x, contains (content x) (ascii_of_nat 13) = false) fixtures.
Proof. repeat constructor. Qed.

End CompleteRun.

Section Claims.
Import Str io posixpath os.

(** C1.  After a run that returns, each of the ten names of the table
    (sample.txt, sample.json, sample.py, Sample.cs, sample.html,
    sample.css, README.md, sample.xml, sample.csv, sample.sql) names a
    regular file directly inside the returned directory, the bytes of the
    file are the UTF-8 code units of the literal of that block, and reading
    the file back as text gives the literal. *)
Theorem C1_files_created (a : string) (w w' : World) (r : string) :
  create_test_directory a w = (w', Return r) →
  map fst fixtures
  = ["sample.txt"; "sample.json"; "sample.py"; "Sample.cs"; "sample.html";
     "sample.css"; "README.md"; "sample.xml"; "sample.csv"; "sample.sql"]
  ∧ ∀ x, x ∈ fixtures →
      fs w' !! join r x.1 = Some (File true (String.list_byte_of_string (content x)))
      ∧ dirname (join r x.1) = r
      ∧ basename (join r x.1) = x.1
      ∧ read_text (fs w') (join r x.1) = Some (content x).
Proof.
  intros (-> & w0 & Hm & ->)%run_return. split; [done|].
  intros x Hx.
  assert (bare x.1 = true) as Hb.
  { pose proof fixtures_bare as H. rewrite Forall_forall in H. by apply H. }
  assert (fs (emit (printed fixtures (output_dir a))
                (written_world (output_dir a) fixtures w0)) !! join (output_dir a) x.1
          = Some (File true (String.list_byte_of_string (content x)))) as Hl.
  { rewrite fs_run.
    change (join (output_dir a) x.1) with (target (output_dir a) x).
    rewrite written_lookup; [|apply fixtures_targets_NoDup|done].
    unfold file_bytes. by rewrite encode_text_posix. }
  split; [done|]. split; [by apply dirname_join_clean; [apply output_dir_clean|]|].
  split; [by apply basename_join|].
  unfold read_text. rewrite Hl. f_equal.
  rewrite <- encode_text_posix. apply decode_encode.
  pose proof fixtures_no_cr as H. rewrite Forall_forall in H. by apply H.
Qed.

Lemma C1_files_created_witness :
  let w' := (create_test_directory "/proj/test_preview.py" demo_world).1 in
  fs w' !! "/proj/test_preview_files/sample.json"
  = Some (File true (String.list_byte_of_string json_text))
  ∧ read_text (fs w') "/proj/test_preview_files/sample.json" = Some json_text.
Proof.
  intros w'.
  assert (create_test_directory "/proj/test_preview.py" demo_world
          = (w', Return "/proj/test_preview_files")) as E by (vm_compute; reflexivity).
  destruct (C1_files_created _ _ _ _ E) as [_ H].
  destruct (H ("sample.json", [json_text])) as (H1 & _ & _ & H2).
  { apply list_elem_of_In. simpl. tauto. }
  split; [exact H1|exact H2].
Defined.

End Claims.

Section ClaimsDirectory.
Import Str io posixpath os.

(** C5.  The value returned is the path [test_preview_files] joined to the
    directory of the script: its last component is [test_preview_files], it
    lies in the directory the script lies in, it is absolute when the path
    of the script is, and after the run it is a directory; if nothing was
    there before the run, the run has created it. *)
Theorem C5_output_directory (a : string) (w w' : World) (r : string) :
  create_test_directory a w = (w', Return r) →
  r = join (dirname a) "test_preview_files"
  ∧ basename r = "test_preview_files"
  ∧ dirname r = dirname a
  ∧ (isabs a = true → isabs r = true)
  ∧ is_dir (fs w') r = true
  ∧ (fs w !! r = None → fs w' !! r = Some (Dir true)).
Proof.
  intros (-> & w0 & Hm & ->)%run_return.
  assert (fs (emit (printed fixtures (output_dir a))
                (written_world (output_dir a) fixtures w0)) !! output_dir a
          = fs w0 !! output_dir a) as Hl.
  { rewrite fs_run. apply written_lookup_other.
    apply output_dir_not_target, fixtures_bare. }
  split; [done|]. split; [by apply basename_join|].
  split; [by apply dirname_join_dirname|].
  split; [intros Ha; by apply isabs_join; [apply isabs_dirname|]|].
  split.
  - unfold is_dir. rewrite Hl. by apply makedirs_return in Hm.
  - intros Hnone. rewrite Hl. by apply (makedirs_created a w).
Qed.

Lemma C5_output_directory_witness :
  let w' := (create_test_directory "/proj/test_preview.py" demo_world).1 in
  basename "/proj/test_preview_files" = "test_preview_files"
  ∧ dirname "/proj/test_preview_files" = dirname "/proj/test_preview.py"
  ∧ fs w' !! "/proj/test_preview_files" = Some (Dir true).
Proof.
  intros w'.
  assert (create_test_directory "/proj/test_preview.py" demo_world
          = (w', Return "/proj/test_preview_files")) as E by (vm_compute; reflexivity).
  destruct (C5_output_directory _ _ _ _ E) as (_ & H1 & H2 & _ & _ & H3).
  split; [exact H1|]. split; [exact H2|]. apply H3. vm_compute. reflexivity.
Defined.

(** C2.  When [makedirs] raises on the output directory, the function
    raises the same exception, an [OSError], and the world is the one
    [makedirs] left: nothing was printed and every regular file is as it
    was, so no file was written.  In a file system where every node lies in
    a directory, none of the ten targets is then a file. *)
Theorem C2_makedirs_failure (a : string) (w w0 : World) (e : exn) :
  makedirs (output_dir a) w = (w0, Raise e) →
  create_test_directory a w = (w0, Raise e)
  ∧ is_OSError e = true
  ∧ stdout w0 = stdout w
  ∧ (∀ p b d, fs w0 !! p = Some (File b d) ↔ fs w !! p = Some (File b d))
  ∧ (parent_closed (fs w) →
     ∀ x, x ∈ fixtures → is_file (fs w0) (join (output_dir a) x.1) = false).
Proof.
  intros Hm. split; [|split; [|split; [|split]]].
  - rewrite create_test_directory_table, run_table_spec. by rewrite Hm.
  - by apply makedirs_OSError in Hm.
  - by apply makedirs_frame in Hm as (? & _).
  - intros p b d. eapply dirs_added_file. by eapply makedirs_frame.
  - intros Hpc x Hx. destruct (is_file _ _) eqn:Hf; [exfalso|done].
    assert (bare x.1 = true) as Hb.
    { pose proof fixtures_bare as H. rewrite Forall_forall in H. by apply H. }
    unfold is_file in Hf.
    assert (∃ nd, fs w !! join (output_dir a) x.1 = Some nd) as [nd Hl].
    { destruct (fs w0 !! join (output_dir a) x.1) as [[?|b d|d]|] eqn:Hl; try done.
      - apply (dirs_added_file w w0) in Hl; [eauto|by eapply makedirs_frame].
      - apply (dirs_added_refused w w0) in Hl; [eauto|by eapply makedirs_frame]. }
    apply Hpc in Hl as Hd.
    rewrite dirname_join_clean in Hd; [|apply output_dir_clean|done].
    assert (is_Some (fs w !! dirname a)) as Hp.
    { unfold is_dir in Hd. destruct (fs w !! output_dir a) as [nd0|] eqn:Ht; [|done].
      apply Hpc in Ht. unfold output_dir in Ht.
      rewrite dirname_join_dirname in Ht by done.
      unfold is_dir in Ht. by destruct (fs w !! dirname a). }
    rewrite (makedirs_present a w Hd Hp) in Hm. done.
Qed.

Lemma readonly_world_closed : parent_closed (fs readonly_world).
Proof.
  intros p nd. unfold readonly_world. cbn [fs list_to_map foldr uncurry].
  intros H.
  repeat (apply lookup_insert_Some in H as [[<- _]|[_ H]]; [reflexivity|]).
  by rewrite lookup_empty in H.
Qed.

Lemma C2_makedirs_failure_witness :
  create_test_directory "/proj/test_preview.py" readonly_world
  = (readonly_world, Raise PermissionError)
  ∧ is_file (fs readonly_world) "/proj/test_preview_files/sample.txt" = false.
Proof.
  assert (makedirs (output_dir "/proj/test_preview.py") readonly_world
          = (readonly_world, Raise PermissionError)) as E by (vm_compute; reflexivity).
  destruct (C2_makedirs_failure _ _ _ _ E) as (H1 & _ & _ & _ & H2).
  split; [exact H1|].
  apply (H2 readonly_world_closed ("sample.txt", [txt_text_1; txt_text_2; txt_text_3; txt_text_4])).
  apply list_elem_of_In. simpl. tauto.
Defined.

End ClaimsDirectory.

Section ClaimsRuns.
Import Str io posixpath os.

Lemma run_table_ok (l : list fixture) (a : string) (w w0 : World) (dw : bool) :
  Forall (λ x : fixture, bare x.1 = true) l →
  makedirs (output_dir a) w = (w0, Return tt) →
  fs w0 !! output_dir a = Some (Dir dw) →
  Forall (λ x, writable_at dw (fs w0) (target (output_dir a) x) = true) l →
  run_table l a w
  = (emit (printed l (output_dir a)) (written_world (output_dir a) l w0),
     Return (output_dir a)).
Proof.
  intros Hb Hm Hd Hw. rewrite run_table_spec, Hm.
  rewrite (write_all_ok (output_dir a) (output_dir_clean a) l _ dw); [|done..].
  rewrite written_world_emit, !emit_emit. unfold printed.
  by rewrite <- ?app_assoc.
Qed.

(** C3.  When the directory of the script exists and a first run returns,
    a second run in the world the first one left returns the same path,
    raises nothing, and leaves the file system exactly as the first run
    left it: the directory is found and kept, each of the ten files is
    written again with the same bytes, and no other path appears.  The
    console gains the same lines once more. *)
Theorem C3_second_run (a : string) (w w1 : World) (r : string) :
  is_Some (fs w !! dirname a) →
  create_test_directory a w = (w1, Return r) →
  ∃ w2, create_test_directory a w1 = (w2, Return r)
    ∧ makedirs r w1 = (w1, Return tt)
    ∧ fs w2 = fs w1
    ∧ stdout w2 = stdout w1 ++ printed fixtures r.
Proof.
  intros Hp (-> & w0 & Hm & ->)%run_return.
  set (t := output_dir a). set (w1 := emit _ _).
  pose proof (makedirs_return _ _ _ Hm) as Hd0.
  assert (fs w1 !! t = fs w0 !! t) as Ht.
  { unfold w1. rewrite fs_run. apply written_lookup_other.
    apply output_dir_not_target, fixtures_bare. }
  assert (is_dir (fs w1) t = true) as Hd1 by (unfold is_dir; by rewrite Ht).
  assert (is_Some (fs w1 !! dirname a)) as Hp1.
  { unfold w1. rewrite fs_run. apply written_is_Some.
    eapply dirs_added_is_Some; [by eapply makedirs_frame|done]. }
  pose proof (makedirs_present a w1 Hd1 Hp1) as Hm1.
  assert (∃ dw, fs w1 !! t = Some (Dir dw)) as [dw Hdw].
  { unfold is_dir in Hd1. destruct (fs w1 !! t) as [[dw| |]|]; try done. by exists dw. }
  eexists. split; [|split; [done|]].
  - rewrite create_test_directory_table.
    apply (run_table_ok fixtures a w1 w1 dw); [apply fixtures_bare|done..|].
    apply Forall_forall. intros x Hx. unfold writable_at, w1. rewrite fs_run.
    by rewrite written_lookup; [|apply fixtures_targets_NoDup|].
  - split; [|by rewrite stdout_run]. unfold w1. rewrite !fs_run.
    apply written_twice, fixtures_targets_NoDup.
Qed.

Lemma C3_second_run_witness :
  let w1 := (create_test_directory "/proj/test_preview.py" demo_world).1 in
  ∃ w2, create_test_directory "/proj/test_preview.py" w1
        = (w2, Return "/proj/test_preview_files")
    ∧ fs w2 = fs w1.
Proof.
  intros w1.
  assert (is_Some (fs demo_world !! dirname "/proj/test_preview.py")) as Hp
    by (vm_compute; eexists; reflexivity).
  assert (create_test_directory "/proj/test_preview.py" demo_world
          = (w1, Return "/proj/test_preview_files")) as E by (vm_compute; reflexivity).
  destruct (C3_second_run _ _ _ _ Hp E) as (w2 & H1 & _ & H2 & _).
  exists w2. split; [exact H1|exact H2].
Defined.

Lemma prefix_app (p s : string) : String.prefix p (p +:+ s) = true.
Proof.
  induction p as [|c p IH]; [by destruct s|]. sapp. simpl.
  by destruct (ascii_dec c c).
Qed.

Lemma filter_confirmations (t : string) (l : list fixture) :
  filter (λ s, is_confirmation s = true) (map (created_line t) l)
  = map (created_line t) l.
Proof.
  induction l as [|x l IH]; [done|]. simpl map.
  rewrite filter_cons_True; [by rewrite IH|]. apply prefix_app.
Qed.

Lemma stdout_text_app (ls1 ls2 : list string) :
  String.concat EmptyString (map (λ s, s +:+ nl) (ls1 ++ ls2))
  = String.concat EmptyString (map (λ s, s +:+ nl) ls1)
    +:+ String.concat EmptyString (map (λ s, s +:+ nl) ls2).
Proof.
  induction ls1 as [|s ls1 IH]; [done|].
  change (map (λ s, s +:+ nl) ((s :: ls1) ++ ls2))
    with ((s +:+ nl) :: map (λ s, s +:+ nl) (ls1 ++ ls2)).
  change (map (λ s, s +:+ nl) (s :: ls1)) with ((s +:+ nl) :: map (λ s, s +:+ nl) ls1).
  assert (∀ x xs, String.concat EmptyString (x :: xs)
                  = x +:+ String.concat EmptyString xs) as Hc.
  { intros x [|y ys]; simpl; [by rewrite app_empty_r|by sapp]. }
  by rewrite !Hc, IH, !app_assoc_str.
Qed.

Lemma contains_app (s t : string) (c : ascii) :
  contains (s +:+ t) c = contains s c || contains t c.
Proof.
  induction s as [|x s IH]; [done|]. sapp. simpl. rewrite IH. by rewrite orb_assoc.
Qed.

Lemma contains_upto (n : nat) (s : string) (c : ascii) :
  contains s c = false → contains (upto n s) c = false.
Proof.
  revert s. induction n as [|n IH]; intros [|x s]; simpl; try done.
  intros [-> Hs]%orb_false_iff. by apply IH.
Qed.

Lemma contains_rstrip (s : string) (c' c : ascii) :
  contains s c = false → contains (rstrip s c') c = false.
Proof.
  induction s as [|x s IH]; simpl; [done|].
  intros [Hx Hs]%orb_false_iff. specialize (IH Hs).
  destruct (rstrip s c') as [|y r]; [destruct (Ascii.eqb x c')|]; simpl in *;
    rewrite ?Hx; done.
Qed.

Lemma contains_dirname (p : string) (c : ascii) :
  contains p c = false → contains (dirname p) c = false.
Proof.
  intros Hp. unfold dirname, slice_to.
  destruct (nonempty _ && _); [apply contains_rstrip|]; by apply contains_upto.
Qed.

Lemma contains_join (a b : string) :
  contains a (ascii_of_nat 10) = false → contains b (ascii_of_nat 10) = false →
  contains (join a b) (ascii_of_nat 10) = false.
Proof.
  intros Ha Hb. unfold join.
  destruct (startswith b sep); [done|].
  destruct (negb (nonempty a) || endswith a sep); rewrite !contains_app, Ha, ?Hb; [done|].
  done.
Qed.

Lemma split_nl_cons (s : string) : ∃ h t, split_nl s = h :: t.
Proof.
  induction s as [|x s (h & t & IH)]; [by eexists _, _|]. simpl.
  destruct (Ascii.eqb x (ascii_of_nat 10)); [by eexists _, _|].
  rewrite IH. by eexists _, _.
Qed.

Lemma split_nl_free (s : string) :
  contains s (ascii_of_nat 10) = false → split_nl s = [s].
Proof.
  induction s as [|x s IH]; [done|]. simpl.
  intros [Hx Hs]%orb_false_iff. by rewrite Hx, (IH Hs).
Qed.

Lemma split_nl_app (s rest : string) :
  split_nl (s +:+ nl +:+ rest) = split_nl s ++ split_nl rest.
Proof.
  induction s as [|x s IH]; [done|]. sapp. simpl.
  destruct (Ascii.eqb x (ascii_of_nat 10)); [by rewrite IH|].
  rewrite IH. by destruct (split_nl_cons s) as (h & t & ->).
Qed.

Lemma concat_cons (x : string) (xs : list string) :
  String.concat EmptyString (x :: xs) = x +:+ String.concat EmptyString xs.
Proof. destruct xs; simpl; [by rewrite app_empty_r|by sapp]. Qed.

(** The lines of a stream of print calls. *)
Lemma split_nl_stream (ls : list string) :
  split_nl (String.concat EmptyString (map (λ s, s +:+ nl) ls))
  = flat_map split_nl ls ++ [EmptyString].
Proof.
  induction ls as [|s ls IH]; [done|].
  cbn [map flat_map]. rewrite concat_cons, app_assoc_str, split_nl_app, IH.
  by rewrite <- app_assoc.
Qed.

Lemma flat_map_free (ls : list string) :
  Forall (λ s, contains s (ascii_of_nat 10) = false) ls → flat_map split_nl ls = ls.
Proof.
  induction 1 as [|s ls Hs _ IH]; [done|].
  cbn [flat_map]. by rewrite (split_nl_free s Hs), IH.
Qed.

Lemma output_dir_no_lf (a : string) :
  contains a (ascii_of_nat 10) = false → contains (output_dir a) (ascii_of_nat 10) = false.
Proof. intros Ha. apply contains_join; [by apply contains_dirname|done]. Qed.

Lemma created_lines_no_lf (a : string) :
  contains a (ascii_of_nat 10) = false →
  Forall (λ s, contains s (ascii_of_nat 10) = false)
    (map (created_line (output_dir a)) fixtures).
Proof.
  intros Ha. apply Forall_map, Forall_forall. intros x Hx.
  unfold created_line. rewrite contains_app. simpl orb.
  apply contains_join; [by apply output_dir_no_lf|].
  apply list_elem_of_In in Hx. simpl in Hx.
  repeat (destruct Hx as [<-|Hx]; [reflexivity|]). destruct Hx.
Qed.

(** The lines a complete run adds to the stream, when the path of the
    script holds no line feed. *)
Lemma console_lines (a : string) :
  contains a (ascii_of_nat 10) = false →
  split_nl (String.concat EmptyString
              (map (λ s, s +:+ nl) (printed fixtures (output_dir a))))
  = prologue (output_dir a) ++ map (created_line (output_dir a)) fixtures
    ++ [ rule; EmptyString; "🎉 Test files created successfully!"; EmptyString;
         "To test preview functionality:"; "1. Open OfflineProjectManager";
         "2. Create or open a project"; "3. Add folder: " +:+ output_dir a;
         "4. Click on each file to test preview"; EmptyString ].
Proof.
  intros Ha. set (t := output_dir a).
  pose proof (output_dir_no_lf a Ha) as Ht. fold t in Ht.
  rewrite split_nl_stream. unfold printed. rewrite !flat_map_app.
  rewrite (flat_map_free (map (created_line t) fixtures)) by by apply created_lines_no_lf.
  assert (flat_map split_nl (prologue t) = prologue t) as ->.
  { apply flat_map_free. repeat constructor. by rewrite contains_app, Ht. }
  assert (flat_map split_nl (epilogue t)
          = [ rule; EmptyString; "🎉 Test files created successfully!"; EmptyString;
              "To test preview functionality:"; "1. Open OfflineProjectManager";
              "2. Create or open a project"; "3. Add folder: " +:+ t;
              "4. Click on each file to test preview" ]) as ->.
  { unfold epilogue. cbn [flat_map].
    rewrite (split_nl_free ("3. Add folder: " +:+ t)) by by rewrite contains_app, Ht.
    reflexivity. }
  by rewrite <- !app_assoc.
Qed.

(** What a complete run appends to the text of the stream. *)
Lemma run_stdout_text (a : string) (w w' : World) (r : string) :
  create_test_directory a w = (w', Return r) →
  stdout w' = stdout w ++ printed fixtures (output_dir a)
  ∧ stdout_text w'
    = stdout_text w
      +:+ String.concat EmptyString (map (λ s, s +:+ nl) (printed fixtures (output_dir a))).
Proof.
  intros (-> & w0 & Hm & ->)%run_return.
  apply makedirs_frame in Hm as (Ho & _).
  unfold stdout_text. rewrite stdout_run, Ho. split; [done|]. apply stdout_text_app.
Qed.

(** C4.  When the path of the script holds no line feed, a run that
    returns adds these lines to the standard-output stream, in this order:
    the line naming the directory, a rule of fifty dashes, one line per
    block of the form "✅ Created: " followed by the path of the file, a
    rule again, and the instructions that name OfflineProjectManager (an
    empty line, the success line, an empty line and five more lines).  The
    lines of the stream that start with "✅ Created: " are exactly those
    ten, one per file, in the order of the table, and each path is absolute
    when the path of the script is.  The print calls behind them are the
    nineteen the function makes. *)
Theorem C4_console_lines (a : string) (w w' : World) (r : string) :
  contains a (ascii_of_nat 10) = false →
  create_test_directory a w = (w', Return r) →
  let confirmations := map (λ x : fixture, "✅ Created: " +:+ join r x.1) fixtures in
  ∃ txt, stdout_text w' = stdout_text w +:+ txt
    ∧ split_nl txt
      = [ "Creating test files in: " +:+ r; mul "-" 50 ]
        ++ confirmations
        ++ [ mul "-" 50;
             EmptyString;
             "🎉 Test files created successfully!";
             EmptyString;
             "To test preview functionality:";
             "1. Open OfflineProjectManager";
             "2. Create or open a project";
             "3. Add folder: " +:+ r;
             "4. Click on each file to test preview";
             EmptyString ]
    ∧ filter (λ s, is_confirmation s = true) (split_nl txt) = confirmations
    ∧ length confirmations = 10%nat
    ∧ (isabs a = true → ∀ x, x ∈ fixtures → isabs (join r x.1) = true)
    ∧ stdout w'
      = stdout w
        ++ [ "Creating test files in: " +:+ r; mul "-" 50 ]
        ++ confirmations
        ++ [ mul "-" 50;
             nl +:+ "🎉 Test files created successfully!";
             nl +:+ "To test preview functionality:";
             "1. Open OfflineProjectManager";
             "2. Create or open a project";
             "3. Add folder: " +:+ r;
             "4. Click on each file to test preview" ].
Proof.
  intros Ha Hrun confirmations.
  pose proof (run_stdout_text _ _ _ _ Hrun) as [Hout Htxt].
  apply run_return in Hrun as (-> & _).
  exists (String.concat EmptyString (map (λ s, s +:+ nl) (printed fixtures (output_dir a)))).
  split; [exact Htxt|]. rewrite (console_lines a Ha).
  split; [reflexivity|]. split; [|split; [reflexivity|split]].
  - rewrite !filter_app, (filter_confirmations (output_dir a) fixtures). reflexivity.
  - intros Habs x Hx. apply isabs_join.
    + apply isabs_join; [by apply isabs_dirname|done].
    + pose proof fixtures_bare as H. rewrite Forall_forall in H. by apply H.
  - exact Hout.
Qed.

Lemma C4_console_lines_witness :
  let w' := (create_test_directory "/proj/test_preview.py" demo_world).1 in
  length (split_nl (stdout_text w')) = 22%nat
  ∧ filter (λ s, is_confirmation s = true) (split_nl (stdout_text w'))
    = map (λ x : fixture, "✅ Created: " +:+ join "/proj/test_preview_files" x.1) fixtures
  ∧ length (stdout w') = 19%nat.
Proof.
  intros w'.
  assert (contains "/proj/test_preview.py" (ascii_of_nat 10) = false) as Ha by reflexivity.
  assert (create_test_directory "/proj/test_preview.py" demo_world
          = (w', Return "/proj/test_preview_files")) as E by (vm_compute; reflexivity).
  destruct (C4_console_lines _ _ _ _ Ha E) as (txt & H1 & H2 & H3 & _ & _ & H4).
  change (stdout_text demo_world) with EmptyString in H1.
  rewrite app_empty_l in H1. rewrite H1.
  split; [rewrite H2; reflexivity|]. split; [exact H3|].
  rewrite H4. reflexivity.
Defined.

(** The hypothesis on the path is needed.  The directory of [odd_world] is
    writable and its name holds a line feed followed by the text of a
    confirmation: the run returns, and twenty-two lines of the stream, not
    ten, start with "✅ Created: ". *)
Lemma C4_console_counterexample :
  let w' := (create_test_directory (odd_name +:+ "/test_preview.py") odd_world).1 in
  fs odd_world !! dirname (odd_name +:+ "/test_preview.py") = Some (Dir true)
  ∧ create_test_directory (odd_name +:+ "/test_preview.py") odd_world
    = (w', Return (odd_name +:+ "/test_preview_files"))
  ∧ length (filter (λ s, is_confirmation s = true) (split_nl (stdout_text w'))) = 22%nat
  ∧ length (stdout w') = 19%nat.
Proof. vm_compute. repeat split; reflexivity. Qed.

End ClaimsRuns.

Section ClaimsFailures.
Import Str io posixpath os.

(** A block raises exactly when its [with] statement does: [print] cannot
    fail. *)
Lemma write_fixture_raise_iff (t : string) (x : fixture) (w w' : World) (e : exn) :
  write_fixture t x w = (w', Raise e)
  ↔ with_open (target t x) (λ f, write_chunks f x.2) w = (w', Raise e).
Proof.
  unfold write_fixture, bind.
  destruct (with_open _ _ w) as [w1 [[]|e1]]; [|done]. split; [|done].
  unfold print. by intros [= _ ?].
Qed.

(** How a [with] statement can raise: in [open], or in its body with the
    stream closed behind it, or in the [close] that ends it, which flushes
    what is still pending. *)
Lemma with_open_raise {B : Type} (p : string) (body : file → IO B) (w w' : World) (e : exn) :
  (f <- open_w p ;; finally_ (body f) (close f)) w = (w', Raise e)
  ↔ open_w p w = (w', Raise e)
    ∨ ∃ f w1 w2,
        open_w p w = (w1, Return f)
        ∧ ((body f w1 = (w2, Raise e) ∧ close f w2 = (w', Return tt))
           ∨ (∃ o, body f w1 = (w2, o) ∧ close f w2 = (w', Raise e))).
Proof.
  unfold bind, finally_. split.
  - destruct (open_w p w) as [w1 [f|e1]] eqn:Ho; [|intros [= <- <-]; by left].
    destruct (body f w1) as [w2 o] eqn:Hb.
    destruct (close f w2) as [w3 [[]|e3]] eqn:Hc; intros [= <- E]; right;
      exists f, w1, w2; (split; [done|]).
    + left. by rewrite E in Hb.
    + right. rewrite <- E. by exists o.
  - intros [->|(f & w1 & w2 & -> & [[-> ->]|(o & -> & ->)])]; done.
Qed.

(** A run raises exactly when [makedirs] raises or, after [makedirs] and
    the blocks before it, the [with] statement of a block raises; the
    exception and the world are those of that statement. *)
Lemma run_table_raise (l : list fixture) (a : string) (w w' : World) (e : exn) :
  run_table l a w = (w', Raise e) ↔
  makedirs (output_dir a) w = (w', Raise e)
  ∨ ∃ w0 l1 x l2 w1,
      makedirs (output_dir a) w = (w0, Return tt)
      ∧ l = l1 ++ x :: l2
      ∧ write_all (output_dir a) l1 (emit (prologue (output_dir a)) w0) = (w1, Return tt)
      ∧ with_open (target (output_dir a) x) (λ f, write_chunks f x.2) w1 = (w', Raise e).
Proof.
  rewrite run_table_spec. split.
  - destruct (makedirs (output_dir a) w) as [w0 [[]|e0]] eqn:Hm.
    + destruct (write_all _ l _) as [w1 [[]|e1]] eqn:Hw; [done|].
      intros [= <- <-]. right.
      apply write_all_raise in Hw as (l1 & x & l2 & w2 & -> & H1 & Hx).
      apply write_fixture_raise_iff in Hx.
      by exists w0, l1, x, l2, w2.
    + intros [= <- <-]. by left.
  - intros [->|(w0 & l1 & x & l2 & w1 & -> & -> & H1 & Ho)]; [done|].
    apply write_fixture_raise_iff in Ho.
    by rewrite (write_all_first_failure _ l1 l2 x _ _ _ _ H1 Ho).
Qed.

(** The world a failed run leaves.  The blocks before the failing one are
    complete; the failing one either could not open its file, and changed
    nothing, or was refused the bytes it wrote, and left its file opened
    and truncated. *)
Lemma run_table_raise_world (l : list fixture) (a : string) (w w' : World) (e : exn) :
  Forall (λ x : fixture, file_bytes x ≠ []) l →
  run_table l a w = (w', Raise e) →
  (makedirs (output_dir a) w = (w', Raise e))
  ∨ ∃ w0 l1 x l2,
      makedirs (output_dir a) w = (w0, Return tt)
      ∧ l = l1 ++ x :: l2
      ∧ write_all (output_dir a) l1 (emit (prologue (output_dir a)) w0)
        = (emit (prologue (output_dir a) ++ map (created_line (output_dir a)) l1)
             (written_world (output_dir a) l1 w0), Return tt)
      ∧ ((w' = emit (prologue (output_dir a) ++ map (created_line (output_dir a)) l1)
                 (written_world (output_dir a) l1 w0)
          ∧ open_w (target (output_dir a) x) w' = (w', Raise e))
         ∨ (e = PermissionError
            ∧ w' = stored (target (output_dir a) x) (Refused [])
                     (emit (prologue (output_dir a) ++ map (created_line (output_dir a)) l1)
                        (written_world (output_dir a) l1 w0))
            ∧ ∃ d, fs (written_world (output_dir a) l1 w0) !! target (output_dir a) x
                   = Some (Refused d))).
Proof.
  intros Hne [Hm|(w0 & l1 & x & l2 & w1 & Hm & -> & H1 & Hx)]%run_table_raise; [by left|].
  right. exists w0, l1, x, l2.
  apply Forall_app in Hne as [Hne1 [Hnex _]%Forall_cons].
  pose proof (write_all_return _ _ _ _ Hne1 H1) as ->.
  rewrite written_world_emit, emit_emit in H1, Hx.
  split; [done|]. split; [done|]. split; [done|].
  apply write_fixture_raise_iff in Hx.
  apply (write_fixture_cases _ _ _ _ _ Hnex) in Hx
    as [[? _]|[(e' & [= <-] & -> & Ho & _)|(E & -> & dw & d & _ & Hd)]]; [done|by left|].
  right. injection E as ->. split; [done|]. split; [done|]. by exists d.
Qed.

(** C6.  The function catches nothing.  It raises exactly when [makedirs]
    raises or, after the blocks before it went through, the [with]
    statement of a block raises: in [open], in a [write], or in the
    [close] that flushes the pending text.  It then raises that very
    exception, an [OSError], in the world that statement left; the
    exception leaves [main] too and the process ends with status 1.  No
    call is made again and no later block runs: every later target is as
    [makedirs] left it, and the console holds nothing new when [makedirs]
    raised, and otherwise the two header lines and the confirmations of
    the blocks before the failing one. *)
Theorem C6_failures_propagate (a : string) (w w' : World) (e : exn) :
  (create_test_directory a w = (w', Raise e) ↔
   makedirs (output_dir a) w = (w', Raise e)
   ∨ ∃ w0 l1 x l2 w1,
       makedirs (output_dir a) w = (w0, Return tt)
       ∧ fixtures = l1 ++ x :: l2
       ∧ write_all (output_dir a) l1 (emit (prologue (output_dir a)) w0) = (w1, Return tt)
       ∧ ((open_w (target (output_dir a) x) w1 = (w', Raise e))
          ∨ ∃ f w2 w3,
              open_w (target (output_dir a) x) w1 = (w2, Return f)
              ∧ ((write_chunks f x.2 w2 = (w3, Raise e) ∧ close f w3 = (w', Return tt))
                 ∨ (∃ o, write_chunks f x.2 w2 = (w3, o) ∧ close f w3 = (w', Raise e)))))
  ∧ (create_test_directory a w = (w', Raise e) →
     is_OSError e = true
     ∧ main a w = (w', Raise e)
     ∧ exit_status (main a w).2 = 1
     ∧ ((makedirs (output_dir a) w = (w', Raise e) ∧ stdout w' = stdout w)
        ∨ ∃ w0 l1 x l2,
            makedirs (output_dir a) w = (w0, Return tt)
            ∧ fixtures = l1 ++ x :: l2
            ∧ stdout w' = stdout w ++ prologue (output_dir a)
                           ++ map (created_line (output_dir a)) l1
            ∧ ∀ y, y ∈ l2 →
                fs w' !! target (output_dir a) y = fs w0 !! target (output_dir a) y)).
Proof.
  rewrite create_test_directory_table. split.
  - rewrite run_table_raise. apply or_iff_compat_l.
    split; intros (w0 & l1 & x & l2 & w1 & Hm & Hl & H1 & Hx);
      exists w0, l1, x, l2, w1; (split; [done|]); (split; [done|]); (split; [done|]).
    + by apply with_open_raise in Hx.
    + by apply with_open_raise.
  - intros H. assert (main a w = (w', Raise e)) as Hmain.
    { unfold main, bind. by rewrite create_test_directory_table, H. }
    apply run_table_raise_world in H
      as [Hm|(w0 & l1 & x & l2 & Hm & Hl & H1 & Hx)]; [| |apply fixtures_nonempty].
    + split; [by apply makedirs_OSError in Hm|]. split; [done|].
      split; [by rewrite Hmain|]. left. split; [done|].
      by apply makedirs_frame in Hm as (? & _).
    + set (t := output_dir a) in *.
      pose proof (makedirs_frame _ _ _ _ Hm) as (Ho & _).
      pose proof (fixtures_targets_NoDup a) as Hnd. fold t in Hnd.
      rewrite Hl, map_app in Hnd. apply NoDup_app in Hnd as (_ & Hdisj & Hnd2).
      cbn [map] in Hnd2, Hdisj. apply NoDup_cons in Hnd2 as [Hx2 _].
      assert (∀ y, y ∈ l2 →
                fs (written_world t l1 w0) !! target t y = fs w0 !! target t y) as Hlater.
      { intros y Hy. rewrite (fs_written_world t). apply written_lookup_other.
        intros Hin. apply (Hdisj _ Hin). right. apply list_elem_of_fmap. by exists y. }
      assert (is_OSError e = true) as He.
      { destruct Hx as [[_ Hop]|[-> _]]; [by apply open_w_raise in Hop as [_ ?]|done]. }
      split; [done|]. split; [done|]. split; [by rewrite Hmain|]. right.
      exists w0, l1, x, l2. split; [done|]. split; [done|].
      destruct Hx as [[-> _]|(_ & -> & _)].
      * split; [by rewrite stdout_run, Ho|].
        intros y Hy. rewrite fs_run. rewrite <- (fs_written_world t). by apply Hlater.
      * cbn [stdout stored]. split; [by rewrite stdout_run, Ho|].
        intros y Hy. cbn [fs stored]. rewrite lookup_insert_ne.
        -- rewrite fs_run. rewrite <- (fs_written_world t). by apply Hlater.
        -- intros E. apply Hx2. rewrite E. apply list_elem_of_fmap. by exists y.
Qed.

Lemma C6_failures_propagate_witness :
  let w' := (create_test_directory "/proj/test_preview.py" refused_world).1 in
  create_test_directory "/proj/test_preview.py" refused_world
  = (w', Raise PermissionError)
  ∧ exit_status (main "/proj/test_preview.py" refused_world).2 = 1
  ∧ length (stdout w') = 3%nat
  ∧ fs w' !! "/proj/test_preview_files/sample.json" = Some (Refused [])
  ∧ fs w' !! "/proj/test_preview_files/sample.py" = None.
Proof.
  intros w'.
  destruct (C6_failures_propagate "/proj/test_preview.py" refused_world w'
              PermissionError) as [[_ Hback] Hfwd].
  assert (create_test_directory "/proj/test_preview.py" refused_world
          = (w', Raise PermissionError)) as E.
  { apply Hback. right.
    exists refused_world,
      [("sample.txt", [txt_text_1; txt_text_2; txt_text_3; txt_text_4])],
      ("sample.json", [json_text]),
      [("sample.py", [py_text]); ("Sample.cs", [cs_text]); ("sample.html", [html_text]);
       ("sample.css", [css_text]); ("README.md", [md_text]);
       ("sample.xml", [xml_text]); ("sample.csv", [csv_text]);
       ("sample.sql", [sql_text])].
    eexists. split; [vm_compute; reflexivity|]. split; [reflexivity|].
    split; [vm_compute; reflexivity|]. right.
    eexists _, _, _. split; [vm_compute; reflexivity|]. right.
    exists (Return tt). split; vm_compute; reflexivity. }
  destruct (Hfwd E) as (_ & _ & Hexit & _).
  split; [exact E|]. split; [exact Hexit|]. repeat split; vm_compute; reflexivity.
Defined.

(** The three ways a block can fail, on small worlds: the [open] raises on
    a directory; the [close] raises on a file whose writes are refused,
    and leaves it truncated; a [write] raises itself once 8192 bytes are
    pending. *)
Example open_fails :
  with_open "/proj/test_preview_files/sample.py" (λ f, write f py_text) blocked_world
  = (blocked_world, Raise IsADirectoryError).
Proof. vm_compute. reflexivity. Qed.

Example close_fails :
  let p := "/proj/test_preview_files/sample.json" in
  (open_w p refused_world).2 = Return (mkfile p)
  ∧ (write (mkfile p) json_text (open_w p refused_world).1).2 = Return tt
  ∧ (with_open p (λ f, write f json_text) refused_world).2 = Raise PermissionError
  ∧ fs (with_open p (λ f, write f json_text) refused_world).1 !! p = Some (Refused []).
Proof. vm_compute. repeat split; reflexivity. Qed.

Example write_fails :
  let p := "/proj/test_preview_files/sample.json" in
  (write (mkfile p) (mul "x" (N.to_nat chunk_size)) (open_w p refused_world).1).2 = Raise PermissionError
  ∧ (write (mkfile p) (mul "x" (N.to_nat (chunk_size - 1))) (open_w p refused_world).1).2 = Return tt.
Proof. vm_compute. split; reflexivity. Qed.

(** Below the size of the buffer nothing reaches the system before the
    [close]: the [write] calls of a block return on any file, and the
    bytes stay pending. *)
Lemma write_buffered (p : string) (nd : node) (b : list byte) (s : string) (w : World) :
  (N.of_nat (length (b ++ encode_text linesep s)) < chunk_size)%N →
  write (mkfile p) s (streaming p nd b w)
  = (streaming p nd (b ++ encode_text linesep s) w, Return tt).
Proof.
  intros Hlt. unfold write. cbn [name pending streaming]. rewrite lookup_insert_eq.
  cbv zeta. rewrite streaming_pending.
  by apply N.leb_gt in Hlt as ->.
Qed.

Lemma write_chunks_buffered (p : string) (nd : node) (cs : list string)
    (b : list byte) (w : World) :
  (N.of_nat (length (b ++ encode_text linesep (String.concat EmptyString cs)))
   < chunk_size)%N →
  write_chunks (mkfile p) cs (streaming p nd b w)
  = (streaming p nd (b ++ encode_text linesep (String.concat EmptyString cs)) w,
     Return tt).
Proof.
  revert b. induction cs as [|c cs IH]; intros b Hlt.
  - simpl. unfold ret. change (encode_text linesep EmptyString) with (@nil byte).
    by rewrite app_nil_r.
  - destruct cs as [|c' cs]; [by apply write_buffered|].
    change (write_chunks (mkfile p) (c :: c' :: cs))
      with (write (mkfile p) c ;; write_chunks (mkfile p) (c' :: cs)).
    change (String.concat EmptyString (c :: c' :: cs))
      with (c +:+ EmptyString +:+ String.concat EmptyString (c' :: cs)) in Hlt |- *.
    revert Hlt. sapp. rewrite encode_text_app, app_assoc. intros Hlt.
    unfold bind. rewrite write_buffered.
    + by apply IH.
    + rewrite length_app in Hlt. lia.
Qed.

(** Every block of the script writes less than the buffer holds, so in a
    run the system is asked to store the bytes of a block when its file
    is closed. *)
Lemma fixtures_below_chunk :
  Forall (λ x : fixture, (N.of_nat (length (file_bytes x)) < chunk_size)%N) fixtures.
Proof. repeat (constructor; [vm_compute; reflexivity|]). constructor. Qed.

Lemma block_fails_at_close (t : string) (x : fixture) (w w1 : World) (f : file) :
  x ∈ fixtures →
  open_w (target t x) w = (w1, Return f) →
  ∃ w2, write_chunks f x.2 w1 = (w2, Return tt)
    ∧ ∀ w' e, with_open (target t x) (λ f, write_chunks f x.2) w = (w', Raise e) →
        close f w2 = (w', Raise e).
Proof.
  intros Hx Ho. pose proof fixtures_below_chunk as Hlt.
  rewrite Forall_forall in Hlt. specialize (Hlt x Hx).
  assert (∃ nd, f = mkfile (target t x) ∧ w1 = streaming (target t x) nd [] w)
    as (nd & -> & ->).
  { apply open_w_return in Ho as (-> & dw & _ & [[-> _]|[-> _]]); eauto. }
  eexists. split; [by apply write_chunks_buffered|].
  intros w' e. unfold with_open, bind, finally_. rewrite Ho.
  rewrite write_chunks_buffered by done.
  destruct (close _ _) as [w3 [[]|e3]]; [done|]. by intros [= <- <-].
Qed.

End ClaimsFailures.

Section ClaimsContent.
Import Str io posixpath os.

(** The code units of the check mark U+2705 in the literals. *)
Example utf8_check_mark :
  String.list_byte_of_string "✅" = [xe2; x9c; x85].
Proof. reflexivity. Qed.

(** C7.  A regular file already at the path of a block does not stop the
    run and raises no warning: after the run the file holds the encoded
    literal of the block and nothing of its old bytes, the console shows
    the usual lines, and every node of the file system is one of the ten
    targets, a node the run found and left as it was, or a directory
    [makedirs] added: nowhere is the old content kept. *)
Theorem C7_overwrite (a : string) (w w' : World) (r : string)
    (x : fixture) (b : bool) (old : list byte) :
  create_test_directory a w = (w', Return r) →
  x ∈ fixtures →
  fs w !! join r x.1 = Some (File b old) →
  fs w' !! join r x.1 = Some (File true (String.list_byte_of_string (content x)))
  ∧ b = true
  ∧ stdout w' = stdout w ++ printed fixtures r
  ∧ ∀ p nd, fs w' !! p = Some nd →
      p ∈ map (λ y : fixture, join r y.1) fixtures
      ∨ fs w !! p = Some nd
      ∨ (fs w !! p = None ∧ nd = Dir true).
Proof.
  rewrite create_test_directory_table.
  intros (-> & w0 & Hm & -> & Hw)%run_fixtures_return Hx Hold.
  set (t := output_dir a) in *.
  pose proof (makedirs_frame _ _ _ _ Hm) as Hfr.
  assert (bare x.1 = true) as Hb.
  { pose proof fixtures_bare as H. rewrite Forall_forall in H. by apply H. }
  split; [|split; [|split]].
  - rewrite fs_run. change (join t x.1) with (target t x).
    rewrite written_lookup; [|apply fixtures_targets_NoDup|done].
    unfold file_bytes. by rewrite encode_text_posix.
  - pose proof (makedirs_return _ _ _ Hm) as Hd. unfold is_dir in Hd. fold t in Hd.
    destruct (fs w0 !! t) as [[dw| |]|] eqn:Ht; try done.
    apply (write_all_writable t (output_dir_clean a) _ _ _ dw) in Hw;
      [|apply fixtures_bare|apply fixtures_nonempty|done].
    rewrite Forall_forall in Hw. specialize (Hw x Hx).
    unfold writable_at in Hw. cbn [fs emit] in Hw.
    apply (dirs_added_file w w0) in Hold; [|done].
    unfold target in Hw. by rewrite Hold in Hw.
  - rewrite stdout_run. by destruct Hfr as (-> & _).
  - intros p nd. rewrite fs_run.
    change (map (λ y : fixture, join t y.1) fixtures) with (map (target t) fixtures).
    destruct (decide (p ∈ map (target t) fixtures)) as [Hin|Hout]; [by left|].
    rewrite written_lookup_other by done. intros Hp. right.
    destruct Hfr as (_ & _ & H). destruct (H p) as [E|[E1 E2]].
    + left. congruence.
    + right. split; [done|]. congruence.
Qed.

Lemma C7_overwrite_witness :
  let w' := (create_test_directory "/proj/test_preview.py" stale_world).1 in
  fs stale_world !! "/proj/test_preview_files/sample.csv"
  = Some (File true (String.list_byte_of_string "old,data"))
  ∧ fs w' !! "/proj/test_preview_files/sample.csv"
    = Some (File true (String.list_byte_of_string csv_text)).
Proof.
  intros w'.
  assert (create_test_directory "/proj/test_preview.py" stale_world
          = (w', Return "/proj/test_preview_files")) as E by (vm_compute; reflexivity).
  assert (("sample.csv", [csv_text]) ∈ fixtures) as Hx
    by (apply list_elem_of_In; simpl; tauto).
  assert (fs stale_world !! join "/proj/test_preview_files" ("sample.csv", [csv_text]).1
          = Some (File true (String.list_byte_of_string "old,data"))) as Hold
    by (vm_compute; reflexivity).
  destruct (C7_overwrite _ _ _ _ _ _ _ E Hx Hold) as (H1 & _).
  split; [exact Hold|exact H1].
Defined.

End ClaimsContent.

Section ClaimsOrder.
Import Str io posixpath os.






(** C9.  Two runs of the script at the same path that both return, in any
    two worlds (other files, other console history, other arguments,
    environment variables, clock and entropy), return the same path, leave
    the same bytes in each of the ten files, and add the same lines to the
    console; they leave the environment of the process as it was. *)
Theorem C9_deterministic (a : string) (w1 w1' w2 w2' : World) (r1 r2 : string) :
  create_test_directory a w1 = (w1', Return r1) →
  create_test_directory a w2 = (w2', Return r2) →
  r1 = r2
  ∧ (∀ x, x ∈ fixtures → fs w1' !! join r1 x.1 = fs w2' !! join r1 x.1)
  ∧ (∃ out, stdout w1' = stdout w1 ++ out ∧ stdout w2' = stdout w2 ++ out
            ∧ stdout_text w1' = stdout_text w1
                +:+ String.concat EmptyString (map (λ s, s +:+ nl) out)
            ∧ stdout_text w2' = stdout_text w2
                +:+ String.concat EmptyString (map (λ s, s +:+ nl) out))
  ∧ env w1' = env w1 ∧ env w2' = env w2.
Proof.
  intros (-> & u1 & Hm1 & ->)%run_return (-> & u2 & Hm2 & ->)%run_return.
  apply makedirs_frame in Hm1 as (Ho1 & He1 & _).
  apply makedirs_frame in Hm2 as (Ho2 & He2 & _).
  split; [done|]. split; [|split; [|done]].
  - intros x Hx. rewrite !fs_run.
    change (join (output_dir a) x.1) with (target (output_dir a) x).
    rewrite (written_lookup _ _ (fs u1) x (fixtures_targets_NoDup a) Hx).
    by rewrite (written_lookup _ _ (fs u2) x (fixtures_targets_NoDup a) Hx).
  - exists (printed fixtures (output_dir a)).
    unfold stdout_text. rewrite !stdout_run, Ho1, Ho2.
    by rewrite !stdout_text_app.
Qed.

Lemma C9_deterministic_witness :
  let w1' := (create_test_directory "/proj/test_preview.py" demo_world).1 in
  let w2' := (create_test_directory "/proj/test_preview.py" stale_world).1 in
  env demo_world ≠ env stale_world
  ∧ fs w1' !! "/proj/test_preview_files/sample.sql"
    = fs w2' !! "/proj/test_preview_files/sample.sql".
Proof.
  intros w1' w2'.
  assert (create_test_directory "/proj/test_preview.py" demo_world
          = (w1', Return "/proj/test_preview_files")) as E1 by (vm_compute; reflexivity).
  assert (create_test_directory "/proj/test_preview.py" stale_world
          = (w2', Return "/proj/test_preview_files")) as E2 by (vm_compute; reflexivity).
  destruct (C9_deterministic _ _ _ _ _ _ _ E1 E2) as (_ & H & _).
  split; [discriminate|].
  apply (H ("sample.sql", [sql_text])). apply list_elem_of_In. simpl. tauto.
Defined.

(** C10.  The table has ten blocks with ten different names, none holding
    a separator.  Each target is the output directory joined with the name:
    its directory is the output directory and its last component the name.
    The ten targets are pairwise different, so no block opens the file of
    an earlier one.  A run that returns leaves the file system [makedirs]
    produced with exactly these ten paths rewritten, each a regular file. *)
Theorem C10_targets (a : string) :
  let r := output_dir a in
  length fixtures = 10%nat
  ∧ NoDup (map fst fixtures)
  ∧ (∀ x, x ∈ fixtures →
       contains x.1 sep = false
       ∧ dirname (join r x.1) = r
       ∧ basename (join r x.1) = x.1)
  ∧ NoDup (map (λ x : fixture, join r x.1) fixtures)
  ∧ (∀ l1 x l2, fixtures = l1 ++ x :: l2 →
       join r x.1 ∉ map (λ y : fixture, join r y.1) l1)
  ∧ (∀ w w' r', create_test_directory a w = (w', Return r') →
       r' = r
       ∧ ∃ w0, makedirs r w = (w0, Return tt)
           ∧ (∀ p, p ∉ map (λ x : fixture, join r x.1) fixtures →
                fs w' !! p = fs w0 !! p)
           ∧ (∀ x, x ∈ fixtures → is_file (fs w') (join r x.1) = true)).
Proof.
  intros r. pose proof (fixtures_targets_NoDup a) as Hnd. fold r in Hnd.
  split; [done|]. split; [apply fixtures_names_NoDup|].
  split; [|split; [exact Hnd|split]].
  - intros x Hx.
    assert (bare x.1 = true) as Hb.
    { pose proof fixtures_bare as H. rewrite Forall_forall in H. by apply H. }
    split; [by apply bare_inv in Hb as [_ ?]|].
    split; [by apply dirname_join_clean; [apply output_dir_clean|]|by apply basename_join].
  - intros l1 x l2 Hl.
    change (join r x.1) with (target r x).
    change (map (λ y : fixture, join r y.1) l1) with (map (target r) l1).
    rewrite Hl, map_app in Hnd. simpl in Hnd.
    apply NoDup_app in Hnd as (_ & Hd & _). intros Hin. apply (Hd _ Hin). left.
  - intros w w' r' (-> & w0 & Hm & ->)%run_return. split; [done|].
    exists w0. split; [done|]. split.
    + intros p Hp. rewrite fs_run. by apply written_lookup_other.
    + intros x Hx. unfold is_file. rewrite fs_run.
      change (join r x.1) with (target r x).
      by rewrite written_lookup.
Qed.

Lemma C10_targets_witness :
  let w' := (create_test_directory "/proj/test_preview.py" demo_world).1 in
  dirname "/proj/test_preview_files/README.md" = "/proj/test_preview_files"
  ∧ is_file (fs w') "/proj/test_preview_files/README.md" = true.
Proof.
  intros w'.
  assert (create_test_directory "/proj/test_preview.py" demo_world
          = (w', Return "/proj/test_preview_files")) as E by (vm_compute; reflexivity).
  assert (("README.md", [md_text]) ∈ fixtures) as Hx
    by (apply list_elem_of_In; simpl; tauto).
  destruct (C10_targets "/proj/test_preview.py") as (_ & _ & H1 & _ & _ & H2).
  destruct (H1 _ Hx) as (_ & Hd & _).
  destruct (H2 _ _ _ E) as (_ & w0 & _ & _ & Hf).
  split; [exact Hd|exact (Hf _ Hx)].
Defined.

End ClaimsOrder.

(** * The line separator of other platforms

    The embedding fixes the line feed as [os.linesep].  With the pair CR LF
    the same [write] puts other bytes in the file, and reading in text mode
    still gives the literal. *)
Remark crlf_bytes_differ :
  io.encode_text (Str.cr +:+ Str.nl) txt_text_1 ≠ String.list_byte_of_string txt_text_1
  ∧ io.decode_text (io.encode_text (Str.cr +:+ Str.nl) txt_text_1) = txt_text_1.
Proof. split; [discriminate|reflexivity]. Qed.

(** * More on complete and failed runs *)

Section RunsMore.
Import Str io posixpath os.

Lemma fixture_bare (x : fixture) : x ∈ fixtures → bare x.1 = true.
Proof. intros Hx. pose proof fixtures_bare as H. rewrite Forall_forall in H. by apply H. Qed.

Lemma is_dir_lookup (m : gmap string node) (p : string) :
  is_dir m p = true ↔ ∃ dw, m !! p = Some (Dir dw).
Proof.
  unfold is_dir. split.
  - destruct (m !! p) as [[dw| |]|]; try done. by exists dw.
  - by intros [dw ->].
Qed.

(** X1.  The function returns exactly when [makedirs] returns and, in the
    world it left, each of the ten targets is a regular file the process
    may write, or is absent while the output directory may take a new
    entry. *)
Theorem X1_returns_iff (a : string) (w : World) :
  (∃ w', create_test_directory a w = (w', Return (output_dir a)))
  ↔ ∃ w0 dw,
      makedirs (output_dir a) w = (w0, Return tt)
      ∧ fs w0 !! output_dir a = Some (Dir dw)
      ∧ ∀ x, x ∈ fixtures →
          writable_at dw (fs w0) (join (output_dir a) x.1) = true.
Proof.
  split.
  - intros [w' H]. rewrite create_test_directory_table in H.
    apply run_fixtures_return in H as (_ & w0 & Hm & _ & Hw).
    pose proof (makedirs_return _ _ _ Hm) as [dw Hd]%is_dir_lookup.
    exists w0, dw. split; [done|]. split; [done|].
    apply (write_all_writable _ (output_dir_clean a) _ _ _ dw) in Hw;
      [|apply fixtures_bare|apply fixtures_nonempty|done].
    by rewrite Forall_forall in Hw.
  - intros (w0 & dw & Hm & Hd & Hw). eexists.
    rewrite create_test_directory_table.
    apply (run_table_ok fixtures a w w0 dw); [apply fixtures_bare|done..|].
    by apply Forall_forall.
Qed.

Lemma X1_returns_iff_witness :
  ∃ w', create_test_directory "/proj/test_preview.py" stale_world
        = (w', Return "/proj/test_preview_files").
Proof.
  apply (proj2 (X1_returns_iff "/proj/test_preview.py" stale_world)).
  exists stale_world, true. split; [vm_compute; reflexivity|].
  split; [vm_compute; reflexivity|].
  intros x Hx. apply list_elem_of_In in Hx. simpl in Hx.
  repeat (destruct Hx as [<-|Hx]; [vm_compute; reflexivity|]). destruct Hx.
Defined.

(** In a parent-closed file system nothing lies under a path that is
    absent. *)
Lemma closed_absent_child (m : gmap string node) (d n : string) :
  parent_closed m → clean d = true → bare n = true →
  is_dir m d = false → m !! join d n = None.
Proof.
  intros Hpc Hd Hn Hnd. destruct (m !! join d n) as [nd|] eqn:E; [|done].
  apply Hpc in E. rewrite dirname_join_clean in E by done. congruence.
Qed.

Lemma target_not_dir (a : string) (x : fixture) :
  x ∈ fixtures → target (output_dir a) x ≠ output_dir a.
Proof. intros Hx. apply join_ne. by apply fixture_bare. Qed.

Lemma target_not_parent (a : string) (x : fixture) :
  x ∈ fixtures → target (output_dir a) x ≠ dirname a.
Proof.
  intros Hx E. pose proof (join_longer (output_dir a) x.1 (fixture_bare x Hx)) as H1.
  pose proof (join_longer (dirname a) "test_preview_files" bare_test_preview_files) as H2.
  fold (target (output_dir a) x) in H1. fold (output_dir a) in H2.
  rewrite E in H1. lia.
Qed.

Lemma mkdir_fresh (p : string) (w : World) :
  fs w !! dirname p = Some (Dir true) → fs w !! p = None →
  mkdir_exist_ok p w = (set_fs <[p := Dir true]> w, Return tt).
Proof.
  intros Hd Hp. unfold mkdir_exist_ok, try_except, mkdir. by rewrite Hd, Hp.
Qed.

(** X2.  In a parent-closed file system where the directory of the script
    is writable and the output directory does not exist yet, the function
    returns; the paths that are new afterwards are exactly the output
    directory and the ten targets, and the process ends with status 0. *)
Theorem X2_fresh_directory (a : string) (w : World) :
  parent_closed (fs w) →
  fs w !! dirname a = Some (Dir true) →
  fs w !! output_dir a = None →
  ∃ w', create_test_directory a w = (w', Return (output_dir a))
    ∧ exit_status (main a w).2 = 0
    ∧ fs w' = written (output_dir a) fixtures (<[output_dir a := Dir true]> (fs w))
    ∧ ∀ p, fs w !! p = None →
        (is_Some (fs w' !! p)
         ↔ p = output_dir a ∨ p ∈ map (λ x : fixture, join (output_dir a) x.1) fixtures).
Proof.
  intros Hpc Hd Ht. set (t := output_dir a) in *.
  assert (makedirs t w = (set_fs <[t := Dir true]> w, Return tt)) as Hm.
  { unfold t. rewrite makedirs_output_dir, Hd. rewrite bool_decide_eq_true_2 by eauto.
    simpl negb. rewrite andb_false_r. apply mkdir_fresh; [|done].
    unfold output_dir. by rewrite dirname_join_dirname. }
  assert (create_test_directory a w
          = (emit (printed fixtures t) (written_world t fixtures (set_fs <[t := Dir true]> w)),
             Return t)) as Hrun.
  { rewrite create_test_directory_table.
    apply (run_table_ok fixtures a w _ true); [apply fixtures_bare|done| |].
    - cbn [fs set_fs]. apply lookup_insert_eq.
    - apply Forall_forall. intros x Hx. unfold writable_at. cbn [fs set_fs].
      rewrite lookup_insert_ne by (symmetry; by apply target_not_dir).
      unfold target. fold t. rewrite (closed_absent_child (fs w) t x.1); try done.
      + apply output_dir_clean.
      + by apply fixture_bare.
      + unfold is_dir. by rewrite Ht. }
  eexists. split; [exact Hrun|]. split; [|split; [by rewrite fs_run|]].
  - unfold main, bind. by rewrite Hrun.
  - intros p Hp. rewrite fs_run. cbn [fs set_fs].
    change (map (λ x : fixture, join t x.1) fixtures) with (map (target t) fixtures).
    destruct (decide (p ∈ map (target t) fixtures)) as [Hin|Hout].
    + split; [by right|intros _].
      apply list_elem_of_fmap in Hin as (x & -> & Hx).
      rewrite written_lookup; [by eexists|apply fixtures_targets_NoDup|done].
    + rewrite written_lookup_other by done.
      destruct (decide (p = t)) as [->|Hne].
      * rewrite lookup_insert_eq. split; [by left|by eexists].
      * rewrite lookup_insert_ne by done. rewrite Hp. split; [by intros [? ?]|].
        by intros [?|?].
Qed.

Lemma demo_world_closed : parent_closed (fs demo_world).
Proof.
  intros p nd. unfold demo_world. cbn [fs list_to_map foldr uncurry].
  intros H.
  repeat (apply lookup_insert_Some in H as [[<- _]|[_ H]]; [reflexivity|]).
  by rewrite lookup_empty in H.
Qed.

Lemma X2_fresh_directory_witness :
  ∃ w', create_test_directory "/proj/test_preview.py" demo_world
        = (w', Return "/proj/test_preview_files")
    ∧ exit_status (main "/proj/test_preview.py" demo_world).2 = 0.
Proof.
  destruct (X2_fresh_directory "/proj/test_preview.py" demo_world demo_world_closed)
    as (w' & H1 & H2 & _); [vm_compute; reflexivity..|].
  exists w'. split; [exact H1|exact H2].
Defined.

End RunsMore.

Section Frames.
Import Str io posixpath os.

(** Where a run of a table can stop, and the world it then leaves: the
    blocks of [l1] are complete, and the next block, if the system refused
    its bytes, has left its file truncated. *)
Lemma run_table_any (l : list fixture) (a : string) (w w' : World) (o : outcome string) :
  Forall (λ x : fixture, file_bytes x ≠ []) l →
  run_table l a w = (w', o) →
  (∃ e, makedirs (output_dir a) w = (w', Raise e) ∧ o = Raise e)
  ∨ ∃ w0 l1 l2 out,
      makedirs (output_dir a) w = (w0, Return tt)
      ∧ l = l1 ++ l2
      ∧ write_all (output_dir a) l1 (emit (prologue (output_dir a)) w0)
        = (emit (prologue (output_dir a) ++ map (created_line (output_dir a)) l1)
             (written_world (output_dir a) l1 w0), Return tt)
      ∧ (w' = emit out (written_world (output_dir a) l1 w0)
         ∨ ∃ x l3 d,
             l2 = x :: l3
             ∧ fs (written_world (output_dir a) l1 w0) !! target (output_dir a) x
               = Some (Refused d)
             ∧ w' = stored (target (output_dir a) x) (Refused [])
                      (emit out (written_world (output_dir a) l1 w0))).
Proof.
  intros Hne. destruct o as [r|e].
  - intros H. apply run_table_return in H as (_ & w0 & Hm & -> & Hw); [|done]. right.
    exists w0, l, [], (printed l (output_dir a)). rewrite app_nil_r. eauto.
  - intros H. apply run_table_raise_world in H
      as [Hm|(w0 & l1 & x & l2 & Hm & -> & H1 & Hx)]; [left; eauto| |done].
    right.
    exists w0, l1, (x :: l2), (prologue (output_dir a) ++ map (created_line (output_dir a)) l1).
    split; [done|]. split; [done|]. split; [done|].
    destruct Hx as [[-> _]|(_ & -> & d & Hd)]; [by left|].
    right. by exists x, l2, d.
Qed.

Lemma script_not_target (a : string) (l : list fixture) :
  Forall (λ x : fixture, bare x.1 = true) l → a ∉ map (target (output_dir a)) l.
Proof.
  intros Hb (x & Hx & Hin)%list_elem_of_fmap. rewrite Forall_forall in Hb.
  assert (dirname a = output_dir a) as E.
  { transitivity (dirname (target (output_dir a) x)); [by f_equal|].
    apply dirname_join_clean; [apply output_dir_clean|by apply Hb]. }
  symmetry in E. by apply join_ne in E.
Qed.

(** X3.  Whatever the outcome, the function leaves the environment of the
    process alone, only adds to the console, removes no path, replaces no
    directory, and changes no node other than the ten targets; the file of
    the script itself is never a target. *)
Theorem X3_frame (a : string) (w w' : World) (o : outcome string) :
  create_test_directory a w = (w', o) →
  env w' = env w
  ∧ (∃ out, stdout w' = stdout w ++ out)
  ∧ (∀ p, is_Some (fs w !! p) → is_Some (fs w' !! p))
  ∧ (∀ p d, fs w !! p = Some (Dir d) → fs w' !! p = Some (Dir d))
  ∧ (∀ p nd, fs w !! p = Some nd →
       p ∉ map (λ x : fixture, join (output_dir a) x.1) fixtures →
       fs w' !! p = Some nd)
  ∧ a ∉ map (λ x : fixture, join (output_dir a) x.1) fixtures.
Proof.
  rewrite create_test_directory_table. intros H.
  apply run_table_any in H
    as [(e & Hm & _)|(w0 & l1 & l2 & out & Hm & Hl & Hw & Hw')]; [| |apply fixtures_nonempty].
  - pose proof (makedirs_frame _ _ _ _ Hm) as (Ho & He & Hf).
    split; [done|]. split; [exists []; by rewrite app_nil_r|].
    split; [intros p; by apply (dirs_added_is_Some w w')|].
    assert (∀ p nd, fs w !! p = Some nd → fs w' !! p = Some nd) as Hkeep.
    { intros p nd Hp. destruct (Hf p) as [->|[E _]]; congruence. }
    split; [intros p d; apply Hkeep|]. split; [intros p nd Hp _; by apply Hkeep|].
    apply script_not_target, fixtures_bare.
  - set (t := output_dir a) in *.
    pose proof (makedirs_frame _ _ _ _ Hm) as (Ho & He & Hf).
    assert (∀ p nd, fs w !! p = Some nd → fs w0 !! p = Some nd) as Hkeep.
    { intros p nd Hp. destruct (Hf p) as [->|[E _]]; congruence. }
    assert (Forall (λ x : fixture, bare x.1 = true) l1) as Hb1.
    { pose proof fixtures_bare as Hb. rewrite Hl in Hb. by apply Forall_app in Hb as [? _]. }
    assert (Forall (λ x : fixture, file_bytes x ≠ []) l1) as Hn1.
    { pose proof fixtures_nonempty as Hb. rewrite Hl in Hb. by apply Forall_app in Hb as [? _]. }
    assert (∀ p, p ∈ map (target t) l1 → p ∈ map (target t) fixtures) as Hsub.
    { intros p Hp. rewrite Hl, map_app. apply elem_of_app. by left. }
    assert (∀ p, is_Some (fs w !! p) → is_Some (written t l1 (fs w0) !! p)) as A1.
    { intros p Hp. apply written_is_Some. by apply (dirs_added_is_Some w w0). }
    assert (∀ p d, fs w !! p = Some (Dir d) → written t l1 (fs w0) !! p = Some (Dir d)) as A2.
    { intros p d Hp. rewrite written_lookup_other; [by apply Hkeep|].
      intros (x & -> & Hx)%list_elem_of_fmap.
      pose proof (makedirs_return _ _ _ Hm) as [dw Hd]%is_dir_lookup.
      apply (write_all_writable t (output_dir_clean a) _ _ _ dw) in Hw; [|done..].
      rewrite Forall_forall in Hw. specialize (Hw x Hx).
      unfold writable_at in Hw. cbn [fs emit] in Hw.
      by rewrite (Hkeep _ _ Hp) in Hw. }
    assert (∀ p nd, fs w !! p = Some nd → p ∉ map (target t) fixtures →
              written t l1 (fs w0) !! p = Some nd) as A3.
    { intros p nd Hp Hout. rewrite written_lookup_other; [by apply Hkeep|].
      intros Hin. by apply Hout, Hsub. }
    destruct Hw' as [->|(x & l3 & d & -> & Hd & ->)].
    + split; [by rewrite env_run|]. split; [exists out; by rewrite stdout_run, Ho|].
      rewrite fs_run. split; [done|]. split; [done|]. split; [done|].
      apply script_not_target, fixtures_bare.
    + rewrite (fs_written_world t) in Hd.
      cbn [env stdout fs stored]. rewrite env_run, stdout_run, fs_run.
      split; [done|]. split; [exists out; by rewrite Ho|].
      split; [|split; [|split]].
      * intros p Hp. destruct (decide (target t x = p)) as [<-|Hne];
          [rewrite lookup_insert_eq; eauto|rewrite lookup_insert_ne by done; by apply A1].
      * intros p d' Hp. destruct (decide (target t x = p)) as [<-|Hne];
          [|rewrite lookup_insert_ne by done; by apply A2].
        apply A2 in Hp. congruence.
      * intros p nd Hp Hout. rewrite lookup_insert_ne; [by apply A3|].
        intros <-. apply Hout. rewrite Hl. apply list_elem_of_fmap. exists x.
        split; [done|]. apply elem_of_app. right. left.
      * apply script_not_target, fixtures_bare.
Qed.

Lemma X3_frame_witness :
  let w' := (create_test_directory "/proj/test_preview.py" blocked_world).1 in
  fs w' !! "/proj/test_preview.py" = Some (File true [])
  ∧ fs w' !! "/proj/test_preview_files/sample.py" = Some (Dir true).
Proof.
  intros w'.
  assert (create_test_directory "/proj/test_preview.py" blocked_world
          = (w', Raise IsADirectoryError)) as E by (vm_compute; reflexivity).
  destruct (X3_frame _ _ _ _ E) as (_ & _ & _ & Hd & Hn & Hs).
  split.
  - apply Hn; [vm_compute; reflexivity|exact Hs].
  - apply Hd. vm_compute. reflexivity.
Defined.

(** Parent-closedness through the calls. *)
Lemma mkdir_parent (p : string) (w w' : World) :
  mkdir p w = (w', Return tt) → is_dir (fs w) (dirname p) = true.
Proof.
  unfold mkdir, is_dir.
  by destruct (fs w !! dirname p) as [[dw|? ?|?]|].
Qed.

Lemma insert_dir_closed (m : gmap string node) (p : string) :
  parent_closed m → is_dir m (dirname p) = true → m !! p = None →
  parent_closed (<[p := Dir true]> m).
Proof.
  intros Hpc Hd Hp q nd Hq.
  assert (is_dir m (dirname q) = true) as Hdq.
  { destruct (decide (p = q)) as [<-|Hne]; [done|].
    rewrite lookup_insert_ne in Hq by done. by eapply Hpc. }
  unfold is_dir in *. destruct (decide (p = dirname q)) as [<-|Hne].
  - by rewrite lookup_insert_eq.
  - by rewrite lookup_insert_ne.
Qed.

Lemma insert_file_closed (m : gmap string node) (p : string) (nd : node) :
  parent_closed m → is_dir m (dirname p) = true → is_dir m p = false →
  parent_closed (<[p := nd]> m).
Proof.
  intros Hpc Hd Hp q nd' Hq.
  assert (is_dir m (dirname q) = true) as Hdq.
  { destruct (decide (p = q)) as [<-|Hne]; [done|].
    rewrite lookup_insert_ne in Hq by done. by eapply Hpc. }
  unfold is_dir in *. destruct (decide (p = dirname q)) as [E|Hne].
  - rewrite <- E in Hdq. congruence.
  - by rewrite lookup_insert_ne.
Qed.

Lemma mkdir_exist_ok_closed (p : string) (w w' : World) (r : outcome unit) :
  parent_closed (fs w) → mkdir_exist_ok p w = (w', r) → parent_closed (fs w').
Proof.
  intros Hpc. unfold mkdir_exist_ok, try_except.
  destruct (mkdir p w) as [w1 [[]|e]] eqn:Hm.
  - intros [= <- <-]. pose proof (mkdir_parent _ _ _ Hm) as Hd.
    apply mkdir_spec in Hm as [-> Hnone]. cbn [fs set_fs]. by apply insert_dir_closed.
  - apply mkdir_spec in Hm as [-> He]. rewrite He. unfold bind, isdir, ret, raise.
    destruct (match fs w !! p with Some (Dir _) => true | _ => false end);
      by intros [= <- <-].
Qed.

Lemma makedirs_rec_closed (fuel : nat) (name : string) (w w' : World) (r : outcome unit) :
  parent_closed (fs w) → makedirs_rec fuel name w = (w', r) → parent_closed (fs w').
Proof.
  revert name w w' r. induction fuel as [|fuel IH]; intros name w w' r Hpc.
  - simpl. unfold raise. by intros [= <- <-].
  - rewrite makedirs_rec_S. destruct (makedirs_parts name) as [head tail].
    cbn [fst snd]. cbv zeta.
    destruct (nonempty head && nonempty tail && negb _);
      [|by apply mkdir_exist_ok_closed].
    unfold bind, try_except.
    destruct (makedirs_rec fuel head w) as [w1 [[]|e]] eqn:Hrec;
      apply IH in Hrec; try done.
    + destruct (String.eqb tail "."); [unfold ret; by intros [= <- <-]|].
      by apply mkdir_exist_ok_closed.
    + destruct e; try (by intros [= <- <-]).
      unfold ret. destruct (String.eqb tail "."); [by intros [= <- <-]|].
      by apply mkdir_exist_ok_closed.
Qed.

Lemma write_all_closed (t : string) (l : list fixture) (w w' : World) (o : outcome unit) :
  Forall (λ x : fixture, file_bytes x ≠ []) l →
  parent_closed (fs w) → write_all t l w = (w', o) → parent_closed (fs w').
Proof.
  revert w. induction l as [|x l IH]; intros w Hne Hpc.
  - simpl. unfold ret. by intros [= <- <-].
  - apply Forall_cons in Hne as [Hx Hne]. simpl. unfold bind.
    destruct (write_fixture t x w) as [w1 o1] eqn:Hwx.
    apply (write_fixture_cases _ _ _ _ _ Hx) in Hwx
      as [(-> & -> & dw & Hd & Hw)|[(e & -> & -> & _)|(-> & -> & dw & d & Hd & Hp)]].
    + apply IH; [done|]. cbn [fs emit stored]. apply insert_file_closed; [done| |].
      * unfold is_dir. by rewrite Hd.
      * unfold writable_at in Hw. unfold is_dir.
        by destruct (fs w !! target t x) as [[?|? ?|?]|].
    + by intros [= <- <-].
    + intros [= <- <-]. cbn [fs stored]. apply insert_file_closed; [done| |].
      * unfold is_dir. by rewrite Hd.
      * unfold is_dir. by rewrite Hp.
Qed.

(** X4.  The function keeps the file system parent-closed: if every node
    lay in a directory before the call, every node does after it, whether
    the call returned or raised. *)
Theorem X4_parent_closed_kept (a : string) (w w' : World) (o : outcome string) :
  parent_closed (fs w) →
  create_test_directory a w = (w', o) →
  parent_closed (fs w').
Proof.
  intros Hpc. rewrite create_test_directory_table, run_table_spec.
  destruct (makedirs (output_dir a) w) as [w0 [[]|e]] eqn:Hm;
    apply makedirs_rec_closed in Hm; try done; [|by intros [= <- <-]].
  destruct (write_all _ fixtures _) as [w1 [[]|e]] eqn:Hw;
    apply write_all_closed in Hw; try done; try apply fixtures_nonempty;
    by intros [= <- <-].
Qed.

Lemma X4_parent_closed_kept_witness :
  parent_closed (fs (create_test_directory "/proj/test_preview.py" demo_world).1).
Proof.
  apply (X4_parent_closed_kept "/proj/test_preview.py" demo_world _
           (create_test_directory "/proj/test_preview.py" demo_world).2).
  - exact demo_world_closed.
  - vm_compute. reflexivity.
Defined.

End Frames.

Section Obstacles.
Import Str io posixpath os.

Lemma run_table_makedirs_raise (l : list fixture) (a : string) (w w0 : World) (e : exn) :
  makedirs (output_dir a) w = (w0, Raise e) → run_table l a w = (w0, Raise e).
Proof. intros Hm. by rewrite run_table_spec, Hm. Qed.

(** X5.  [exist_ok] covers a directory only.  When the output path is
    taken by a regular file, the function raises [FileExistsError] and
    leaves the world as it found it: the file stays, nothing is printed. *)
Theorem X5_output_path_is_file (a : string) (w : World) (dw b : bool) (d : list byte) :
  fs w !! dirname a = Some (Dir dw) →
  fs w !! output_dir a = Some (File b d) →
  create_test_directory a w = (w, Raise FileExistsError).
Proof.
  intros Hd Ht. rewrite create_test_directory_table.
  apply run_table_makedirs_raise.
  rewrite makedirs_output_dir. rewrite bool_decide_eq_true_2 by (rewrite Hd; eauto).
  simpl negb. rewrite andb_false_r.
  unfold mkdir_exist_ok, try_except, mkdir.
  replace (dirname (output_dir a)) with (dirname a)
    by (unfold output_dir; by rewrite dirname_join_dirname).
  rewrite Hd, Ht. cbn [is_OSError]. unfold bind, isdir. by rewrite Ht.
Qed.

Lemma X5_output_path_is_file_witness :
  create_test_directory "/proj/test_preview.py" file_in_the_way
  = (file_in_the_way, Raise FileExistsError).
Proof.
  apply (X5_output_path_is_file "/proj/test_preview.py" file_in_the_way true true []);
    vm_compute; reflexivity.
Defined.

(** X6.  Overwriting needs no right on the directory.  When the output
    directory exists but takes no new entry, the function returns exactly
    when each of the ten targets already is a regular file the process may
    write. *)
Theorem X6_readonly_directory (a : string) (w : World) :
  is_Some (fs w !! dirname a) →
  fs w !! output_dir a = Some (Dir false) →
  (∃ w', create_test_directory a w = (w', Return (output_dir a)))
  ↔ ∀ x, x ∈ fixtures → ∃ d, fs w !! join (output_dir a) x.1 = Some (File true d).
Proof.
  intros Hp Ht.
  assert (makedirs (output_dir a) w = (w, Return tt)) as Hm.
  { apply makedirs_present; [|done]. unfold is_dir. by rewrite Ht. }
  split.
  - intros [w' H]. rewrite create_test_directory_table in H.
    apply run_fixtures_return in H as (_ & w0 & Hm' & _ & Hw).
    rewrite Hm in Hm'. injection Hm' as <-.
    apply (write_all_writable _ (output_dir_clean a) _ _ _ false) in Hw;
      [|apply fixtures_bare|apply fixtures_nonempty|done].
    rewrite Forall_forall in Hw. intros x Hx. specialize (Hw x Hx).
    unfold writable_at, target in Hw. cbn [fs emit] in Hw.
    destruct (fs w !! join (output_dir a) x.1) as [[?|[] d|?]|]; try done. by exists d.
  - intros Hall. eexists. rewrite create_test_directory_table.
    apply (run_table_ok fixtures a w w false); [apply fixtures_bare|done..|].
    apply Forall_forall. intros x Hx. destruct (Hall x Hx) as [d Hd].
    unfold writable_at, target. by rewrite Hd.
Qed.

Lemma X6_readonly_directory_witness :
  ¬ ∃ w', create_test_directory "/proj/test_preview.py" readonly_empty_dir
          = (w', Return "/proj/test_preview_files").
Proof.
  assert (is_Some (fs readonly_empty_dir !! dirname "/proj/test_preview.py")) as Hp
    by (vm_compute; eexists; reflexivity).
  assert (fs readonly_empty_dir !! output_dir "/proj/test_preview.py" = Some (Dir false))
    as Ht by (vm_compute; reflexivity).
  destruct (X6_readonly_directory "/proj/test_preview.py" readonly_empty_dir Hp Ht)
    as [Hfwd _].
  intros H.
  destruct (Hfwd H ("sample.txt", [txt_text_1; txt_text_2; txt_text_3; txt_text_4]))
    as [d Hd].
  - apply list_elem_of_In. simpl. tauto.
  - vm_compute in Hd. discriminate Hd.
Defined.



(** X8.  Which exception a block raises.  With the output directory in
    place and every earlier target writable, the first target the process
    cannot write ends the run: with [IsADirectoryError] when a directory
    sits at its path, with [PermissionError] when it is a read-only file or
    is absent from a read-only directory. *)
Theorem X8_first_obstacle (a : string) (w w0 : World) (dw : bool)
    (l1 l2 : list fixture) (x : fixture) :
  makedirs (output_dir a) w = (w0, Return tt) →
  fs w0 !! output_dir a = Some (Dir dw) →
  fixtures = l1 ++ x :: l2 →
  (∀ y, y ∈ l1 → writable_at dw (fs w0) (join (output_dir a) y.1) = true) →
  writable_at dw (fs w0) (join (output_dir a) x.1) = false →
  ∃ w', create_test_directory a w
        = (w', Raise (match fs w0 !! join (output_dir a) x.1 with
                      | Some (Dir _) => IsADirectoryError
                      | _ => PermissionError
                      end))
    ∧ stdout w' = stdout w ++ prologue (output_dir a)
                   ++ map (created_line (output_dir a)) l1.
Proof.
  intros Hm Hd Hl Hw1 Hx. set (t := output_dir a) in *.
  pose proof fixtures_bare as Hb. rewrite Hl in Hb.
  apply Forall_app in Hb as [Hb1 [Hbx _]%Forall_cons].
  pose proof fixtures_nonempty as Hn. rewrite Hl in Hn.
  apply Forall_app in Hn as [_ [Hnx _]%Forall_cons].
  pose proof (fixtures_targets_NoDup a) as Hnd. fold t in Hnd.
  rewrite Hl, map_app in Hnd. apply NoDup_app in Hnd as (_ & Hdisj & _).
  assert (write_all t l1 (emit (prologue t) w0)
          = (emit (map (created_line t) l1) (written_world t l1 (emit (prologue t) w0)),
             Return tt)) as H1.
  { apply (write_all_ok t (output_dir_clean a) l1 _ dw); [done..|].
    by apply Forall_forall. }
  set (w1 := emit (map (created_line t) l1) _) in H1.
  assert (fs w1 !! target t x = fs w0 !! target t x) as Ex.
  { unfold w1. rewrite fs_run. apply written_lookup_other.
    intros Hin. apply (Hdisj _ Hin). left. }
  assert (fs w1 !! dirname (target t x) = Some (Dir dw)) as Ed.
  { rewrite (target_dirname t (output_dir_clean a)) by done.
    unfold w1. rewrite fs_run, written_lookup_other; [done|].
    by apply output_dir_not_target. }
  assert (stdout w1 = stdout w ++ prologue t ++ map (created_line t) l1) as Hout.
  { unfold w1. rewrite stdout_run. cbn [stdout emit].
    apply makedirs_frame in Hm as (-> & _). by rewrite <- app_assoc. }
  unfold writable_at in Hx. change (join t x.1) with (target t x) in Hx |- *.
  assert (∃ w', with_open (target t x) (λ f, write_chunks f x.2) w1
                = (w', Raise (match fs w0 !! target t x with
                              | Some (Dir _) => IsADirectoryError
                              | _ => PermissionError
                              end))
            ∧ stdout w' = stdout w1) as (w' & Hwo & Hso).
  { destruct (fs w0 !! target t x) as [[?|fw ?|d]|] eqn:Hn0.
    - exists w1. split; [|done]. unfold with_open, bind, open_w. by rewrite Ed, Ex.
    - exists w1. split; [|done]. unfold with_open, bind, open_w. by rewrite Ed, Ex, Hx.
    - eexists. split; [by apply (with_open_refused _ _ _ dw d)|done].
    - exists w1. split; [|done]. unfold with_open, bind, open_w. by rewrite Ed, Ex, Hx. }
  exists w'. split; [|by rewrite Hso].
  rewrite create_test_directory_table. apply run_table_raise. right.
  by exists w0, l1, x, l2, w1.
Qed.

Lemma X8_first_obstacle_witness :
  ∃ w', create_test_directory "/proj/test_preview.py" blocked_world
        = (w', Raise IsADirectoryError)
    ∧ length (stdout w') = 4%nat.
Proof.
  destruct (X8_first_obstacle "/proj/test_preview.py" blocked_world blocked_world true
              [("sample.txt", [txt_text_1; txt_text_2; txt_text_3; txt_text_4]);
               ("sample.json", [json_text])]
              [("Sample.cs", [cs_text]); ("sample.html", [html_text]);
               ("sample.css", [css_text]); ("README.md", [md_text]);
               ("sample.xml", [xml_text]); ("sample.csv", [csv_text]);
               ("sample.sql", [sql_text])]
              ("sample.py", [py_text])) as (w' & H1 & H2).
  - vm_compute. reflexivity.
  - vm_compute. reflexivity.
  - reflexivity.
  - intros y Hy. apply list_elem_of_In in Hy. simpl in Hy.
    repeat (destruct Hy as [<-|Hy]; [vm_compute; reflexivity|]). destruct Hy.
  - vm_compute. reflexivity.
  - exists w'. split; [exact H1|]. rewrite H2. reflexivity.
Defined.

End Obstacles.

Section Directories.
Import Str io posixpath os.

(** A path is free of the separator or splits at its last one. *)
Lemma sep_decomp (p : string) :
  contains p sep = false
  ∨ ∃ h n, p = h +:+ String sep n ∧ contains n sep = false.
Proof.
  induction p as [|c p IH]; [by left|].
  destruct IH as [Hp|(h & n & -> & Hn)].
  - destruct (Ascii.eqb_spec c sep) as [->|Hc].
    + right. by exists EmptyString, p.
    + left. simpl. rewrite Hp. by apply Ascii.eqb_neq in Hc as ->.
  - right. by exists (String c h), n.
Qed.

Lemma clean_basename (d : string) : clean d = true → nonempty (basename d) = true.
Proof.
  intros [Hne He]%clean_inv. unfold basename.
  destruct (sep_decomp d) as [Hd|(h & n & -> & Hn)].
  - by destruct (cut_none d Hd) as [_ ->].
  - destruct (cut_last h n Hn) as [_ ->]. destruct n; [|done].
    rewrite endswith_app in He by done. by vm_compute in He.
Qed.

Lemma dirname_mul (k : nat) :
  dirname (mul (String sep EmptyString) k) = mul (String sep EmptyString) k.
Proof.
  destruct k as [|k]; [done|].
  destruct (endswith_inv _ _ (endswith_mul sep (S k) ltac:(lia))) as [h Hh].
  assert (slice_to (mul (String sep EmptyString) (S k))
            (rfind (mul (String sep EmptyString) (S k)) sep + 1)
          = mul (String sep EmptyString) (S k)) as E.
  { rewrite Hh. by destruct (cut_last h EmptyString eq_refl) as [-> _]. }
  unfold dirname. rewrite E.
  rewrite length_mul1, String.eqb_refl. by rewrite andb_false_r.
Qed.

(** A directory name that is missing while its own directory exists is a
    clean path. *)
Lemma missing_dirname_clean (a : string) (m : gmap string node) :
  m !! dirname a = None → is_Some (m !! dirname (dirname a)) → clean (dirname a) = true.
Proof.
  intros Hn Hs. destruct (dirname_shape a) as [E|[[_ E]|E]]; [| |done].
  - rewrite E in Hs, Hn. change (dirname EmptyString) with EmptyString in Hs.
    rewrite Hn in Hs. by destruct Hs.
  - rewrite E in Hs. rewrite dirname_mul in Hs. rewrite <- E in Hs.
    rewrite Hn in Hs. by destruct Hs.
Qed.

(** X9.  [makedirs] makes the directory of the script too.  In a
    parent-closed file system where that directory is missing and the
    directory above it is writable, the function returns, and afterwards
    the directory of the script, the output directory and the ten files
    are all there. *)
Theorem X9_missing_script_directory (a : string) (w : World) :
  parent_closed (fs w) →
  fs w !! dirname (dirname a) = Some (Dir true) →
  fs w !! dirname a = None →
  ∃ w', create_test_directory a w = (w', Return (output_dir a))
    ∧ fs w' !! dirname a = Some (Dir true)
    ∧ fs w' !! output_dir a = Some (Dir true)
    ∧ ∀ x, x ∈ fixtures →
        fs w' !! join (output_dir a) x.1
        = Some (File true (String.list_byte_of_string (content x))).
Proof.
  intros Hpc Hp Hn. set (t := output_dir a). set (d := dirname a) in *.
  assert (clean d = true) as Hd by (apply (missing_dirname_clean a (fs w)); by eauto).
  pose proof (clean_inv _ Hd) as [Hdne _].
  assert (dirname t = d) as Hdt by (apply dirname_join_dirname; done).
  assert (t ≠ d) as Htd by (apply join_ne; done).
  assert (fs w !! t = None) as Ht.
  { destruct (fs w !! t) as [nd|] eqn:E; [|done].
    apply Hpc in E. rewrite Hdt in E. unfold is_dir in E. by rewrite Hn in E. }
  set (w1 := set_fs <[d := Dir true]> w).
  set (w0 := set_fs <[t := Dir true]> w1).
  assert (makedirs t w = (w0, Return tt)) as Hm.
  { unfold t. rewrite makedirs_output_dir. fold d t. rewrite Hdne, Hn.
    rewrite bool_decide_eq_false_2 by (by intros [? ?]). cbn [andb negb].
    unfold bind at 1, try_except.
    destruct (String.length t) as [|k] eqn:Hk.
    { pose proof (output_dir_clean a) as [Hc _]%clean_inv.
      apply nonempty_length in Hc. fold t in Hc. lia. }
    rewrite makedirs_rec_S. unfold makedirs_parts. rewrite (clean_basename d Hd).
    cbn [fst snd]. cbv zeta. rewrite Hp.
    rewrite bool_decide_eq_true_2 by eauto. rewrite andb_false_r.
    rewrite (mkdir_fresh d w Hp Hn). fold w1.
    apply mkdir_fresh.
    - rewrite Hdt. unfold w1. cbn [fs set_fs]. apply lookup_insert_eq.
    - unfold w1. cbn [fs set_fs]. by rewrite lookup_insert_ne. }
  assert (create_test_directory a w
          = (emit (printed fixtures t) (written_world t fixtures w0), Return t)) as Hrun.
  { rewrite create_test_directory_table.
    apply (run_table_ok fixtures a w w0 true); [apply fixtures_bare|done| |].
    - unfold w0. cbn [fs set_fs]. apply lookup_insert_eq.
    - apply Forall_forall. intros x Hx. unfold writable_at, w0, w1. cbn [fs set_fs].
      rewrite lookup_insert_ne by (symmetry; by apply target_not_dir).
      rewrite lookup_insert_ne by (symmetry; by apply target_not_parent).
      unfold target. fold t. rewrite (closed_absent_child (fs w) t x.1); try done.
      + apply output_dir_clean.
      + by apply fixture_bare.
      + unfold is_dir. by rewrite Ht. }
  eexists. split; [exact Hrun|]. rewrite fs_run.
  split; [|split].
  - rewrite written_lookup_other.
    + unfold w0, w1. cbn [fs set_fs]. rewrite lookup_insert_ne by done.
      apply lookup_insert_eq.
    + intros (x & Hx & Hin)%list_elem_of_fmap. symmetry in Hx.
      by apply target_not_parent in Hx.
  - rewrite written_lookup_other by (apply output_dir_not_target, fixtures_bare).
    unfold w0. cbn [fs set_fs]. apply lookup_insert_eq.
  - intros x Hx. change (join t x.1) with (target t x).
    rewrite written_lookup; [|apply fixtures_targets_NoDup|done].
    unfold file_bytes. by rewrite encode_text_posix.
Qed.

Lemma bare_root_closed : parent_closed (fs bare_root).
Proof.
  intros p nd. unfold bare_root. cbn [fs list_to_map foldr uncurry].
  intros H.
  repeat (apply lookup_insert_Some in H as [[<- _]|[_ H]]; [reflexivity|]).
  by rewrite lookup_empty in H.
Qed.

Lemma X9_missing_script_directory_witness :
  ∃ w', create_test_directory "/proj/test_preview.py" bare_root
        = (w', Return "/proj/test_preview_files")
    ∧ fs w' !! "/proj" = Some (Dir true).
Proof.
  destruct (X9_missing_script_directory "/proj/test_preview.py" bare_root bare_root_closed)
    as (w' & H1 & H2 & _); [vm_compute; reflexivity..|].
  exists w'. split; [exact H1|exact H2].
Defined.

(** Runs in a settled world. *)
Lemma settled_written (a : string) (w : World) :
  settled a w → written (output_dir a) fixtures (fs w) = fs w.
Proof.
  intros (_ & _ & Hf). apply map_eq. intros p.
  destruct (decide (p ∈ map (target (output_dir a)) fixtures)) as [Hin|Hout].
  - apply list_elem_of_fmap in Hin as (x & -> & Hx).
    rewrite written_lookup; [by rewrite Hf|apply fixtures_targets_NoDup|done].
  - by apply written_lookup_other.
Qed.

Lemma settled_fs (a : string) (w w' : World) : fs w' = fs w → settled a w → settled a w'.
Proof. unfold settled. by intros ->. Qed.

Lemma settled_run (a : string) (w : World) :
  settled a w →
  ∃ w', create_test_directory a w = (w', Return (output_dir a))
    ∧ fs w' = fs w ∧ env w' = env w
    ∧ stdout w' = stdout w ++ printed fixtures (output_dir a).
Proof.
  intros Hs. pose proof Hs as (Hd & Hp & Hf).
  pose proof (makedirs_present a w Hd Hp) as Hm.
  apply is_dir_lookup in Hd as [dw Hd].
  rewrite create_test_directory_table.
  rewrite (run_table_ok fixtures a w w dw); [|apply fixtures_bare|done..|].
  - eexists. split; [done|]. rewrite fs_run, env_run, stdout_run.
    split; [by apply settled_written|done].
  - apply Forall_forall. intros x Hx. unfold writable_at. by rewrite Hf.
Qed.

Lemma settled_after (a : string) (w w1 : World) (r : string) :
  is_Some (fs w !! dirname a) →
  create_test_directory a w = (w1, Return r) → settled a w1.
Proof.
  intros Hp (-> & w0 & Hm & ->)%run_return. unfold settled. rewrite fs_run.
  split; [|split].
  - unfold is_dir.
    rewrite written_lookup_other by (apply output_dir_not_target, fixtures_bare).
    by apply makedirs_return in Hm.
  - apply written_is_Some.
    eapply dirs_added_is_Some; [by eapply makedirs_frame|done].
  - intros x Hx.
    by apply written_lookup; [apply fixtures_targets_NoDup|].
Qed.

Lemma main_times_settled (n : nat) (a : string) (w : World) :
  settled a w →
  ∃ wn, main_times n a w = (wn, Return tt)
    ∧ fs wn = fs w ∧ env wn = env w
    ∧ stdout wn = stdout w ++ concat (replicate n (printed fixtures (output_dir a))).
Proof.
  revert w. induction n as [|n IH]; intros w Hs.
  - exists w. simpl. unfold ret. by rewrite app_nil_r.
  - destruct (settled_run a w Hs) as (w1 & Hrun & Hf1 & He1 & Ho1).
    destruct (IH w1 (settled_fs a w w1 Hf1 Hs)) as (wn & Hn & Hfn & Hen & Hon).
    exists wn. simpl main_times. unfold bind at 1. unfold main, bind at 1.
    rewrite Hrun. unfold ret. rewrite Hn. split; [done|].
    split; [congruence|]. split; [congruence|].
    rewrite Hon, Ho1. cbn [replicate concat]. by rewrite <- app_assoc.
Qed.

Lemma length_concat_replicate {A} (n : nat) (l : list A) :
  length (concat (replicate n l)) = (n * length l)%nat.
Proof.
  induction n as [|n IH]; [done|].
  cbn [replicate concat]. rewrite length_app, IH. lia.
Qed.

(** X10.  Once a run has returned in a world where the directory of the
    script exists, any number of further runs return too: the file system
    and the environment stay as the first run left them, and each run adds
    its nineteen console entries. *)
Theorem X10_repeated_runs (a : string) (w w1 : World) (r : string) (n : nat) :
  is_Some (fs w !! dirname a) →
  create_test_directory a w = (w1, Return r) →
  ∃ wn, main_times n a w1 = (wn, Return tt)
    ∧ fs wn = fs w1
    ∧ env wn = env w1
    ∧ stdout wn = stdout w1 ++ concat (replicate n (printed fixtures r))
    ∧ length (stdout wn) = (length (stdout w1) + 19 * n)%nat.
Proof.
  intros Hp Hrun. pose proof (settled_after _ _ _ _ Hp Hrun) as Hs.
  apply run_return in Hrun as (-> & _).
  destruct (main_times_settled n a w1 Hs) as (wn & Hn & Hfn & Hen & Hon).
  exists wn. split; [done|]. split; [done|]. split; [done|]. split; [done|].
  rewrite Hon, length_app, length_concat_replicate.
  change (length (printed fixtures (output_dir a))) with 19%nat. lia.
Qed.

Lemma X10_repeated_runs_witness :
  let w1 := (create_test_directory "/proj/test_preview.py" demo_world).1 in
  ∃ w3, main_times 3 "/proj/test_preview.py" w1 = (w3, Return tt)
    ∧ fs w3 = fs w1
    ∧ length (stdout w3) = 76%nat.
Proof.
  intros w1.
  assert (is_Some (fs demo_world !! dirname "/proj/test_preview.py")) as Hp
    by (vm_compute; eexists; reflexivity).
  assert (create_test_directory "/proj/test_preview.py" demo_world
          = (w1, Return "/proj/test_preview_files")) as E by (vm_compute; reflexivity).
  destruct (X10_repeated_runs _ _ _ _ 3 Hp E) as (w3 & H1 & H2 & _ & _ & H3).
  exists w3. split; [exact H1|]. split; [exact H2|]. rewrite H3. reflexivity.
Defined.

End Directories.

Section Stream.
Import Str io posixpath os.

(** X11.  The console as a stream of lines.  When the path of the script
    holds no line feed, a run that returns adds twenty-one lines to the
    stream: the header, a rule, the ten confirmations, a rule, an empty
    line, the success line, an empty line and the five lines of
    instructions; exactly ten of them start with "✅ Created: ". *)
Theorem X11_console_stream (a : string) (w w' : World) (r : string) :
  contains a (ascii_of_nat 10) = false →
  create_test_directory a w = (w', Return r) →
  ∃ txt, stdout_text w' = stdout_text w +:+ txt
    ∧ split_nl txt
      = [ "Creating test files in: " +:+ r; mul "-" 50 ]
        ++ map (λ x : fixture, "✅ Created: " +:+ join r x.1) fixtures
        ++ [ mul "-" 50;
             EmptyString;
             "🎉 Test files created successfully!";
             EmptyString;
             "To test preview functionality:";
             "1. Open OfflineProjectManager";
             "2. Create or open a project";
             "3. Add folder: " +:+ r;
             "4. Click on each file to test preview";
             EmptyString ]
    ∧ length (filter (λ s, is_confirmation s = true) (split_nl txt)) = 10%nat.
Proof.
  intros Ha Hrun. pose proof (run_stdout_text _ _ _ _ Hrun) as [_ Htxt].
  apply run_return in Hrun as (-> & _).
  exists (String.concat EmptyString (map (λ s, s +:+ nl) (printed fixtures (output_dir a)))).
  split; [exact Htxt|]. rewrite (console_lines a Ha). split; [reflexivity|].
  rewrite !filter_app, (filter_confirmations (output_dir a) fixtures). reflexivity.
Qed.

Lemma X11_console_stream_witness :
  let w' := (create_test_directory "/proj/test_preview.py" demo_world).1 in
  length (split_nl (stdout_text w')) = 22%nat
  ∧ length (filter (λ s, is_confirmation s = true) (split_nl (stdout_text w'))) = 10%nat.
Proof.
  intros w'.
  assert (contains "/proj/test_preview.py" (ascii_of_nat 10) = false) as Ha by reflexivity.
  assert (create_test_directory "/proj/test_preview.py" demo_world
          = (w', Return "/proj/test_preview_files")) as E by (vm_compute; reflexivity).
  destruct (X11_console_stream _ _ _ _ Ha E) as (txt & H1 & H2 & H3).
  change (stdout_text demo_world) with EmptyString in H1.
  rewrite app_empty_l in H1. rewrite H1. split; [|exact H3].
  rewrite H2. reflexivity.
Defined.

End Stream.

(** * sample.py *)

Section Sample.
Import sample.

(** X12.  [add] and [subtract] undo each other: subtracting from a sum one
    of its terms gives the other one back, adding to a difference what was
    subtracted gives the first number back; the object then holds that
    number, whatever it held before. *)
Theorem X12_add_subtract (a b : Z) (self : Calculator) :
  (let '(c1, s) := add a b self in
   let '(c2, d) := subtract s b c1 in
   d = a ∧ result c2 = a)
  ∧ (let '(c1, d) := subtract a b self in
     let '(c2, s) := add d b c1 in
     s = a ∧ result c2 = a).
Proof. unfold add, subtract. cbn [result]. split; split; lia. Qed.

Lemma do_calls_values (cs : list call) (self : Calculator) :
  (do_calls cs self).2
  = map (λ c, match c with Add a b => a + b | Subtract a b => a - b end) cs.
Proof.
  revert self. induction cs as [|c cs IH]; intros self; [done|].
  cbn [do_calls map]. destruct (do_call c self) as [s1 v] eqn:E1.
  specialize (IH s1). destruct (do_calls cs s1) as [s2 vs]. cbn [snd] in *.
  rewrite IH. f_equal. by destruct c; injection E1 as _ <-.
Qed.

Lemma last_cons_default {A} (l : list A) (x d d' : A) :
  List.last (x :: l) d = List.last (x :: l) d'.
Proof. revert x. induction l as [|y l IH]; intros x; [done|]. apply (IH y). Qed.

(** X13.  The calculator keeps no running total.  In any row of calls on
    one object, each call returns the sum or difference of its own two
    arguments, whatever went before, and after the row [result] is the
    value of the last call, or what it was when the row is empty. *)
Theorem X13_no_running_total (cs : list call) (self : Calculator) :
  (do_calls cs self).2
  = map (λ c, match c with Add a b => a + b | Subtract a b => a - b end) cs
  ∧ result (do_calls cs self).1 = List.last (do_calls cs self).2 (result self).
Proof.
  split; [apply do_calls_values|].
  revert self. induction cs as [|c cs IH]; intros self; [done|].
  cbn [do_calls]. destruct (do_call c self) as [s1 v] eqn:E1.
  specialize (IH s1). pose proof (do_calls_values cs s1) as Hv.
  destruct (do_calls cs s1) as [s2 vs]. cbn [fst snd] in *.
  rewrite IH, Hv. destruct cs as [|c' cs].
  - simpl. by destruct c; injection E1 as <- <-.
  - cbn [map]. change (List.last (v :: ?x :: ?l) ?d) with (List.last (x :: l) d).
    apply last_cons_default.
Qed.

(** What the sample prints when it is run. *)
Example sample_main (w : World) :
  main w = (emit ["Hello, World!"; "5 + 3 = 8"] w, Return tt).
Proof.
  unfold main, hello_world, bind, io.print, ret, emit. cbn.
  f_equal. f_equal. by rewrite <- app_assoc.
Qed.

End Sample.
